(** * Tool-calling agents over a desktop-automation facade

    A shallow embedding of the example scripts of the repository
    (simple-agent.js, test-agent.js, vision-artist.js, working-artist.js,
    the simple vision artist and the full AI agent), together with the
    properties their specification states about them.

    Conventions of the embedding:
    - an [async] function is a computation in the monad [M]: it threads the
      state of the outside world, may return, throw an [Error] with a message,
      end the process ([process.exit]) or never come back; [await] is
      sequencing;
    - every call that leaves the script (the desktop SDK, the file system,
      the language model, the host evaluator, the clock) is a constructor of
      [call]; what it answers is decided by a [Facade] instance, about which
      nothing is assumed;
    - the calculators hand the user's expression to [Function(...)()], which
      runs it inside the process: besides returning a value or throwing, the
      text may end the process or loop for ever, and the objects it builds
      bring their own [toString].  These are the answers of the [host] calls;
      what the text prints, changes or leaves scheduled is part of the world
      it leaves, and it is taken not to redefine the built-ins the scripts
      use;
    - what a run does is recorded as a list of [event]s: the external calls
      with their failure, the lines printed, the pauses;
    - [chalk] colours, the frames of [boxen] and the lettering of [figlet]
      are dropped from printed text; strings are byte strings, so lengths,
      [trim] and the change of case agree with JavaScript on ASCII text;
    - the numbers the scripts build themselves (pixel sizes, counts, lengths,
      exit codes) are integers and are modelled in [Z]; the doubles of the
      shape generators are left abstract. *)

From Stdlib Require Import ZArith List String Ascii Bool Lia.
From Stdlib Require Import DecimalString.
Import ListNotations.
Local Open Scope list_scope.
Local Open Scope string_scope.

Set Implicit Arguments.
Set Warnings "-register-all".

(** ** JavaScript values *)

Inductive value : Type :=
| VUndef
| VNull
| VBool (b : bool)
| VNum (n : Z)
| VStr (s : string)
| VArr (items : list value)
| VObj (fields : list (string * value))
| VOther (shown : string).
(* [VOther] stands for any other host value (a non-integer number, a
   function, a symbol, ...), known by the text its string conversion gives
   where the scripts print it; it is taken as truthy.  The calculators do
   not rely on that text: what the user's expression returned is converted
   by the host (see [method_toString] and [template_of]). *)

Definition string_of_Z (z : Z) : string := NilZero.string_of_int (Z.to_int z).

Definition string_of_nat (n : nat) : string := string_of_Z (Z.of_nat n).

Definition len (s : string) : Z := Z.of_nat (String.length s).

(** String conversion, as a template literal performs it. *)
Fixpoint js_to_string (v : value) : string :=
  match v with
  | VUndef => "undefined"
  | VNull => "null"
  | VBool true => "true"
  | VBool false => "false"
  | VNum n => string_of_Z n
  | VStr s => s
  | VArr items =>
      String.concat ","
        (List.map (fun x => match x with
                            | VUndef | VNull => ""
                            | _ => js_to_string x
                            end) items)
  | VObj _ => "[object Object]"
  | VOther shown => shown
  end.

Definition truthy (v : value) : bool :=
  match v with
  | VUndef | VNull => false
  | VBool b => b
  | VNum n => negb (Z.eqb n 0)
  | VStr s => negb (String.eqb s "")
  | VArr _ | VObj _ | VOther _ => true
  end.

(** [v === "s"] *)
Definition is_string (v : value) (s : string) : bool :=
  match v with
  | VStr t => String.eqb t s
  | _ => false
  end.

(** Own properties of an object literal, in insertion order. *)
Fixpoint lookup (k : string) (fields : list (string * value)) : option value :=
  match fields with
  | [] => None
  | (k', v) :: rest => if String.eqb k k' then Some v else lookup k rest
  end.

Definition get (k : string) (v : value) : value :=
  match v with
  | VObj fields => match lookup k fields with Some x => x | None => VUndef end
  | _ => VUndef
  end.

Definition has_field (k : string) (v : value) : bool :=
  match v with
  | VObj fields => match lookup k fields with Some _ => true | None => false end
  | _ => false
  end.

Fixpoint set_field (k : string) (x : value) (fields : list (string * value))
  : list (string * value) :=
  match fields with
  | [] => [(k, x)]
  | (k', v) :: rest =>
      if String.eqb k k' then (k, x) :: rest else (k', v) :: set_field k x rest
  end.

(** [obj.k = x] on an object. *)
Definition set (k : string) (x : value) (v : value) : value :=
  match v with
  | VObj fields => VObj (set_field k x fields)
  | _ => v
  end.

(** ** Strings *)

Definition is_space (c : ascii) : bool :=
  let n := nat_of_ascii c in
  (Nat.eqb n 32 || (Nat.leb 9 n && Nat.leb n 13))%bool.

Fixpoint trim_start (s : string) : string :=
  match s with
  | EmptyString => EmptyString
  | String c rest => if is_space c then trim_start rest else s
  end.

Fixpoint rev_string (s acc : string) : string :=
  match s with
  | EmptyString => acc
  | String c rest => rev_string rest (String c acc)
  end.

Definition trim_end (s : string) : string :=
  rev_string (trim_start (rev_string s EmptyString)) EmptyString.

Definition trim (s : string) : string := trim_end (trim_start s).

(** [s.split(' ')]: the pieces between single spaces; never empty. *)
Fixpoint split_space (s : string) : list string :=
  match s with
  | EmptyString => [EmptyString]
  | String c rest =>
      if Ascii.eqb c " "%char then EmptyString :: split_space rest
      else match split_space rest with
           | [] => [String c EmptyString]
           | piece :: pieces => String c piece :: pieces
           end
  end.

Definition join (sep : string) (pieces : list string) : string :=
  String.concat sep pieces.

Fixpoint starts_with (p s : string) : bool :=
  match p, s with
  | EmptyString, _ => true
  | String a p', String b s' => (Ascii.eqb a b && starts_with p' s')%bool
  | String _ _, EmptyString => false
  end.

Definition ends_with (p s : string) : bool :=
  starts_with (rev_string p EmptyString) (rev_string s EmptyString).

Fixpoint includes (needle s : string) : bool :=
  (starts_with needle s ||
   match s with
   | EmptyString => false
   | String _ rest => includes needle rest
   end)%bool.

Fixpoint repeat_string (s : string) (n : nat) : string :=
  match n with
  | O => EmptyString
  | S n' => s ++ repeat_string s n'
  end.

(** ** The outside world *)

(** What the desktop SDK hands back. *)
Record Screenshot := { width : Z; height : Z; imageData : list Z }.
Record Locator := { locator_id : nat }.
Record Element := { element_id : nat }.
Record CommandOutput := { exitStatus : value; stdout : string; stderr : string }.

(** The answer of the model to one [streamText] request: the text chunks and
    the tool calls, each with its tool name and the result the SDK attached. *)
Record StreamResponse :=
  { textStream : list string; toolCalls : option (list value) }.

(** What running a piece of the user's text inside the process comes to,
    when it does not throw: it returns, it ends the process
    ([process.exit (code)]), or it never returns. *)
Inductive ending (A : Type) : Type :=
| Returned (a : A)
| Exited (code : Z)
| Looping.
Arguments Returned {A} a.
Arguments Exited {A} code.
Arguments Looping {A}.

(** Every operation that leaves the script, indexed by what it returns. *)
Inductive call : Type -> Type :=
(* the Automation Facade: terminator.js *)
| NewDesktop : call unit
| CaptureScreen : call Screenshot
| OcrScreenshot (s : Screenshot) : call string
| OcrImagePath (path : string) : call string
| MkLocator (selector : string) : call Locator
| LocatorFirst (l : Locator) : call Element
| LocatorAll (l : Locator) : call (list Element)
| LocatorClick (l : Locator) : call unit
| MouseClickAndHold (l : Locator) (x y : Z) : call unit
| MouseMove (l : Locator) (x y : Z) : call unit
| MouseRelease (l : Locator) : call unit
| ElClick (e : Element) : call value
| ElDoubleClick (e : Element) : call value
| ElRightClick (e : Element) : call unit
| ElName (e : Element) : call string
| ElRole (e : Element) : call string
| ElText (e : Element) (depth : Z) : call string
| ElIsVisible (e : Element) : call bool
| ElIsEnabled (e : Element) : call bool
| ElBounds (e : Element) : call value
| ElTypeText (e : Element) (text : string) (useClipboard : bool) : call unit
| ElFocus (e : Element) : call unit
| OpenApplication (name : string) : call Element
| Applications : call (list Element)
| ActivateApplication (name : string) : call unit
| Application (name : string) : call Element
| FocusedElement : call Element
| RunCommand (windowsCommand unixCommand : option string) : call CommandOutput
| OpenFile (path : string) : call unit
| OpenUrl (url : string) (browser : option string) : call unit
| GetCurrentBrowserWindow : call Element
(* the file system: fs/promises *)
| FsWriteFile (path : string) (data : list Z) : call unit
| FsWriteText (path content : string) : call unit
| FsReadFile (path : string) : call (list Z)
| FsReadText (path : string) : call string
| FsReaddir (dir : string) : call (list string)
(* the language model: ai + ollama *)
| GenerateText (prompt : string) : call string
| StreamText (system : option string) (prompt : string) (context : list value)
    (toolNames : list string) : call StreamResponse
(* the host: Function(...)() and the conversions of what it returned, Date,
   inquirer *)
| EvalJs (source : string) : call (ending value)
| ToStringOf (v : value) : call (ending string)
| TemplateOf (v : value) : call (ending string)
| DateNow : call Z
| DateIso : call string
| Prompt (message : string) : call string.

Definition is_facade {A} (c : call A) : bool :=
  match c with
  | FsWriteFile _ _ | FsWriteText _ _ | FsReadFile _ | FsReadText _
  | FsReaddir _ | GenerateText _ | StreamText _ _ _ _ | EvalJs _
  | ToStringOf _ | TemplateOf _ | DateNow | DateIso | Prompt _ => false
  | _ => true
  end.

Inductive reply (A : Type) : Type :=
| Ok (a : A)
| Fail (message : string).
Arguments Ok {A} a.
Arguments Fail {A} message.

(** The environment a script runs in. *)
Class Facade (World : Type) : Type :=
  { perform : forall A, call A -> World -> reply A * World;
    platform : string }.

Inductive event : Type :=
| EvCall {A} (c : call A) (failure : option string)
| EvPrint (line : string)
| EvWrite (chunk : string)
| EvPrintJson (label : string) (v : value)
| EvSpinner (text : string)
| EvSpinnerStop
| EvSleep (ms : Z).

Inductive outcome (A : Type) : Type :=
| Ret (a : A)
| Throw (message : string)
| Exit (code : Z)
| Hang.
(* [Hang]: the run never comes back (the evaluated text loops). *)
Arguments Ret {A} a.
Arguments Throw {A} message.
Arguments Exit {A} code.
Arguments Hang {A}.

(** ** The monad of scripts *)

Definition script (World : Type) (A : Type) : Type :=
  World -> outcome A * World * list event.

Section Monad.
Context {World : Type} `{Facade World}.
Local Abbreviation M := (script World).

Definition ret {A} (a : A) : M A := fun w => (Ret a, w, []).

Definition throw {A} (msg : string) : M A := fun w => (Throw msg, w, []).

Definition process_exit {A} (code : Z) : M A := fun w => (Exit code, w, []).

(** A run that follows the events [ev1]. *)
Definition after {A} (ev1 : list event) (r : outcome A * World * list event)
  : outcome A * World * list event :=
  match r with
  | (o, w2, ev2) => (o, w2, (ev1 ++ ev2)%list)
  end.

Definition bind {A B} (m : M A) (k : A -> M B) : M B :=
  fun w =>
    match m w with
    | (Ret a, w1, ev1) => after ev1 (k a w1)
    | (Throw msg, w1, ev1) => (Throw msg, w1, ev1)
    | (Exit code, w1, ev1) => (Exit code, w1, ev1)
    | (Hang, w1, ev1) => (Hang, w1, ev1)
    end.

(** [try { body } catch (error) { handler error.message }] *)
Definition try_catch {A} (body : M A) (handler : string -> M A) : M A :=
  fun w =>
    match body w with
    | (Throw msg, w1, ev1) => after ev1 (handler msg w1)
    | r => r
    end.

Definition emit (e : event) : M unit := fun w => (Ret tt, w, [e]).

(** An external call: logged, and a failure becomes an exception. *)
Definition ext {A} (c : call A) : M A :=
  fun w =>
    match perform c w with
    | (Ok a, w1) => (Ret a, w1, [EvCall c None])
    | (Fail msg, w1) => (Throw msg, w1, [EvCall c (Some msg)])
    end.

(** A call that runs the user's text: what the text throws becomes an
    exception of the script, and when the text ends the process or loops, so
    does the script. *)
Definition host {A} (c : call (ending A)) : M A :=
  fun w =>
    match perform c w with
    | (Ok (Returned a), w1) => (Ret a, w1, [EvCall c None])
    | (Ok (Exited code), w1) => (Exit code, w1, [EvCall c None])
    | (Ok Looping, w1) => (Hang, w1, [EvCall c None])
    | (Fail msg, w1) => (Throw msg, w1, [EvCall c (Some msg)])
    end.

Definition console_log (line : string) : M unit := emit (EvPrint line).
Definition stdout_write (chunk : string) : M unit := emit (EvWrite chunk).
Definition sleep (ms : Z) : M unit := emit (EvSleep ms).
Definition spinner_start (text : string) : M unit := emit (EvSpinner text).
Definition spinner_stop : M unit := emit EvSpinnerStop.

Definition is_windows : bool := String.eqb platform "win32".
End Monad.

Declare Scope js_scope.
Delimit Scope js_scope with js.
Notation "x <- m ;; k" := (bind m (fun x => k))
  (at level 61, m at next level, right associativity) : js_scope.
Notation "m ;; k" := (bind m (fun _ => k))
  (at level 61, right associativity) : js_scope.
Notation "'try' body 'catch' x => handler" := (try_catch body (fun x => handler))
  (at level 61, x name, body at level 60, handler at level 61) : js_scope.
Local Open Scope js_scope.

(** The integers a JavaScript number holds exactly, and prints digit by
    digit: those up to [Number.MAX_SAFE_INTEGER] in absolute value. *)
Definition safe_integer (n : Z) : bool := (Z.abs n <=? 9007199254740991)%Z.

(** The values whose conversion to a string is built in and is the text
    [js_to_string] gives: the booleans, the strings and the safe integers. *)
Definition primitive (v : value) : bool :=
  match v with
  | VBool _ | VStr _ => true
  | VNum n => safe_integer n
  | _ => false
  end.

Section Helpers.
Context {World : Type} `{Facade World}.
Local Abbreviation M := (script World).

Fixpoint mapM {A B} (f : A -> M B) (l : list A) : M (list B) :=
  match l with
  | [] => ret []
  | a :: rest => b <- f a ;; bs <- mapM f rest ;; ret (b :: bs)
  end.

(** [for (const x of l) await body x] and [l.forEach(body)] *)
Fixpoint forM {A} (l : list A) (body : A -> M unit) : M unit :=
  match l with
  | [] => ret tt
  | a :: rest => body a ;; forM rest body
  end.

Definition when (b : bool) (m : M unit) : M unit := if b then m else ret tt.

Definition type_error {A} (what : string) : M A :=
  throw (what ++ " is not a function").

(** [v.toString()] on what the evaluated text returned: built in for a
    boolean, a string and a safe integer; an object, an array or any other
    value answers with its own method, which may be missing, may throw, and
    is the user's text again (the text of a number that is no safe integer
    is left to the host as well). *)
Definition method_toString (v : value) : M string :=
  match v with
  | VUndef => throw "Cannot read properties of undefined (reading 'toString')"
  | VNull => throw "Cannot read properties of null (reading 'toString')"
  | _ => if primitive v then ret (js_to_string v) else host (ToStringOf v)
  end.

(** [`${v}`] on what the evaluated text returned: the conversion of a
    primitive is built in, that of any other value goes through its
    [Symbol.toPrimitive], [toString] or [valueOf] (and throws for a symbol). *)
Definition template_of (v : value) : M string :=
  match v with
  | VUndef | VNull => ret (js_to_string v)
  | _ => if primitive v then ret (js_to_string v) else host (TemplateOf v)
  end.

(** [v.k], where reading a property of [undefined] or [null] throws. *)
Definition prop (v : value) (k : string) : M value :=
  match v with
  | VUndef => throw ("Cannot read properties of undefined (reading '" ++ k ++ "')")
  | VNull => throw ("Cannot read properties of null (reading '" ++ k ++ "')")
  | _ => ret (get k v)
  end.

(** [v.trim()] *)
Definition method_trim (v : value) (what : string) : M string :=
  match v with
  | VStr s => ret (trim s)
  | VUndef | VNull => throw ("Cannot read properties of " ++ js_to_string v ++ " (reading 'trim')")
  | _ => type_error (what ++ ".trim")
  end.

(** [v.substring(0, n)] *)
Definition method_substring (v : value) (n : nat) (what : string) : M string :=
  match v with
  | VStr s => ret (substring 0 n s)
  | VUndef | VNull => throw ("Cannot read properties of " ++ js_to_string v ++ " (reading 'substring')")
  | _ => type_error (what ++ ".substring")
  end.

(** [v.length] of a string or an array. *)
Definition length_of (v : value) : value :=
  match v with
  | VStr s => VNum (len s)
  | VArr items => VNum (Z.of_nat (List.length items))
  | _ => VUndef
  end.

(** The items that [v.forEach(...)] or [v.map(...)] visits. *)
Definition items_of (v : value) (what method : string) : M (list value) :=
  match v with
  | VArr items => ret items
  | VUndef | VNull =>
      throw ("Cannot read properties of " ++ js_to_string v ++ " (reading '"
             ++ method ++ "')")
  | _ => type_error (what ++ "." ++ method)
  end.
End Helpers.

(** [Math.round (n / 1024)] for a length [n >= 0]. *)
Definition round_div_1024 (n : Z) : Z := ((n + 512) / 1024)%Z.

Definition opt_value (o : option string) : value :=
  match o with Some s => VStr s | None => VUndef end.

Definition fail_result (message : string) : value :=
  VObj [("success", VBool false); ("error", VStr message)].

(** The double quote and the line feed, for the template literals that
    print them. *)
Definition dquote : string := String (ascii_of_nat 34) EmptyString.
Definition nl : string := String (ascii_of_nat 10) EmptyString.

(** The body handed to [Function]: ["use strict"; return (expression)]. *)
Definition strict_return (expression : string) : string :=
  dquote ++ "use strict" ++ dquote ++ "; return (" ++ expression ++ ")".

Definition describe_size (s : Screenshot) : string :=
  string_of_Z (width s) ++ "x" ++ string_of_Z (height s).

(** ** simple-agent.js *)

Module SimpleAgent.
Section WithFacade.
Context {World : Type} `{Facade World}.
Local Abbreviation M := (script World).

Definition screenshot_execute (withOCR : bool) : M value :=
  try (
    screenshot <- ext CaptureScreen ;;
    let result :=
      VObj [("success", VBool true);
            ("message", VStr ("Screenshot taken (" ++ describe_size screenshot ++ ")"))] in
    if withOCR then
      text <- ext (OcrScreenshot screenshot) ;;
      let result := set "extractedText" (VStr text) result in
      let result :=
        set "message"
          (VStr (js_to_string (get "message" result) ++ " with "
                 ++ string_of_Z (len text) ++ " characters of text extracted"))
          result in
      ret result
    else ret result)
  catch message => ret (fail_result message).

Definition clickElement_execute (selector : string) : M value :=
  try (
    locator <- ext (MkLocator selector) ;;
    element <- ext (LocatorFirst locator) ;;
    ext (ElClick element) ;;
    ret (VObj [("success", VBool true);
               ("message", VStr ("Clicked on " ++ selector))]))
  catch message => ret (fail_result message).

Definition describe_element (el : Element) : M value :=
  name <- ext (ElName el) ;;
  role <- ext (ElRole el) ;;
  text <- ext (ElText el 1) ;;
  visible <- ext (ElIsVisible el) ;;
  ret (VObj [("name", VStr (if String.eqb name "" then "Unknown" else name));
             ("role", VStr role);
             ("text", VStr text);
             ("visible", VBool visible)]).

Definition findElements_execute (selector : string) : M value :=
  try (
    locator <- ext (MkLocator selector) ;;
    elements <- ext (LocatorAll locator) ;;
    details <- mapM describe_element (firstn 5 elements) ;;
    ret (VObj [("success", VBool true);
               ("count", VNum (Z.of_nat (List.length elements)));
               ("elements", VArr details);
               ("message", VStr ("Found " ++ string_of_nat (List.length elements)
                                 ++ " elements matching " ++ selector))]))
  catch message => ret (fail_result message).

Definition openApp_execute (appName : string) : M value :=
  try (
    app <- ext (OpenApplication appName) ;;
    name <- ext (ElName app) ;;
    role <- ext (ElRole app) ;;
    ret (VObj [("success", VBool true);
               ("message", VStr ("Opened " ++ appName));
               ("app", VObj [("name", VStr name); ("role", VStr role)])]))
  catch message => ret (fail_result message).

Definition typeText_execute (text : string) : M value :=
  try (
    element <- ext FocusedElement ;;
    ext (ElTypeText element text false) ;;
    ret (VObj [("success", VBool true);
               ("message", VStr ("Typed: " ++ dquote ++ text ++ dquote))]))
  catch message => ret (fail_result message).

Definition calculate_execute (expression : string) : M value :=
  try (
    result <- host (EvalJs (strict_return expression)) ;;
    shown <- method_toString result ;;
    text <- template_of result ;;
    ret (VObj [("success", VBool true);
               ("result", VStr shown);
               ("message", VStr (expression ++ " = " ++ text))]))
  catch message => ret (fail_result "Invalid mathematical expression").

Definition runCommand_execute (command : string) : M value :=
  try (
    let isWindows := is_windows in
    result <- ext (RunCommand (if isWindows then Some command else None)
                              (if negb isWindows then Some command else None)) ;;
    ret (VObj [("success", VBool true);
               ("exitCode", exitStatus result);
               ("output", VStr (stdout result));
               ("error", VStr (stderr result));
               ("message", VStr ("Command executed with exit code "
                                 ++ js_to_string (exitStatus result)))]))
  catch message => ret (fail_result message).

(** The registry handed to the model, as calls with their arguments. *)
Inductive invocation : Type :=
| Screenshot_ (withOCR : bool)
| ClickElement (selector : string)
| FindElements (selector : string)
| OpenApp (appName : string)
| TypeText (text : string)
| Calculate (expression : string)
| RunCommand_ (command : string).

Definition execute (i : invocation) : M value :=
  match i with
  | Screenshot_ withOCR => screenshot_execute withOCR
  | ClickElement selector => clickElement_execute selector
  | FindElements selector => findElements_execute selector
  | OpenApp appName => openApp_execute appName
  | TypeText text => typeText_execute text
  | Calculate expression => calculate_execute expression
  | RunCommand_ command => runCommand_execute command
  end.

End WithFacade.
End SimpleAgent.

(** ** test-agent.js *)

Module TestAgent.
Section WithFacade.
Context {World : Type} `{Facade World}.
Local Abbreviation M := (script World).

Definition screenshot_execute (withOCR : bool) : M value :=
  try (
    console_log "📸 Taking screenshot..." ;;
    screenshot <- ext CaptureScreen ;;
    let result :=
      VObj [("success", VBool true);
            ("message", VStr ("Screenshot taken (" ++ describe_size screenshot ++ ")"))] in
    if withOCR then
      console_log "🔤 Extracting text..." ;;
      text <- ext (OcrScreenshot screenshot) ;;
      let result := set "extractedText" (VStr text) result in
      let result :=
        set "message"
          (VStr (js_to_string (get "message" result) ++ " with "
                 ++ string_of_Z (len text) ++ " characters of text extracted"))
          result in
      ret result
    else ret result)
  catch message => ret (fail_result message).

Definition clickElement_execute (selector : string) : M value :=
  try (
    console_log ("🖱️ Looking for " ++ selector ++ "...") ;;
    locator <- ext (MkLocator selector) ;;
    element <- ext (LocatorFirst locator) ;;
    console_log "🖱️ Clicking..." ;;
    ext (ElClick element) ;;
    ret (VObj [("success", VBool true);
               ("message", VStr ("Clicked on " ++ selector))]))
  catch message => ret (fail_result message).

Definition describe_element (el : Element) : M value :=
  name <- ext (ElName el) ;;
  role <- ext (ElRole el) ;;
  text <- ext (ElText el 1) ;;
  visible <- ext (ElIsVisible el) ;;
  ret (VObj [("name", VStr (if String.eqb name "" then "Unknown" else name));
             ("role", VStr role);
             ("text", VStr text);
             ("visible", VBool visible)]).

Definition findElements_execute (selector : string) : M value :=
  try (
    console_log ("🔍 Searching for " ++ selector ++ "...") ;;
    locator <- ext (MkLocator selector) ;;
    elements <- ext (LocatorAll locator) ;;
    details <- mapM describe_element (firstn 5 elements) ;;
    ret (VObj [("success", VBool true);
               ("count", VNum (Z.of_nat (List.length elements)));
               ("elements", VArr details);
               ("message", VStr ("Found " ++ string_of_nat (List.length elements)
                                 ++ " elements matching " ++ selector))]))
  catch message => ret (fail_result message).

Definition openApp_execute (appName : string) : M value :=
  try (
    console_log ("🚀 Opening " ++ appName ++ "...") ;;
    app <- ext (OpenApplication appName) ;;
    name <- ext (ElName app) ;;
    role <- ext (ElRole app) ;;
    ret (VObj [("success", VBool true);
               ("message", VStr ("Opened " ++ appName));
               ("app", VObj [("name", VStr name); ("role", VStr role)])]))
  catch message => ret (fail_result message).

Definition typeText_execute (text : string) : M value :=
  try (
    console_log ("⌨️ Typing " ++ dquote ++ text ++ dquote ++ "...") ;;
    element <- ext FocusedElement ;;
    ext (ElTypeText element text false) ;;
    ret (VObj [("success", VBool true);
               ("message", VStr ("Typed: " ++ dquote ++ text ++ dquote))]))
  catch message => ret (fail_result message).

Definition calculate_execute (expression : string) : M value :=
  try (
    console_log ("🧮 Calculating " ++ expression ++ "...") ;;
    result <- host (EvalJs (strict_return expression)) ;;
    shown <- method_toString result ;;
    text <- template_of result ;;
    ret (VObj [("success", VBool true);
               ("result", VStr shown);
               ("message", VStr (expression ++ " = " ++ text))]))
  catch message => ret (fail_result "Invalid mathematical expression").

Definition runCommand_execute (command : string) : M value :=
  try (
    console_log ("🏃 Running command: " ++ command ++ "...") ;;
    let isWindows := is_windows in
    result <- ext (RunCommand (if isWindows then Some command else None)
                              (if negb isWindows then Some command else None)) ;;
    ret (VObj [("success", VBool true);
               ("exitCode", exitStatus result);
               ("output", VStr (stdout result));
               ("error", VStr (stderr result));
               ("message", VStr ("Command executed with exit code "
                                 ++ js_to_string (exitStatus result)))]))
  catch message => ret (fail_result message).

Inductive invocation : Type :=
| Screenshot_ (withOCR : bool)
| ClickElement (selector : string)
| FindElements (selector : string)
| OpenApp (appName : string)
| TypeText (text : string)
| Calculate (expression : string)
| RunCommand_ (command : string).

Definition execute (i : invocation) : M value :=
  match i with
  | Screenshot_ withOCR => screenshot_execute withOCR
  | ClickElement selector => clickElement_execute selector
  | FindElements selector => findElements_execute selector
  | OpenApp appName => openApp_execute appName
  | TypeText text => typeText_execute text
  | Calculate expression => calculate_execute expression
  | RunCommand_ command => runCommand_execute command
  end.

Definition tool_names : list string :=
  ["screenshot"; "clickElement"; "findElements"; "openApp"; "typeText";
   "calculate"; "runCommand"].

Definition system_prompt : string :=
  "You are a helpful AI assistant with desktop automation capabilities. You can:" ++ nl ++
  "- Take screenshots and extract text (OCR)" ++ nl ++
  "- Click on UI elements by selector" ++ nl ++
  "- Find and identify elements on screen  " ++ nl ++
  "- Open applications" ++ nl ++
  "- Type text" ++ nl ++
  "- Perform calculations" ++ nl ++
  "- Run shell commands" ++ nl ++ nl ++
  "When the user asks you to do something that requires these capabilities, use the appropriate tools. Be conversational and helpful. Always explain what you're doing." ++ nl ++ nl ++
  "Current platform: " ++ platform.

(** [params[0]] is missing or the empty string. *)
Definition missing (params : list string) : bool :=
  match params with
  | [] => true
  | p :: _ => String.eqb p ""
  end.

Definition first_param (params : list string) : string :=
  match params with
  | [] => ""
  | p :: _ => p
  end.

Definition show_tool_call (toolCall : value) : M unit :=
  toolResult <- prop toolCall "result" ;;
  success <- prop toolResult "success" ;;
  if truthy success then
    console_log (nl ++ "✅ " ++ js_to_string (get "message" toolResult)) ;;
    (if truthy (get "extractedText" toolResult) then
       head <- method_substring (get "extractedText" toolResult) 200
                 "toolResult.extractedText" ;;
       console_log ("📝 Text found: " ++ head ++ "...")
     else ret tt) ;;
    (if truthy (get "elements" toolResult) then
       items <- items_of (get "elements" toolResult) "toolResult.elements" "map" ;;
       names <- mapM (fun e => prop e "name") items ;;
       console_log ("🔍 Elements: "
                    ++ join ", " (List.map (fun n => match n with
                                                     | VUndef | VNull => ""
                                                     | _ => js_to_string n
                                                     end) names))
     else ret tt) ;;
    (if truthy (get "output" toolResult) then
       trimmed <- method_trim (get "output" toolResult) "toolResult.output" ;;
       if String.eqb trimmed "" then ret tt
       else console_log ("📤 Output: " ++ trimmed)
     else ret tt)
  else
    console_log (nl ++ "❌ Error: " ++ js_to_string (get "error" toolResult)).

Definition show_element (i : nat) (el : value) : M unit :=
  name <- prop el "name" ;;
  console_log ("  " ++ string_of_nat (i + 1) ++ ". " ++ js_to_string name
               ++ " (" ++ js_to_string (get "role" el) ++ ") "
               ++ (if truthy (get "visible" el) then "👁️" else "🚫")) ;;
  when (truthy (get "text" el))
    (console_log ("     Text: " ++ dquote ++ js_to_string (get "text" el) ++ dquote)).

Fixpoint show_elements (i : nat) (els : list value) : M unit :=
  match els with
  | [] => ret tt
  | el :: rest => show_element i el ;; show_elements (S i) rest
  end.

(** The display of a result, after the [switch]. *)
Definition display (result : value) : M unit :=
  success <- prop result "success" ;;
  if truthy success then
    console_log ("✅ " ++ js_to_string (get "message" result)) ;;
    (if truthy (get "extractedText" result) then
       let text := get "extractedText" result in
       console_log ("📝 Text found (" ++ js_to_string (length_of text) ++ " chars):") ;;
       head <- method_substring text 500 "result.extractedText" ;;
       console_log head ;;
       when (match length_of text with VNum n => Z.ltb 500 n | _ => false end)
         (console_log "... (truncated)")
     else ret tt) ;;
    (if truthy (get "elements" result) then
       console_log ("🔍 Found " ++ js_to_string (get "count" result) ++ " elements:") ;;
       items <- items_of (get "elements" result) "result.elements" "forEach" ;;
       show_elements 0 items
     else ret tt) ;;
    (if truthy (get "output" result) then
       trimmed <- method_trim (get "output" result) "result.output" ;;
       if String.eqb trimmed "" then ret tt
       else console_log "📤 Output:" ;; console_log trimmed
     else ret tt) ;;
    (if truthy (get "error" result) then
       trimmed <- method_trim (get "error" result) "result.error" ;;
       if String.eqb trimmed "" then ret tt
       else console_log "⚠️ Stderr:" ;; console_log trimmed
     else ret tt) ;;
    when (truthy (get "result" result))
      (console_log ("🔢 Result: " ++ js_to_string (get "result" result))) ;;
    (if truthy (get "app" result) then
       console_log ("📱 App: " ++ js_to_string (get "name" (get "app" result))
                    ++ " (" ++ js_to_string (get "role" (get "app" result)) ++ ")")
     else ret tt)
  else
    console_log ("❌ " ++ js_to_string (get "error" result)) ;;
    process_exit 1.

Definition chat_command (params : list string) : M value :=
  console_log (nl ++ "🤖 AI:  { newline: false }") ;;
  response <- ext (StreamText (Some system_prompt) (join " " params) [] tool_names) ;;
  forM (textStream response) stdout_write ;;
  match toolCalls response with
  | Some (call1 :: calls) => forM (call1 :: calls) show_tool_call
  | _ => ret tt
  end ;;
  console_log nl ;;
  process_exit 0.

(** The [switch] of [executeCommand]: the tool result to display. *)
Definition select (command : string) (params : list string) : M value :=
  if String.eqb command "screenshot" then
    let withOCR := existsb (String.eqb "--ocr") params in
    screenshot_execute withOCR
  else if String.eqb command "click" then
    when (missing params)
      (console_log "❌ Please provide a selector" ;; process_exit 1) ;;
    clickElement_execute (first_param params)
  else if String.eqb command "find" then
    when (missing params)
      (console_log "❌ Please provide a selector" ;; process_exit 1) ;;
    findElements_execute (first_param params)
  else if String.eqb command "open" then
    when (missing params)
      (console_log "❌ Please provide an app name" ;; process_exit 1) ;;
    openApp_execute (first_param params)
  else if String.eqb command "type" then
    when (missing params)
      (console_log "❌ Please provide text to type" ;; process_exit 1) ;;
    typeText_execute (join " " params)
  else if String.eqb command "calc" then
    when (missing params)
      (console_log "❌ Please provide an expression" ;; process_exit 1) ;;
    calculate_execute (join " " params)
  else if String.eqb command "run" then
    when (missing params)
      (console_log "❌ Please provide a command" ;; process_exit 1) ;;
    runCommand_execute (join " " params)
  else if String.eqb command "chat" then
    when (missing params)
      (console_log "❌ Please provide a message" ;; process_exit 1) ;;
    chat_command params
  else
    console_log ("❌ Unknown command: " ++ command) ;;
    process_exit 1.

Definition executeCommand (command : string) (params : list string) : M unit :=
  try (
    result <- select command params ;;
    display result)
  catch message =>
    console_log ("💥 Fatal error: " ++ message) ;;
    process_exit 1.

Definition usage : list string :=
  [nl ++ "🧪 Test Agent - CLI Mode";
   "Usage examples:";
   "  node test-agent.js screenshot";
   "  node test-agent.js screenshot --ocr";
   "  node test-agent.js click " ++ dquote ++ "name:Calculator" ++ dquote;
   "  node test-agent.js find " ++ dquote ++ "role:button" ++ dquote;
   "  node test-agent.js open " ++ dquote ++ "notepad" ++ dquote;
   "  node test-agent.js type " ++ dquote ++ "hello world" ++ dquote;
   "  node test-agent.js calc " ++ dquote ++ "2+2" ++ dquote;
   "  node test-agent.js run " ++ dquote ++ "dir" ++ dquote;
   "  node test-agent.js chat " ++ dquote ++ "take a screenshot" ++ dquote]%string.

(** The whole script, run on [process.argv.slice(2)]. *)
Definition main (args : list string) : M unit :=
  ext NewDesktop ;;
  console_log "🤖 Initializing Desktop automation engine" ;;
  console_log "✅ Desktop automation engine initialized" ;;
  match args with
  | [] => forM usage console_log ;; process_exit 0
  | command :: params =>
      if String.eqb command "" then forM usage console_log ;; process_exit 0
      else executeCommand command params
  end.

End WithFacade.

(** The status the process ends with: the code given to [process.exit], 0
    when the script runs to its end, 1 when an exception is left uncaught;
    none when the process never ends. *)
Definition exit_code {World A} (r : outcome A * World * list event) : option Z :=
  match r with
  | (Ret _, _, _) => Some 0
  | (Throw _, _, _) => Some 1
  | (Exit code, _, _) => Some code
  | (Hang, _, _) => None
  end%Z.

End TestAgent.

(** ** Host functions on buffers, file names and dates *)

Definition b64_alphabet : string :=
  "ABCDEFGHIJKLMNOPQRSTUVWXYZabcdefghijklmnopqrstuvwxyz0123456789+/".

Definition b64_char (n : Z) : string := substring (Z.to_nat n) 1 b64_alphabet.

(** [buffer.toString('base64')] *)
Fixpoint base64 (data : list Z) : string :=
  match data with
  | [] => ""
  | [a] => b64_char (a / 4)%Z ++ b64_char ((a mod 4) * 16)%Z ++ "=="
  | [a; b] =>
      b64_char (a / 4)%Z ++ b64_char ((a mod 4) * 16 + b / 16)%Z
      ++ b64_char ((b mod 16) * 4)%Z ++ "="
  | a :: b :: c :: rest =>
      b64_char (a / 4)%Z ++ b64_char ((a mod 4) * 16 + b / 16)%Z
      ++ b64_char ((b mod 16) * 4 + c / 64)%Z ++ b64_char (c mod 64)%Z
      ++ base64 rest
  end.

(** The order [Array.prototype.sort] uses by default: by code units. *)
Fixpoint string_leb (a b : string) : bool :=
  match a, b with
  | EmptyString, _ => true
  | String _ _, EmptyString => false
  | String x a', String y b' =>
      if Nat.ltb (nat_of_ascii x) (nat_of_ascii y) then true
      else if Nat.ltb (nat_of_ascii y) (nat_of_ascii x) then false
      else string_leb a' b'
  end.

(** [files.sort().pop()]: the greatest name, [undefined] on an empty list. *)
Fixpoint greatest (files : list string) : option string :=
  match files with
  | [] => None
  | f :: rest =>
      match greatest rest with
      | None => Some f
      | Some g => if string_leb g f then Some f else Some g
      end
  end.

(** [s.replace(/[:.]/g, '-')] *)
Fixpoint dash_colons_and_dots (s : string) : string :=
  match s with
  | EmptyString => EmptyString
  | String c rest =>
      String (if (Ascii.eqb c ":" || Ascii.eqb c ".")%bool then "-"%char else c)
             (dash_colons_and_dots rest)
  end.

(** ** The simple vision artist (one model, four tools) *)

Module SimpleVisionArtist.
Section WithFacade.
Context {World : Type} `{Facade World}.
Local Abbreviation M := (script World).

Definition openPaint_execute : M value :=
  try (
    console_log "🚀 Opening Paint..." ;;
    ext (OpenApplication "mspaint") ;;
    sleep 2000 ;;
    ret (VObj [("success", VBool true); ("message", VStr "Paint opened")]))
  catch message => ret (fail_result message).

Definition stroke (startX startY endX endY : Z) : string :=
  "(" ++ string_of_Z startX ++ "," ++ string_of_Z startY ++ ") to ("
  ++ string_of_Z endX ++ "," ++ string_of_Z endY ++ ")".

Definition drawOnCanvas_execute (startX startY endX endY : Z) (description : string)
  : M value :=
  try (
    console_log ("✏️ Drawing " ++ description ++ " from "
                 ++ stroke startX startY endX endY ++ "...") ;;
    paintWindow <- ext (MkLocator "name:Paint") ;;
    ext (MouseClickAndHold paintWindow startX startY) ;;
    sleep 100 ;;
    ext (MouseMove paintWindow endX endY) ;;
    ext (MouseRelease paintWindow) ;;
    ret (VObj [("success", VBool true);
               ("message", VStr ("Drew " ++ description ++ " from "
                                 ++ stroke startX startY endX endY))]))
  catch message => ret (fail_result message).

Definition takeScreenshot_execute (reason : option string) : M value :=
  let reason := match reason with Some r => r | None => "check artwork" end in
  try (
    console_log ("📸 Taking screenshot: " ++ reason ++ "...") ;;
    screenshot <- ext CaptureScreen ;;
    now <- ext DateNow ;;
    let filename := "art_" ++ string_of_Z now ++ ".png" in
    ext (FsWriteFile filename (imageData screenshot)) ;;
    let sizeKB := round_div_1024 (Z.of_nat (List.length (imageData screenshot))) in
    ret (VObj [("success", VBool true);
               ("message", VStr ("Screenshot saved: " ++ filename ++ " ("
                                 ++ string_of_Z sizeKB ++ "KB)"));
               ("filename", VStr filename);
               ("sizeKB", VNum sizeKB)]))
  catch message => ret (fail_result message).

Definition analysis_prompt (question base64_text : string) : string :=
  "Look at this MS Paint screenshot and answer: " ++ question ++ nl ++ nl ++
  "You are looking at a digital artwork created in MS Paint. Describe what you see - shapes, colors, lines, overall composition. Be specific about what was drawn and how it looks." ++ nl ++ nl ++
  "[Image: data:image/png;base64," ++ substring 0 100 base64_text ++ "...]".

Definition analyzeScreenshot_execute (question : option string) : M value :=
  let question :=
    match question with Some q => q | None => "What do you see in this artwork?" end in
  try (
    console_log "🔍 Analyzing screenshot..." ;;
    files <- ext (FsReaddir ".") ;;
    let artFiles :=
      filter (fun f => (starts_with "art_" f && ends_with ".png" f)%bool) files in
    match greatest artFiles with
    | None =>
        ret (fail_result "No screenshots found. Take a screenshot first.")
    | Some latest =>
        imageData <- ext (FsReadFile latest) ;;
        text <- ext (GenerateText (analysis_prompt question (base64 imageData))) ;;
        ret (VObj [("success", VBool true);
                   ("message", VStr "Vision analysis complete");
                   ("analysis", VStr text);
                   ("file", VStr latest)])
    end)
  catch message => ret (fail_result message).

Inductive invocation : Type :=
| OpenPaint
| DrawOnCanvas (startX startY endX endY : Z) (description : string)
| TakeScreenshot (reason : option string)
| AnalyzeScreenshot (question : option string).

Definition execute (i : invocation) : M value :=
  match i with
  | OpenPaint => openPaint_execute
  | DrawOnCanvas startX startY endX endY description =>
      drawOnCanvas_execute startX startY endX endY description
  | TakeScreenshot reason => takeScreenshot_execute reason
  | AnalyzeScreenshot question => analyzeScreenshot_execute question
  end.

End WithFacade.
End SimpleVisionArtist.

(** ** working-artist.js *)

Module WorkingArtist.
Section WithFacade.
Context {World : Type} `{Facade World}.
Local Abbreviation M := (script World).

Definition openPaint : M bool :=
  try (
    console_log "🚀 Opening Paint..." ;;
    ext (OpenApplication "mspaint") ;;
    sleep 3000 ;;
    console_log "✅ Paint opened" ;;
    ret true)
  catch message =>
    console_log ("❌ Failed to open Paint: " ++ message) ;;
    ret false.

Definition drawSomething (x1 y1 x2 y2 : Z) (description : string) : M bool :=
  try (
    console_log ("✏️ Drawing " ++ description ++ " from ("
                 ++ string_of_Z x1 ++ "," ++ string_of_Z y1 ++ ") to ("
                 ++ string_of_Z x2 ++ "," ++ string_of_Z y2 ++ ")...") ;;
    paintWindow <- ext (MkLocator "name:Paint") ;;
    ext (MouseClickAndHold paintWindow x1 y1) ;;
    sleep 100 ;;
    ext (MouseMove paintWindow x2 y2) ;;
    ext (MouseRelease paintWindow) ;;
    console_log ("✅ Drew " ++ description) ;;
    ret true)
  catch message =>
    console_log ("❌ Failed to draw: " ++ message) ;;
    ret false.

Definition takeScreenshot : M (option string) :=
  try (
    console_log "📸 Taking screenshot..." ;;
    screenshot <- ext CaptureScreen ;;
    now <- ext DateNow ;;
    let filename := "artwork_" ++ string_of_Z now ++ ".png" in
    ext (FsWriteFile filename (imageData screenshot)) ;;
    let sizeKB := round_div_1024 (Z.of_nat (List.length (imageData screenshot))) in
    console_log ("✅ Screenshot saved: " ++ filename ++ " ("
                 ++ string_of_Z sizeKB ++ "KB)") ;;
    ret (Some filename))
  catch message =>
    console_log ("❌ Failed to take screenshot: " ++ message) ;;
    ret None.

Definition analysis_prompt (base64_text : string) : string :=
  "Look at this MS Paint screenshot. What do you see? Describe the artwork, shapes, colors, and overall composition." ++ nl ++ nl ++
  "Be specific about what was drawn and how it looks." ++ nl ++ nl ++
  "[Image: data:image/png;base64," ++ substring 0 100 base64_text ++ "...]".

Definition analyzeArtwork (filename : string) : M (option string) :=
  try (
    console_log "🔍 Analyzing artwork with AI..." ;;
    imageData <- ext (FsReadFile filename) ;;
    text <- ext (GenerateText (analysis_prompt (base64 imageData))) ;;
    console_log (nl ++ "👁️ AI Vision Analysis:") ;;
    console_log text ;;
    ret (Some text))
  catch message =>
    console_log ("❌ Failed to analyze: " ++ message) ;;
    ret None.

(** Step 2 of [createArt]: what is drawn for the description. *)
Definition draw_for (description : string) : M bool :=
  if includes "circle" description then
    drawSomething 300 200 400 300 "circle shape"
  else if includes "star" description then
    drawn <- drawSomething 350 150 350 350 "vertical line for star" ;;
    drawSomething 200 250 500 250 "horizontal line for star" ;;
    drawSomething 250 180 450 320 "diagonal line 1 for star" ;;
    drawSomething 450 180 250 320 "diagonal line 2 for star" ;;
    ret drawn
  else if includes "line" description then
    drawSomething 200 300 600 300 "horizontal line"
  else
    drawSomething 300 200 500 400 "simple shape".

(** The main workflow; [None] is the bare [return]. *)
Definition createArt (description : string) : M (option (string * option string)) :=
  console_log (nl ++ "🎨 Creating: " ++ description) ;;
  console_log (repeat_string "-" 50) ;;
  paintOpened <- openPaint ;;
  if negb paintOpened then ret None else
  drawn <- draw_for description ;;
  if negb drawn then ret None else
  filename <- takeScreenshot ;;
  match filename with
  | None => ret None
  | Some filename =>
      analysis <- analyzeArtwork filename ;;
      console_log (nl ++ "🎨 Artwork creation complete!") ;;
      console_log ("Screenshot: " ++ filename) ;;
      ret (Some (filename, analysis))
  end.

Definition help : list string :=
  [nl ++ "🎨 Working Vision Artist";
   "Commands:";
   "  node working-artist.js test    # Test all functions";
   "  node working-artist.js circle  # Draw a circle";
   "  node working-artist.js star    # Draw a star";
   "  node working-artist.js line    # Draw a line"]%string.

(** The script, run on [process.argv.slice(2)]. *)
Definition main (args : list string) : M unit :=
  ext NewDesktop ;;
  console_log "🎨 Working Vision Artist" ;;
  match args with
  | command :: _ =>
      if String.eqb command "test" then
        console_log (nl ++ "🧪 Testing each step...") ;;
        console_log (nl ++ "1. Testing Paint opening...") ;;
        openPaint ;;
        console_log (nl ++ "2. Testing drawing...") ;;
        drawSomething 300 200 500 300 "test line" ;;
        console_log (nl ++ "3. Testing screenshot...") ;;
        filename <- takeScreenshot ;;
        match filename with
        | Some filename =>
            console_log (nl ++ "4. Testing AI analysis...") ;;
            analyzeArtwork filename ;; ret tt
        | None => ret tt
        end ;;
        console_log (nl ++ "✅ All tests complete!")
      else if String.eqb command "circle" then createArt "draw a circle" ;; ret tt
      else if String.eqb command "star" then createArt "draw a star" ;; ret tt
      else if String.eqb command "line" then createArt "draw a line" ;; ret tt
      else forM help console_log
  | [] => forM help console_log
  end.

End WithFacade.
End WorkingArtist.

(** ** Property access on a registry object *)

(** The names every object literal inherits from [Object.prototype]. *)
Definition object_prototype_names : list string :=
  ["constructor"; "__proto__"; "hasOwnProperty"; "isPrototypeOf";
   "propertyIsEnumerable"; "toLocaleString"; "toString"; "valueOf";
   "__defineGetter__"; "__defineSetter__"; "__lookupGetter__";
   "__lookupSetter__"].

Inductive property (A : Type) : Type :=
| Own (a : A)
| Inherited
| Missing.
Arguments Own {A} a.
Arguments Inherited {A}.
Arguments Missing {A}.

Fixpoint own_property {A} (table : list (string * A)) (name : string) : option A :=
  match table with
  | [] => None
  | (k, a) :: rest => if String.eqb name k then Some a else own_property rest name
  end.

(** [table[name]] *)
Definition property_of {A} (table : list (string * A)) (name : string) : property A :=
  match own_property table name with
  | Some a => Own a
  | None =>
      if existsb (String.eqb name) object_prototype_names then Inherited
      else Missing
  end.

(** ** JavaScript numbers that are not integers

    The shape generators compute with [Math.cos], [Math.sin], [Math.sqrt] and
    [Math.pow] on doubles.  The arithmetic is left abstract: [of_Z] is an
    integer literal, [toNumber] the double a value stands for when arithmetic
    is done on it, and [Math_round] gives back the integer coordinate handed
    to the mouse. *)

Class JSMath (flt : Type) : Type :=
  { of_Z : Z -> flt;
    toNumber : value -> flt;
    fadd : flt -> flt -> flt;
    fsub : flt -> flt -> flt;
    fmul : flt -> flt -> flt;
    fdiv : flt -> flt -> flt;
    Math_cos : flt -> flt;
    Math_sin : flt -> flt;
    Math_sqrt : flt -> flt;
    Math_pow : flt -> flt -> flt;
    Math_PI : flt;
    Math_round : flt -> Z }.

Declare Scope flt_scope.
Delimit Scope flt_scope with flt.
Infix ".+" := fadd (at level 50, left associativity) : flt_scope.
Infix ".-" := fsub (at level 50, left associativity) : flt_scope.
Infix ".*" := fmul (at level 40, left associativity) : flt_scope.
Infix "./" := fdiv (at level 40, left associativity) : flt_scope.

(** The values [i] takes in [for (let i = start; i < limit; i += step)]
    ([i <= limit] when [inclusive]), at most [fuel] of them. *)
Fixpoint loop_indices (fuel : nat) (i limit step : Z) (inclusive : bool) : list Z :=
  match fuel with
  | O => []
  | S fuel' =>
      if (if inclusive then Z.leb i limit else Z.ltb i limit)
      then i :: loop_indices fuel' (i + step)%Z limit step inclusive
      else []
  end.

(** ** vision-artist.js *)

Module VisionArtist.
Section WithFacade.
Context {World : Type} `{Facade World}.
Context {flt : Type} `{JSMath flt}.
Local Abbreviation M := (script World).
Local Open Scope flt_scope.

Definition point : Type := flt * flt.

Definition circle_points (x y radius : flt) : list point :=
  List.map
    (fun i =>
       let angle := of_Z i .* Math_PI ./ of_Z 180 in
       let px := x .+ radius .* Math_cos angle in
       let py := y .+ radius .* Math_sin angle in
       (px, py))
    (loop_indices 361 0 360 10 true).

Definition square_points (x y size : flt) : list point :=
  let half := size ./ of_Z 2 in
  [(x .- half, y .- half);
   (x .+ half, y .- half);
   (x .+ half, y .+ half);
   (x .- half, y .+ half);
   (x .- half, y .- half)].

Definition star_points (x y size : flt) : list point :=
  List.map
    (fun i =>
       let angle := of_Z i .* of_Z 36 .* Math_PI ./ of_Z 180 in
       let radius := if Z.eqb (i mod 2) 0 then size else size ./ of_Z 2 in
       let px := x .+ radius .* Math_cos (angle .- Math_PI ./ of_Z 2) in
       let py := y .+ radius .* Math_sin (angle .- Math_PI ./ of_Z 2) in
       (px, py))
    (loop_indices 11 0 11 1 false).

Definition heart_points (x y size : flt) : list point :=
  let scale := size ./ of_Z 20 in
  List.map
    (fun i =>
       let t := of_Z i .* Math_PI ./ of_Z 180 in
       let px := x .+ scale .* of_Z 16 .* Math_pow (Math_sin t) (of_Z 3) in
       let py := y .- scale .* (of_Z 13 .* Math_cos t
                                .- of_Z 5 .* Math_cos (of_Z 2 .* t)
                                .- of_Z 2 .* Math_cos (of_Z 3 .* t)
                                .- Math_cos (of_Z 4 .* t)) in
       (px, py))
    (loop_indices 360 0 360 10 false).

Definition triangle_points (x y size : flt) : list point :=
  let height := size .* Math_sqrt (of_Z 3) ./ of_Z 2 in
  [(x, y .- height ./ of_Z 2);
   (x .- size ./ of_Z 2, y .+ height ./ of_Z 2);
   (x .+ size ./ of_Z 2, y .+ height ./ of_Z 2);
   (x, y .- height ./ of_Z 2)].

Definition spiral_points (x y size : flt) : list point :=
  List.map
    (fun i =>
       let angle := of_Z i .* Math_PI ./ of_Z 180 in
       let radius := of_Z i ./ of_Z 720 .* size in
       let px := x .+ radius .* Math_cos angle in
       let py := y .+ radius .* Math_sin angle in
       (px, py))
    (loop_indices 720 0 720 15 false).

Definition drawConnectedPoints (canvas : Locator) (points : list point) : M unit :=
  match points with
  | [] => ret tt
  | (startX, startY) :: rest =>
      try (
        ext (MouseClickAndHold canvas (Math_round startX) (Math_round startY)) ;;
        sleep 100 ;;
        forM rest (fun p =>
          ext (MouseMove canvas (Math_round (fst p)) (Math_round (snd p))) ;;
          sleep 50) ;;
        ext (MouseRelease canvas))
      catch message => console_log ("Drawing points: " ++ message)
  end.

Definition drawCircle (canvas : Locator) (x y radius : flt) : M unit :=
  drawConnectedPoints canvas (circle_points x y radius).

Definition drawSquare (canvas : Locator) (x y size : flt) : M unit :=
  drawConnectedPoints canvas (square_points x y size).

Definition drawStar (canvas : Locator) (x y size : flt) : M unit :=
  drawConnectedPoints canvas (star_points x y size).

Definition drawHeart (canvas : Locator) (x y size : flt) : M unit :=
  drawConnectedPoints canvas (heart_points x y size).

Definition drawTriangle (canvas : Locator) (x y size : flt) : M unit :=
  drawConnectedPoints canvas (triangle_points x y size).

Definition drawSpiral (canvas : Locator) (x y size : flt) : M unit :=
  drawConnectedPoints canvas (spiral_points x y size).

Definition drawLine (canvas : Locator) (x1 y1 x2 y2 : flt) : M unit :=
  try (
    ext (MouseClickAndHold canvas (Math_round x1) (Math_round y1)) ;;
    sleep 100 ;;
    ext (MouseMove canvas (Math_round x2) (Math_round y2)) ;;
    ext (MouseRelease canvas))
  catch message => console_log ("Drawing line: " ++ message).

Definition openPaint_execute : M value :=
  try (
    console_log "🚀 Opening MS Paint..." ;;
    app <- ext (OpenApplication "mspaint") ;;
    sleep 3000 ;;
    name <- ext (ElName app) ;;
    role <- ext (ElRole app) ;;
    ret (VObj [("success", VBool true);
               ("message", VStr "MS Paint opened successfully and ready for drawing!");
               ("app", VObj [("name", VStr name); ("role", VStr role)])]))
  catch message => ret (fail_result message).

Definition setupBrush_execute (size color : value) : M value :=
  try (
    console_log ("🎨 Setting up brush: " ++ js_to_string size ++ " "
                 ++ js_to_string color ++ "...") ;;
    (try (
       brushTool <- ext (MkLocator "name:Brush") ;;
       ext (LocatorClick brushTool))
     catch _ignored =>
       (try (
          brushTool <- ext (MkLocator "automationid:BrushTool") ;;
          ext (LocatorClick brushTool))
        catch _ignored => ret tt)) ;;
    sleep 500 ;;
    ret (VObj [("success", VBool true);
               ("message", VStr ("Brush configured: " ++ js_to_string size ++ " "
                                 ++ js_to_string color ++ " brush ready!"));
               ("settings", VObj [("size", size); ("color", color)])]))
  catch message => ret (fail_result message).

(** [x], [y] and [size] are numbers, as the schema declares; the arithmetic
    reads them with [toNumber]. *)
Definition drawShape_execute (shape x y size : value) : M value :=
  try (
    console_log ("✏️ Drawing " ++ js_to_string shape ++ " at (" ++ js_to_string x
                 ++ ", " ++ js_to_string y ++ ") with size " ++ js_to_string size
                 ++ "...") ;;
    canvas <-
      (try ext (MkLocator "name:Canvas")
       catch _ignored =>
         (try ext (MkLocator "className:MSPaintView")
          catch _ignored => ext (MkLocator "name:Paint"))) ;;
    (if is_string shape "circle" then
       drawCircle canvas (toNumber x) (toNumber y) (toNumber size)
     else if is_string shape "square" then
       drawSquare canvas (toNumber x) (toNumber y) (toNumber size)
     else if is_string shape "star" then
       drawStar canvas (toNumber x) (toNumber y) (toNumber size)
     else if is_string shape "heart" then
       drawHeart canvas (toNumber x) (toNumber y) (toNumber size)
     else if is_string shape "triangle" then
       drawTriangle canvas (toNumber x) (toNumber y) (toNumber size)
     else if is_string shape "line" then
       drawLine canvas (toNumber x .- toNumber size ./ of_Z 2) (toNumber y)
                       (toNumber x .+ toNumber size ./ of_Z 2) (toNumber y)
     else if is_string shape "spiral" then
       drawSpiral canvas (toNumber x) (toNumber y) (toNumber size)
     else drawCircle canvas (toNumber x) (toNumber y) (toNumber size)) ;;
    ret (VObj [("success", VBool true);
               ("message", VStr ("Drew " ++ js_to_string shape ++ " at position ("
                                 ++ js_to_string x ++ ", " ++ js_to_string y
                                 ++ ") with size " ++ js_to_string size));
               ("drawing", VObj [("shape", shape); ("x", x); ("y", y);
                                 ("size", size)])]))
  catch message => ret (fail_result message).

Definition captureArtwork_execute (purpose : value) : M value :=
  try (
    console_log "📸 Capturing artwork..." ;;
    screenshot <- ext CaptureScreen ;;
    iso <- ext DateIso ;;
    let timestamp := dash_colons_and_dots iso in
    let filename := "artwork_" ++ timestamp ++ ".png" in
    ext (FsWriteFile filename (imageData screenshot)) ;;
    let fileSizeKB := round_div_1024 (Z.of_nat (List.length (imageData screenshot))) in
    ret (VObj [("success", VBool true);
               ("message", VStr ("Artwork captured! File: " ++ filename ++ " ("
                                 ++ string_of_Z fileSizeKB ++ "KB)"));
               ("capture", VObj [("filename", VStr filename);
                                 ("size", VStr (describe_size screenshot));
                                 ("purpose", purpose);
                                 ("fileSizeKB", VNum fileSizeKB)])]))
  catch message => ret (fail_result message).

Definition analysis_prompt (focus base64_text : string) : string :=
  "You are analyzing a screenshot from MS Paint showing digital artwork created by an AI artist." ++ nl ++ nl ++
  "ANALYSIS FOCUS: " ++ focus ++ nl ++ nl ++
  "Please provide detailed feedback on:" ++ nl ++
  "1. VISUAL ELEMENTS: What shapes, patterns, or drawings do you see?" ++ nl ++
  "2. QUALITY: Are the drawn elements clean and well-formed?" ++ nl ++
  "3. COMPOSITION: How are elements arranged? Is it balanced?" ++ nl ++
  "4. COLORS: What colors are used?" ++ nl ++
  "5. SUGGESTIONS: How could this artwork be improved?" ++ nl ++ nl ++
  "Be specific and constructive in your analysis to help the AI artist improve." ++ nl ++ nl ++
  "[Image data: data:image/png;base64," ++ substring 0 100 base64_text ++ "...]".

Definition fallback_analysis (latestFile : string) (sizeKB : Z) (visionError : string)
  : string :=
  "🔍 TECHNICAL ANALYSIS of " ++ latestFile ++ ":" ++ nl ++ nl ++
  "✅ CAPTURE SUCCESS:" ++ nl ++
  "- Screenshot saved successfully (" ++ string_of_Z sizeKB ++ "KB)" ++ nl ++
  "- Paint interface captured" ++ nl ++
  "- Canvas area included in frame" ++ nl ++ nl ++
  "🎨 DRAWING ASSESSMENT:" ++ nl ++
  "- Drawing operations completed on canvas" ++ nl ++
  "- Coordinate-based shapes positioned accurately" ++ nl ++
  "- Multiple drawing commands executed successfully" ++ nl ++
  "- Geometric patterns and artistic elements created" ++ nl ++ nl ++
  "📊 COMPOSITION NOTES:" ++ nl ++
  "- Elements placed using precise positioning" ++ nl ++
  "- Canvas space utilized effectively" ++ nl ++
  "- Drawing patterns follow artistic algorithms" ++ nl ++
  "- Good spatial distribution of elements" ++ nl ++ nl ++
  "💡 IMPROVEMENT SUGGESTIONS:" ++ nl ++
  "- Consider adding complementary shapes" ++ nl ++
  "- Color variations could enhance appeal" ++ nl ++
  "- Additional patterns would increase complexity" ++ nl ++
  "- Balance between drawn and empty space looks good" ++ nl ++ nl ++
  "⚠️ Note: Detailed visual analysis temporarily limited. Enhanced technical assessment provided." ++ nl ++
  "Vision analysis error: " ++ visionError.

Definition analyzeArtwork_execute (focus : value) : M value :=
  try (
    console_log "🔍 Analyzing artwork with AI vision..." ;;
    files <- ext (FsReaddir ".") ;;
    let artworkFiles :=
      filter (fun f => (starts_with "artwork_" f && ends_with ".png" f)%bool) files in
    match greatest artworkFiles with
    | None =>
        ret (fail_result "No artwork captures found. Use captureArtwork first.")
    | Some latestFile =>
        imageData <- ext (FsReadFile latestFile) ;;
        let analysisPrompt := analysis_prompt (js_to_string focus) (base64 imageData) in
        try (
          analysis <- ext (GenerateText analysisPrompt) ;;
          ret (VObj [("success", VBool true);
                     ("message", VStr "Artwork analysis completed");
                     ("analysis", VStr analysis);
                     ("file", VStr latestFile);
                     ("focus", focus)]))
        catch visionError =>
          ret (VObj [("success", VBool true);
                     ("message", VStr "Artwork analysis completed (technical mode)");
                     ("analysis",
                      VStr (fallback_analysis latestFile
                              (round_div_1024 (Z.of_nat (List.length imageData)))
                              visionError));
                     ("file", VStr latestFile);
                     ("focus", focus)])
    end)
  catch message => ret (fail_result message).

(** Destructuring with a default: [{ k = fallback }]. *)
Definition field_or (k : string) (fallback : value) (params : value) : value :=
  match get k params with
  | VUndef => fallback
  | v => v
  end.

Inductive invocation : Type :=
| OpenPaint
| SetupBrush (size color : value)
| DrawShape (shape x y size : value)
| CaptureArtwork (purpose : value)
| AnalyzeArtwork (focus : value).

Definition execute (i : invocation) : M value :=
  match i with
  | OpenPaint => openPaint_execute
  | SetupBrush size color => setupBrush_execute size color
  | DrawShape shape x y size => drawShape_execute shape x y size
  | CaptureArtwork purpose => captureArtwork_execute purpose
  | AnalyzeArtwork focus => analyzeArtwork_execute focus
  end.

(** The registry [artistTools]: for each name, how the argument object is
    destructured into the tool's arguments. *)
Definition artistTools : list (string * (value -> invocation)) :=
  [("openPaint", fun _ => OpenPaint);
   ("setupBrush", fun params =>
      SetupBrush (field_or "size" (VStr "medium") params)
                 (field_or "color" (VStr "black") params));
   ("drawShape", fun params =>
      DrawShape (get "shape" params) (get "x" params) (get "y" params)
                (get "size" params));
   ("captureArtwork", fun params =>
      CaptureArtwork (field_or "purpose" (VStr "general artwork capture") params));
   ("analyzeArtwork", fun params =>
      AnalyzeArtwork (field_or "focus" (VStr "overall composition and quality") params))].

Definition upper_ascii (c : ascii) : ascii :=
  let n := nat_of_ascii c in
  if (Nat.leb 97 n && Nat.leb n 122)%bool then ascii_of_nat (n - 32) else c.

Fixpoint toUpperCase (s : string) : string :=
  match s with
  | EmptyString => EmptyString
  | String c rest => String (upper_ascii c) (toUpperCase rest)
  end.

Definition system_prompt (description : string) : string :=
  "You are an advanced AI artist with VISION CAPABILITIES that creates and verifies artwork in MS Paint." ++ nl ++ nl ++
  "Your available tools:" ++ nl ++
  "- openPaint: Opens MS Paint" ++ nl ++
  "- setupBrush: Configure brush settings (size: small/medium/large, color: black/red/blue/green/yellow/purple/orange)" ++ nl ++
  "- drawShape: Draw shapes (shape: circle/square/star/heart/line/spiral/triangle, x: 200-800, y: 150-600, size: 20-150)" ++ nl ++
  "- captureArtwork: Take screenshots to see your artwork" ++ nl ++
  "- analyzeArtwork: Use AI vision to analyze what you actually drew" ++ nl ++ nl ++
  "CRITICAL WORKFLOW:" ++ nl ++
  "1. Open Paint and set up brush with good settings" ++ nl ++
  "2. Draw specific elements with exact coordinates (e.g., star at x:400, y:300, size:60)" ++ nl ++
  "3. ALWAYS capture artwork after drawing to see what you created" ++ nl ++
  "4. ALWAYS analyze artwork to verify if it matches your intention" ++ nl ++
  "5. Based on analysis, decide whether to add more elements or make corrections" ++ nl ++
  "6. Create multiple elements for a complete, interesting composition" ++ nl ++ nl ++
  "Be methodical and use the vision feedback loop to create quality artwork!" ++ nl ++ nl ++
  "Goal: Create " ++ description ++ " with vision verification.".

Definition show_action (toolCall : value) : M unit :=
  result <- prop toolCall "result" ;;
  success <- prop result "success" ;;
  if truthy success then
    console_log (nl ++ "✅ " ++ js_to_string (get "message" result)) ;;
    when (truthy (get "app" result))
      (console_log ("📱 App: " ++ js_to_string (get "name" (get "app" result))
                    ++ " (" ++ js_to_string (get "role" (get "app" result)) ++ ")")) ;;
    when (truthy (get "settings" result))
      (emit (EvPrintJson "🎨 Settings: " (get "settings" result))) ;;
    when (truthy (get "drawing" result))
      (console_log ("✏️ Drawing: " ++ js_to_string (get "shape" (get "drawing" result))
                    ++ " at (" ++ js_to_string (get "x" (get "drawing" result))
                    ++ ", " ++ js_to_string (get "y" (get "drawing" result)) ++ ")")) ;;
    when (truthy (get "capture" result))
      (console_log ("📸 Capture: " ++ js_to_string (get "filename" (get "capture" result))
                    ++ " (" ++ js_to_string (get "size" (get "capture" result)) ++ ")")) ;;
    when (truthy (get "analysis" result))
      (console_log (nl ++ "🔍 VISION ANALYSIS:") ;;
       console_log (js_to_string (get "analysis" result)))
  else
    console_log (nl ++ "❌ Error: " ++ js_to_string (get "error" result)).

Definition createVerifiedArtwork (description : string) : M value :=
  console_log (nl ++ "🎨👁️ VISION AI ARTIST - CREATING: " ++ toUpperCase description) ;;
  console_log (repeat_string "-" 70) ;;
  try (
    console_log (nl ++ "🤖 AI Artist:  { newline: false }") ;;
    response <-
      ext (StreamText (Some (system_prompt description))
             ("Create " ++ description ++ " artwork in MS Paint. Follow the workflow: open paint, setup brush, draw shapes, capture and analyze each step to verify quality.")
             [] (List.map fst artistTools)) ;;
    forM (textStream response) stdout_write ;;
    let aiResponse := String.concat "" (textStream response) in
    match toolCalls response with
    | Some (call1 :: calls) =>
        console_log (nl ++ nl ++ "🛠️ Executing Artist Actions:") ;;
        forM (call1 :: calls) show_action
    | _ => ret tt
    end ;;
    console_log (nl ++ nl ++ "🎨✅ VISION-VERIFIED ARTWORK COMPLETED!") ;;
    console_log ("Theme: " ++ description) ;;
    console_log ("AI Response: " ++ substring 0 100 aiResponse ++ "...") ;;
    ret (VObj [("success", VBool true); ("response", VStr aiResponse)]))
  catch message =>
    console_log (nl ++ "❌ Error during artwork creation: " ++ message) ;;
    ret (fail_result message).

(** How [testTool] shows the result of the tool. *)
Definition show_test_result (result : value) : M unit :=
  success <- prop result "success" ;;
  if truthy success then
    console_log ("✅ " ++ js_to_string (get "message" result)) ;;
    when (truthy (get "analysis" result))
      (console_log (nl ++ "🔍 Analysis:" ++ nl ++ js_to_string (get "analysis" result)))
  else
    console_log ("❌ " ++ js_to_string (get "error" result)).

(** [testTool]: resolve the name in the registry, run the tool, show the
    result; [VUndef] is the bare [return]. *)
Definition testTool (toolName : string) (params : value) : M value :=
  console_log (nl ++ "🧪 Testing " ++ toolName ++ "...") ;;
  match property_of artistTools toolName with
  | Missing =>
      console_log ("❌ Tool " ++ toolName ++ " not found") ;;
      ret VUndef
  | found =>
      try (
        result <-
          match found with
          | Own destructure => execute (destructure params)
          | _ => type_error "artistTools[toolName].execute"
          end ;;
        show_test_result result ;;
        ret result)
      catch message =>
        console_log ("❌ Tool execution failed: " ++ message) ;;
        ret (fail_result message)
  end.

Definition usage : list string :=
  [nl ++ "🎨👁️ Vision AI Artist Agent";
   "Usage examples:";
   "  node vision-artist.js create " ++ dquote ++ "colorful geometric art" ++ dquote;
   "  node vision-artist.js demo";
   "  node vision-artist.js test-paint";
   "  node vision-artist.js test-draw";
   "  node vision-artist.js test-vision"]%string.

Definition runCommand (command : string) (rest : list string) : M unit :=
  if String.eqb command "create" then
    let joined := join " " rest in
    let description :=
      if String.eqb joined "" then "geometric abstract art" else joined in
    createVerifiedArtwork description ;; ret tt
  else if String.eqb command "demo" then
    console_log (nl ++ "🎨👁️ VISION AI ARTIST DEMO") ;;
    createVerifiedArtwork "colorful composition with stars and circles" ;; ret tt
  else if String.eqb command "test-paint" then
    testTool "openPaint" (VObj []) ;;
    testTool "setupBrush" (VObj [("size", VStr "medium"); ("color", VStr "red")]) ;;
    ret tt
  else if String.eqb command "test-draw" then
    testTool "drawShape"
      (VObj [("shape", VStr "star"); ("x", VNum 400); ("y", VNum 300);
             ("size", VNum 60)]) ;;
    ret tt
  else if String.eqb command "test-vision" then
    testTool "captureArtwork" (VObj [("purpose", VStr "test vision system")]) ;;
    testTool "analyzeArtwork" (VObj [("focus", VStr "overall composition and colors")]) ;;
    ret tt
  else
    console_log ("❌ Unknown command: " ++ command).

(** The script, run on [process.argv.slice(2)]. *)
Definition main (args : list string) : M unit :=
  ext NewDesktop ;;
  console_log "🎨 Initializing Vision AI Artist..." ;;
  console_log "✅ Desktop automation engine initialized" ;;
  match args with
  | [] => forM usage console_log ;; process_exit 0
  | command :: rest =>
      if String.eqb command "" then forM usage console_log ;; process_exit 0
      else
        try runCommand command rest
        catch message =>
          console_log ("Fatal error: " ++ message) ;;
          process_exit 1
  end.

End WithFacade.
End VisionArtist.

(** ** More host functions on strings and arrays *)

Definition lower_ascii (c : ascii) : ascii :=
  let n := nat_of_ascii c in
  if (Nat.leb 65 n && Nat.leb n 90)%bool then ascii_of_nat (n + 32) else c.

Fixpoint toLowerCase (s : string) : string :=
  match s with
  | EmptyString => EmptyString
  | String c rest => String (lower_ascii c) (toLowerCase rest)
  end.

(** [s.split(/\s+/).length]: one more than the runs of white space. *)
Fixpoint count_space_runs (s : string) (in_run : bool) : nat :=
  match s with
  | EmptyString => O
  | String c rest =>
      if is_space c
      then (if in_run then count_space_runs rest true
            else S (count_space_runs rest true))
      else count_space_runs rest false
  end.

Definition word_count (s : string) : Z := Z.of_nat (S (count_space_runs s false)).

(** [l.slice(0, limit)] *)
Definition slice_to {A} (limit : Z) (l : list A) : list A :=
  if Z.leb 0 limit then firstn (Z.to_nat limit) l
  else firstn (Z.to_nat (Z.of_nat (List.length l) + limit)) l.

(** [l.slice(-3)] *)
Definition last_three {A} (l : list A) : list A :=
  skipn (List.length l - 3) l.

(** An optional string argument: missing, or given. *)
Definition given (o : option string) : bool :=
  match o with
  | Some s => negb (String.eqb s "")
  | None => false
  end.

Definition or_else (o : option string) (fallback : string) : string :=
  match o with
  | Some s => if String.eqb s "" then fallback else s
  | None => fallback
  end.

Definition text_of (o : option string) : string :=
  match o with Some s => s | None => "undefined" end.

(** ** The AI agent (ten tools, a command table, a command loop) *)

Module AiAgent.

Inductive entry : Type :=
| Chat (user ai : string)
| Thinking (question response : string).

Definition entry_value (e : entry) : value :=
  match e with
  | Chat user ai => VObj [("type", VStr "chat"); ("user", VStr user); ("ai", VStr ai)]
  | Thinking question response =>
      VObj [("type", VStr "thinking"); ("question", VStr question);
            ("response", VStr response)]
  end.

Section WithFacade.
Context {World : Type} `{Facade World}.
Local Abbreviation M := (script World).

Definition screenshot_execute (withOCR : bool) (savePath : option string) : M value :=
  try (
    screenshot <- ext CaptureScreen ;;
    let result :=
      VObj [("status", VStr "success");
            ("message", VStr "Screenshot taken successfully");
            ("size", VStr (describe_size screenshot))] in
    result <-
      (if given savePath then
         ext (FsWriteFile (text_of savePath) (imageData screenshot)) ;;
         ret (set "savedTo" (opt_value savePath) result)
       else ret result) ;;
    if withOCR then
      ocrText <- ext (OcrScreenshot screenshot) ;;
      let result := set "ocrText" (VStr ocrText) result in
      let result := set "textLength" (VNum (len ocrText)) result in
      ret result
    else ret result)
  catch message => ret (VObj [("error", VStr ("Screenshot failed: " ++ message))]).

Definition clickElement_execute (selector : string) (action : string) : M value :=
  try (
    locator <- ext (MkLocator selector) ;;
    element <- ext (LocatorFirst locator) ;;
    result <-
      (if String.eqb action "click" then ext (ElClick element)
       else if String.eqb action "doubleClick" then ext (ElDoubleClick element)
       else if String.eqb action "rightClick" then
         ext (ElRightClick element) ;;
         ret (VObj [("method", VStr "rightClick");
                    ("details", VStr "Right clicked successfully")])
       else ret VUndef) ;;
    ret (VObj [("status", VStr "success");
               ("message", VStr (action ++ " performed successfully"));
               ("result", result)]))
  catch message => ret (VObj [("error", VStr ("Click failed: " ++ message))]).

Definition describe_element (el : Element) : M value :=
  name <- ext (ElName el) ;;
  role <- ext (ElRole el) ;;
  bounds <- ext (ElBounds el) ;;
  text <- ext (ElText el 2) ;;
  visible <- ext (ElIsVisible el) ;;
  enabled <- ext (ElIsEnabled el) ;;
  ret (VObj [("name", VStr (if String.eqb name "" then "Unknown" else name));
             ("role", VStr role);
             ("bounds", bounds);
             ("text", VStr text);
             ("visible", VBool visible);
             ("enabled", VBool enabled)]).

Definition findElements_execute (selector : string) (limit : Z) : M value :=
  try (
    locator <- ext (MkLocator selector) ;;
    elements <- ext (LocatorAll locator) ;;
    let limitedElements := slice_to limit elements in
    elementDetails <- mapM describe_element limitedElements ;;
    ret (VObj [("status", VStr "success");
               ("selector", VStr selector);
               ("count", VNum (Z.of_nat (List.length elements)));
               ("returned", VNum (Z.of_nat (List.length limitedElements)));
               ("elements", VArr elementDetails)]))
  catch message =>
    ret (VObj [("error", VStr ("Element discovery failed: " ++ message))]).

Definition describe_app (app : Element) : M value :=
  name <- ext (ElName app) ;;
  role <- ext (ElRole app) ;;
  bounds <- ext (ElBounds app) ;;
  ret (VObj [("name", VStr name); ("role", VStr role); ("bounds", bounds)]).

Definition appControl_execute (action : string) (appName : option string) : M value :=
  try (
    if String.eqb action "launch" then
      if negb (given appName) then
        ret (VObj [("error", VStr "App name required for launch")])
      else
        launchedApp <- ext (OpenApplication (text_of appName)) ;;
        name <- ext (ElName launchedApp) ;;
        role <- ext (ElRole launchedApp) ;;
        ret (VObj [("status", VStr "success");
                   ("message", VStr ("Launched " ++ text_of appName));
                   ("action", VStr "launch");
                   ("app", VObj [("name", VStr name); ("role", VStr role)])])
    else if String.eqb action "list" then
      apps <- ext Applications ;;
      described <- mapM describe_app (firstn 10 apps) ;;
      ret (VObj [("status", VStr "success");
                 ("action", VStr "list");
                 ("count", VNum (Z.of_nat (List.length apps)));
                 ("applications", VArr described)])
    else if (String.eqb action "focus" || String.eqb action "activate")%bool then
      if negb (given appName) then
        ret (VObj [("error", VStr "App name required for focus/activate")])
      else
        (if String.eqb action "activate" then
           ext (ActivateApplication (text_of appName))
         else
           app <- ext (Application (text_of appName)) ;;
           ext (ElFocus app)) ;;
        ret (VObj [("status", VStr "success");
                   ("message", VStr ((if String.eqb action "activate"
                                      then "Activated" else "Focused")
                                     ++ " " ++ text_of appName));
                   ("action", VStr action)])
    else ret (VObj [("error", VStr "Invalid action")]))
  catch message => ret (VObj [("error", VStr ("App control failed: " ++ message))]).

Definition ocrTool_execute (imagePath : option string) : M value :=
  try (
    ocrText <-
      (if given imagePath then ext (OcrImagePath (text_of imagePath))
       else
         screenshot <- ext CaptureScreen ;;
         ext (OcrScreenshot screenshot)) ;;
    ret (VObj [("status", VStr "success");
               ("source", VStr (or_else imagePath "screenshot"));
               ("textLength", VNum (len ocrText));
               ("wordCount", VNum (word_count ocrText));
               ("text", VStr (substring 0 1000 ocrText
                              ++ (if Z.ltb 1000 (len ocrText) then "..." else "")));
               ("fullText", VStr ocrText)]))
  catch message => ret (VObj [("error", VStr ("OCR failed: " ++ message))]).

Definition textInput_execute (text : string) (selector : option string)
  (useClipboard : bool) : M value :=
  try (
    element <-
      (if given selector then
         locator <- ext (MkLocator (text_of selector)) ;;
         ext (LocatorFirst locator)
       else ext FocusedElement) ;;
    ext (ElTypeText element text useClipboard) ;;
    ret (VObj [("status", VStr "success");
               ("message", VStr ("Typed " ++ dquote ++ substring 0 50 text
                                 ++ (if Z.ltb 50 (len text) then "..." else "")
                                 ++ dquote));
               ("method", VStr (if useClipboard then "clipboard" else "keyboard"));
               ("target", VStr (or_else selector "focused element"))]))
  catch message => ret (VObj [("error", VStr ("Text input failed: " ++ message))]).

Definition calculator_execute (expression : string) (useApp : bool) : M value :=
  try (
    result <- host (EvalJs (strict_return expression)) ;;
    shown <- method_toString result ;;
    let response :=
      VObj [("result", VStr shown);
            ("expression", VStr expression);
            ("method", VStr "programmatic")] in
    if useApp then
      launched <-
        (try (calcApp <- ext (OpenApplication "calc") ;; ret (Some calcApp))
         catch _ignored => ret None) ;;
      match launched with
      | None => ret (set "appError" (VStr "Could not launch Calculator app") response)
      | Some calcApp =>
          let response :=
            set "appDemo" (VStr "Calculator app launched for demonstration") response in
          let response := set "method" (VStr "app + programmatic") response in
          try (
            name <- ext (ElName calcApp) ;;
            role <- ext (ElRole calcApp) ;;
            ret (set "app" (VObj [("name", VStr name); ("role", VStr role)]) response))
          catch _ignored =>
            ret (set "appError" (VStr "Could not launch Calculator app") response)
      end
    else ret response)
  catch message =>
    ret (VObj [("error", VStr "Invalid mathematical expression");
               ("expression", VStr expression)]).

Definition fileManager_execute (action : string) (filepath content directory : option string)
  : M value :=
  try (
    if String.eqb action "read" then
      if negb (given filepath) then
        ret (VObj [("error", VStr "Filepath required for read action")])
      else
        fileContent <- ext (FsReadText (text_of filepath)) ;;
        ret (VObj [("action", VStr "read"); ("filepath", opt_value filepath);
                   ("content", VStr fileContent)])
    else if String.eqb action "write" then
      if (negb (given filepath) || negb (given content))%bool then
        ret (VObj [("error", VStr "Filepath and content required for write action")])
      else
        ext (FsWriteText (text_of filepath) (text_of content)) ;;
        ret (VObj [("action", VStr "write"); ("filepath", opt_value filepath);
                   ("message", VStr "File written successfully")])
    else if String.eqb action "list" then
      let dir := or_else directory "." in
      files <- ext (FsReaddir dir) ;;
      ret (VObj [("action", VStr "list"); ("directory", VStr dir);
                 ("files", VArr (List.map VStr files))])
    else if String.eqb action "open" then
      if negb (given filepath) then
        ret (VObj [("error", VStr "Filepath required for open action")])
      else
        ext (OpenFile (text_of filepath)) ;;
        ret (VObj [("action", VStr "open"); ("filepath", opt_value filepath);
                   ("message", VStr "File opened with default application")])
    else ret (VObj [("error", VStr "Invalid action")]))
  catch message => ret (VObj [("error", VStr message); ("action", VStr action)]).

Definition webTool_execute (action : string) (url browser : option string) : M value :=
  try (
    if String.eqb action "open" then
      if negb (given url) then
        ret (VObj [("error", VStr "URL required for open action")])
      else
        ext (OpenUrl (text_of url) browser) ;;
        ret (VObj [("action", VStr "open"); ("url", opt_value url);
                   ("browser", VStr (or_else browser "default"));
                   ("message", VStr "URL opened in browser")])
    else if String.eqb action "getCurrentBrowser" then
      browserWindow <- ext GetCurrentBrowserWindow ;;
      name <- ext (ElName browserWindow) ;;
      role <- ext (ElRole browserWindow) ;;
      bounds <- ext (ElBounds browserWindow) ;;
      text <- ext (ElText browserWindow 1) ;;
      ret (VObj [("action", VStr "getCurrentBrowser");
                 ("browser", VObj [("name", VStr name); ("role", VStr role);
                                   ("bounds", bounds); ("text", VStr text)])])
    else ret (VObj [("error", VStr "Invalid action")]))
  catch message =>
    ret (VObj [("error", VStr ("Web tool failed: " ++ message));
               ("action", VStr action)]).

Definition commandRunner_execute (windowsCommand unixCommand : option string) : M value :=
  try (
    commandOutput <- ext (RunCommand windowsCommand unixCommand) ;;
    ret (VObj [("status", VStr "success");
               ("exitStatus", exitStatus commandOutput);
               ("stdout", VStr (stdout commandOutput));
               ("stderr", VStr (stderr commandOutput));
               ("command", VObj [("windows", opt_value windowsCommand);
                                 ("unix", opt_value unixCommand)])]))
  catch message =>
    ret (VObj [("error", VStr ("Command execution failed: " ++ message))]).

Inductive invocation : Type :=
| Screenshot_ (withOCR : bool) (savePath : option string)
| ClickElement (selector action : string)
| FindElements (selector : string) (limit : Z)
| AppControl (action : string) (appName : option string)
| OcrTool (imagePath : option string)
| TextInput (text : string) (selector : option string) (useClipboard : bool)
| Calculator (expression : string) (useApp : bool)
| FileManager (action : string) (filepath content directory : option string)
| WebTool (action : string) (url browser : option string)
| CommandRunner (windowsCommand unixCommand : option string).

Definition execute (i : invocation) : M value :=
  match i with
  | Screenshot_ withOCR savePath => screenshot_execute withOCR savePath
  | ClickElement selector action => clickElement_execute selector action
  | FindElements selector limit => findElements_execute selector limit
  | AppControl action appName => appControl_execute action appName
  | OcrTool imagePath => ocrTool_execute imagePath
  | TextInput text selector useClipboard => textInput_execute text selector useClipboard
  | Calculator expression useApp => calculator_execute expression useApp
  | FileManager action filepath content directory =>
      fileManager_execute action filepath content directory
  | WebTool action url browser => webTool_execute action url browser
  | CommandRunner windowsCommand unixCommand =>
      commandRunner_execute windowsCommand unixCommand
  end.

Definition tool_names : list string :=
  ["screenshot"; "clickElement"; "findElements"; "appControl"; "ocrTool";
   "textInput"; "calculator"; "fileManager"; "webTool"; "commandRunner"].

(** *** The command table

    A handler receives the words typed after the command and the
    conversation history (the module-level [conversationHistory]) and gives
    the history back. *)

Definition handler : Type := list string -> list entry -> M (list entry).

Definition arg (n : nat) (args : list string) : option string := nth_error args n.

(** What [boxen] frames, without the frame. *)
Definition help_text : string :=
  "📋 Available Commands:" ++ nl ++ nl ++
  "🤖 chat - Start interactive chat with desktop automation" ++ nl ++
  "📸 screenshot - Take desktop screenshot with OCR" ++ nl ++
  "🖱️ click <selector> - Click UI elements (e.g., " ++ dquote ++ "name:Seven" ++ dquote ++ ")" ++ nl ++
  "🔍 find <selector> - Find UI elements (e.g., " ++ dquote ++ "role:button" ++ dquote ++ ")" ++ nl ++
  "🚀 app <action> [name] - Launch/list/focus applications" ++ nl ++
  "🔤 ocr [imagePath] - Perform OCR text recognition" ++ nl ++
  "⌨️ type <text> - Type text into focused element" ++ nl ++
  "🧮 calc <expression> - Quick calculation" ++ nl ++
  "📂 files - List current directory" ++ nl ++
  "🌐 web <url> - Open URL in browser" ++ nl ++
  "🏃 run <command> - Run shell command" ++ nl ++
  "💭 think <question> - Deep reasoning mode" ++ nl ++
  "📜 history - Show conversation history" ++ nl ++
  "🔄 clear - Clear conversation history" ++ nl ++
  "❌ exit - Exit the agent".

Definition report_or (result : value) (otherwise : M unit) : M unit :=
  if truthy (get "error" result)
  then console_log ("❌ " ++ js_to_string (get "error" result))
  else otherwise.

Definition help_command : handler := fun _ history =>
  console_log help_text ;; ret history.

Definition screenshot_command : handler := fun _ history =>
  spinner_start "📸 Taking screenshot..." ;;
  result <- screenshot_execute true None ;;
  spinner_stop ;;
  report_or result (
    console_log ("✅ Screenshot taken (" ++ js_to_string (get "size" result) ++ ")") ;;
    if truthy (get "ocrText" result) then
      console_log ("📝 OCR extracted " ++ js_to_string (get "textLength" result)
                   ++ " characters") ;;
      head <- method_substring (get "ocrText" result) 200 "result.ocrText" ;;
      console_log ("Preview: " ++ head ++ "...")
    else ret tt) ;;
  ret history.

Definition click_command : handler := fun args history =>
  if negb (given (arg 0 args)) then
    console_log ("❌ Please specify a selector: e.g., " ++ dquote ++ "name:Seven" ++ dquote
                 ++ ", " ++ dquote ++ "role:button" ++ dquote ++ ", " ++ dquote
                 ++ "text:OK" ++ dquote) ;;
    ret history
  else
    let selector := text_of (arg 0 args) in
    spinner_start ("🖱️ Clicking " ++ selector ++ "...") ;;
    result <- clickElement_execute selector "click" ;;
    spinner_stop ;;
    report_or result (console_log ("✅ " ++ js_to_string (get "message" result))) ;;
    ret history.

Definition show_found (i : nat) (el : value) : M unit :=
  name <- prop el "name" ;;
  console_log ("  " ++ string_of_nat (i + 1) ++ ". " ++ js_to_string name ++ " ("
               ++ js_to_string (get "role" el) ++ ") "
               ++ (if truthy (get "visible" el) then "👁️" else "🚫") ++ " "
               ++ (if truthy (get "enabled" el) then "✅" else "❌")) ;;
  if truthy (get "text" el) then
    head <- method_substring (get "text" el) 100 "el.text" ;;
    console_log ("     Text: " ++ dquote ++ head ++ dquote)
  else ret tt.

Fixpoint show_all (show : nat -> value -> M unit) (i : nat) (items : list value)
  : M unit :=
  match items with
  | [] => ret tt
  | item :: rest => show i item ;; show_all show (S i) rest
  end.

Definition find_command : handler := fun args history =>
  if negb (given (arg 0 args)) then
    console_log ("❌ Please specify a selector: e.g., " ++ dquote ++ "role:button" ++ dquote
                 ++ ", " ++ dquote ++ "name:Edit" ++ dquote ++ ", " ++ dquote
                 ++ "text:Save" ++ dquote) ;;
    ret history
  else
    let selector := text_of (arg 0 args) in
    spinner_start ("🔍 Finding elements with " ++ selector ++ "...") ;;
    result <- findElements_execute selector 10 ;;
    spinner_stop ;;
    report_or result (
      console_log ("✅ Found " ++ js_to_string (get "count" result)
                   ++ " elements (showing " ++ js_to_string (get "returned" result)
                   ++ "):") ;;
      items <- items_of (get "elements" result) "result.elements" "forEach" ;;
      show_all show_found 0 items) ;;
    ret history.

Definition show_app (i : nat) (app : value) : M unit :=
  name <- prop app "name" ;;
  console_log ("  " ++ string_of_nat (i + 1) ++ ". " ++ js_to_string name ++ " ("
               ++ js_to_string (get "role" app) ++ ")").

Definition app_command : handler := fun args history =>
  if negb (given (arg 0 args)) then
    console_log "❌ Please specify action: launch, list, focus, or activate" ;;
    ret history
  else
    let action := text_of (arg 0 args) in
    let appName := arg 1 args in
    spinner_start ("🚀 " ++ action ++ "ing " ++ or_else appName "applications" ++ "...") ;;
    result <- appControl_execute action appName ;;
    spinner_stop ;;
    report_or result (
      if String.eqb action "list" then
        console_log ("✅ Found " ++ js_to_string (get "count" result) ++ " applications:") ;;
        items <- items_of (get "applications" result) "result.applications" "forEach" ;;
        show_all show_app 0 items
      else console_log ("✅ " ++ js_to_string (get "message" result))) ;;
    ret history.

Definition ocr_command : handler := fun args history =>
  spinner_start "🔤 Performing OCR..." ;;
  result <- ocrTool_execute (arg 0 args) ;;
  spinner_stop ;;
  report_or result (
    console_log ("✅ OCR completed on " ++ js_to_string (get "source" result)) ;;
    console_log ("📊 Found " ++ js_to_string (get "wordCount" result) ++ " words ("
                 ++ js_to_string (get "textLength" result) ++ " characters)") ;;
    console_log (js_to_string (get "text" result))) ;;
  ret history.

Definition type_command : handler := fun args history =>
  if negb (given (arg 0 args)) then
    console_log "❌ Please provide text to type" ;; ret history
  else
    spinner_start "⌨️ Typing text..." ;;
    result <- textInput_execute (text_of (arg 0 args)) None false ;;
    spinner_stop ;;
    report_or result (console_log ("✅ " ++ js_to_string (get "message" result))) ;;
    ret history.

Definition calc_command : handler := fun args history =>
  if negb (given (arg 0 args)) then
    console_log "❌ Please provide a mathematical expression" ;; ret history
  else
    spinner_start "🧮 Calculating..." ;;
    result <- calculator_execute (text_of (arg 0 args)) false ;;
    spinner_stop ;;
    report_or result (
      console_log ("✅ " ++ js_to_string (get "expression" result) ++ " = "
                   ++ js_to_string (get "result" result)) ;;
      when (truthy (get "appDemo" result))
        (console_log ("📱 " ++ js_to_string (get "appDemo" result)))) ;;
    ret history.

Definition files_command : handler := fun _ history =>
  spinner_start "📂 Listing files..." ;;
  result <- fileManager_execute "list" None None None ;;
  spinner_stop ;;
  console_log ("📁 Files in " ++ js_to_string (get "directory" result) ++ ":") ;;
  files <- items_of (get "files" result) "result.files" "forEach" ;;
  forM files (fun file => console_log ("  • " ++ js_to_string file)) ;;
  ret history.

Definition web_command : handler := fun args history =>
  if negb (given (arg 0 args)) then
    console_log "❌ Please provide a URL to open" ;; ret history
  else
    spinner_start "🌐 Opening URL..." ;;
    result <- webTool_execute "open" (arg 0 args) None ;;
    spinner_stop ;;
    report_or result (console_log ("✅ " ++ js_to_string (get "message" result))) ;;
    ret history.

Definition run_command : handler := fun args history =>
  if negb (given (arg 0 args)) then
    console_log "❌ Please provide a command to run" ;; ret history
  else
    let command := text_of (arg 0 args) in
    spinner_start "🏃 Running command..." ;;
    let isWindows := is_windows in
    result <- commandRunner_execute (if isWindows then Some command else None)
                                    (if negb isWindows then Some command else None) ;;
    spinner_stop ;;
    report_or result (
      console_log ("✅ Command executed (exit code: "
                   ++ js_to_string (get "exitStatus" result) ++ ")") ;;
      when (truthy (get "stdout" result))
        (console_log "📤 STDOUT:" ;; console_log (js_to_string (get "stdout" result))) ;;
      when (truthy (get "stderr" result))
        (console_log "📥 STDERR:" ;; console_log (js_to_string (get "stderr" result)))) ;;
    ret history.

Definition think_command : handler := fun args history =>
  if negb (given (arg 0 args)) then
    console_log "❌ Please provide a question to think about" ;; ret history
  else
    let question := text_of (arg 0 args) in
    spinner_start "🧠 Deep thinking mode..." ;;
    try (
      response <- ext (GenerateText ("Think deeply about this question and provide a comprehensive, reasoned answer: " ++ question)) ;;
      spinner_stop ;;
      console_log ("🧠 Deep Reasoning Result:" ++ nl ++ nl ++ response) ;;
      ret (history ++ [Thinking question response])%list)
    catch message =>
      spinner_stop ;;
      console_log ("❌ Error: " ++ message) ;;
      ret history.

Definition show_entry (index : nat) (e : entry) : M unit :=
  match e with
  | Chat user ai =>
      console_log (string_of_nat (index + 1) ++ ". [CHAT]") ;;
      console_log ("   User: " ++ user) ;;
      console_log ("   AI: " ++ substring 0 100 ai ++ "...") ;;
      console_log ""
  | Thinking question response =>
      console_log (string_of_nat (index + 1) ++ ". [THINKING]") ;;
      console_log ("   Question: " ++ question) ;;
      console_log ("   Answer: " ++ substring 0 100 response ++ "...") ;;
      console_log ""
  end.

Fixpoint show_entries (index : nat) (entries : list entry) : M unit :=
  match entries with
  | [] => ret tt
  | e :: rest => show_entry index e ;; show_entries (S index) rest
  end.

Definition history_command : handler := fun _ history =>
  match history with
  | [] => console_log "📜 No conversation history yet" ;; ret history
  | _ =>
      console_log ("📜 Conversation History:" ++ nl) ;;
      show_entries 0 history ;;
      ret history
  end.

Definition clear_command : handler := fun _ _ =>
  console_log "✅ Conversation history cleared" ;; ret [].

Definition show_tool_result (toolCall : value) : M unit :=
  toolName <- prop toolCall "toolName" ;;
  console_log ("  Tool: " ++ js_to_string toolName) ;;
  emit (EvPrintJson "  Result: " (get "result" toolCall)).

(** One turn of the chat: [None] when the user typed "back". *)
Definition chat_turn (history : list entry) : M (option (list entry)) :=
  message <- ext (Prompt "You:") ;;
  if String.eqb (toLowerCase message) "back" then ret None
  else if String.eqb (trim message) "" then ret (Some history)
  else
    console_log (nl ++ "🤖 AI:  { newline: false }") ;;
    try (
      response <-
        ext (StreamText None message (List.map entry_value (last_three history))
               tool_names) ;;
      forM (textStream response) stdout_write ;;
      let fullResponse := String.concat "" (textStream response) in
      console_log nl ;;
      match toolCalls response with
      | Some (call1 :: calls) =>
          console_log (nl ++ "🔧 Tool Results:") ;;
          forM (call1 :: calls) show_tool_result
      | _ => ret tt
      end ;;
      ret (Some (history ++ [Chat message fullResponse])%list))
    catch message =>
      console_log (nl ++ "❌ Error: " ++ message) ;;
      ret (Some history).

(** The [while (true)] of the chat, for at most [fuel] turns. *)
Fixpoint chat_loop (fuel : nat) (history : list entry) : M (list entry) :=
  match fuel with
  | O => ret history
  | S fuel' =>
      next <- chat_turn history ;;
      match next with
      | None => ret history
      | Some history' => chat_loop fuel' history'
      end
  end.

Definition chat_command (fuel : nat) : handler := fun _ history =>
  console_log (nl ++ "💬 Interactive Chat Mode with Desktop Automation") ;;
  console_log ("Type your message (or " ++ dquote ++ "back" ++ dquote
               ++ " to return to main menu)" ++ nl) ;;
  console_log ("🎯 Available tools: screenshot, click, OCR, app control, text input, file ops, web automation, commands" ++ nl) ;;
  chat_loop fuel history.

Definition commands (fuel : nat) : list (string * handler) :=
  [("help", help_command);
   ("screenshot", screenshot_command);
   ("click", click_command);
   ("find", find_command);
   ("app", app_command);
   ("ocr", ocr_command);
   ("type", type_command);
   ("calc", calc_command);
   ("files", files_command);
   ("web", web_command);
   ("run", run_command);
   ("think", think_command);
   ("history", history_command);
   ("clear", clear_command);
   ("chat", chat_command fuel)].

(** Calling a property the table only inherits from [Object.prototype]:
    [__proto__] is not a function, the accessor definers reject the words
    they are given, the others return without an effect. *)
Definition call_inherited (name : string) : M unit :=
  if String.eqb name "__proto__" then type_error "commands[cmd]"
  else if (String.eqb name "__defineGetter__" || String.eqb name "__defineSetter__")%bool
  then throw ("Object.prototype." ++ name ++ ": Expecting function")
  else ret tt.

(** One round of the command loop: read a line, look the first word up in
    the table, run what is found. *)
Definition command_round (fuel : nat) (history : list entry) : M (list entry) :=
  console_log "" ;;
  command <- ext (Prompt "🤖 Agent") ;;
  let words := split_space (trim command) in
  let cmd := match words with w :: _ => w | [] => "" end in
  let args := match words with _ :: rest => rest | [] => [] end in
  if String.eqb cmd "exit" then
    console_log (nl ++ "👋 Goodbye! Thanks for using the AI Agent!") ;;
    process_exit 0
  else
    match property_of (commands fuel) cmd with
    | Own run => run args history
    | Inherited => call_inherited cmd ;; ret history
    | Missing =>
        if negb (String.eqb cmd "") then
          console_log ("❌ Unknown command: " ++ cmd) ;;
          console_log ("Type " ++ dquote ++ "help" ++ dquote ++ " for available commands") ;;
          ret history
        else ret history
    end.

Fixpoint command_loop (rounds fuel : nat) (history : list entry) : M (list entry) :=
  match rounds with
  | O => ret history
  | S rounds' =>
      history' <- command_round fuel history ;;
      command_loop rounds' fuel history'
  end.

(** What [boxen] frames in the banner, without the frame. *)
Definition banner_text : string :=
  "🚀 Desktop Automation + AI Features:" ++ nl ++
  "• Advanced reasoning with DeepSeek-R1" ++ nl ++
  "• Desktop automation (screenshots, clicks, OCR)" ++ nl ++
  "• Application control and UI interaction" ++ nl ++
  "• Element discovery and manipulation" ++ nl ++
  "• Text input and keyboard simulation" ++ nl ++
  "• File operations and command execution" ++ nl ++
  "• Web automation and browser control" ++ nl ++
  "• Streaming responses and interactive CLI" ++ nl ++
  "Type " ++ dquote ++ "help" ++ dquote ++ " for commands, " ++ dquote ++ "exit"
  ++ dquote ++ " to quit".

(** The script: [new Desktop()] at load, then [main().catch(...)], for at
    most [rounds] commands. *)
Definition main (rounds fuel : nat) : M unit :=
  ext NewDesktop ;;
  try (
    console_log "AI Agent" ;;
    console_log (nl ++ "🤖 Powered by Terminator.js + DeepSeek-R1:1.5B + Ollama + Vercel AI SDK" ++ nl) ;;
    console_log banner_text ;;
    spinner_start "🔍 Checking DeepSeek-R1:1.5B availability..." ;;
    (try (
       ext (GenerateText "Hello! Are you working correctly?") ;;
       console_log "✅ DeepSeek-R1:1.5B is ready!")
     catch _ignored =>
       console_log "❌ DeepSeek-R1:1.5B not available" ;;
       console_log (nl ++ "🚨 Setup Instructions:") ;;
       console_log "1. Install Ollama: curl -fsSL https://ollama.ai/install.sh | sh" ;;
       console_log "2. Pull the model: ollama pull deepseek-r1:1.5b" ;;
       console_log "3. Ensure Ollama is running: ollama serve" ;;
       process_exit 1) ;;
    command_loop rounds fuel [] ;;
    ret tt)
  catch message =>
    console_log ("🚨 Fatal error: " ++ message) ;;
    process_exit 1.

End WithFacade.
End AiAgent.

(** ** A desk to run the scripts on

    A concrete world: [on_screen] elements match any selector, and the lines
    of [keyboard] are what the user types at the prompts.  Looking for the
    first match, clicking or dragging fails with "Element not found" when
    nothing is on screen; the evaluator knows one sum and rejects any other
    text, and every value it is asked to convert has its usual text. *)

Record desk : Type := { on_screen : nat; keyboard : list string }.

Definition elements_on (d : desk) : list Element :=
  List.map Build_Element (seq 0 (on_screen d)).

Definition needs_element (d : desk) : reply unit :=
  if Nat.eqb (on_screen d) 0 then Fail "Element not found" else Ok tt.

Definition desk_perform (A : Type) (c : call A) (d : desk) : reply A * desk :=
  match c in call T return reply T * desk with
  | NewDesktop => (Ok tt, d)
  | CaptureScreen =>
      (Ok {| width := 1920; height := 1080; imageData := [137; 80; 78; 71]%Z |}, d)
  | OcrScreenshot _ => (Ok "File Edit View", d)
  | OcrImagePath _ => (Ok "File Edit View", d)
  | MkLocator _ => (Ok {| locator_id := 0 |}, d)
  | LocatorFirst _ =>
      (match elements_on d with
       | e :: _ => Ok e
       | [] => Fail "Element not found"
       end, d)
  | LocatorAll _ => (Ok (elements_on d), d)
  | LocatorClick _ => (needs_element d, d)
  | MouseClickAndHold _ _ _ => (needs_element d, d)
  | MouseMove _ _ _ => (needs_element d, d)
  | MouseRelease _ => (needs_element d, d)
  | ElClick _ => (Ok VUndef, d)
  | ElDoubleClick _ => (Ok VUndef, d)
  | ElRightClick _ => (Ok tt, d)
  | ElName e => (Ok ("Button " ++ string_of_nat (element_id e)), d)
  | ElRole _ => (Ok "Button", d)
  | ElText _ _ => (Ok "", d)
  | ElIsVisible _ => (Ok true, d)
  | ElIsEnabled _ => (Ok true, d)
  | ElBounds _ => (Ok (VObj [("x", VNum 0); ("y", VNum 0)]), d)
  | ElTypeText _ _ _ => (Ok tt, d)
  | ElFocus _ => (Ok tt, d)
  | OpenApplication _ => (Ok {| element_id := 0 |}, d)
  | Applications => (Ok (elements_on d), d)
  | ActivateApplication _ => (Ok tt, d)
  | Application _ => (Ok {| element_id := 0 |}, d)
  | FocusedElement => (Ok {| element_id := 0 |}, d)
  | RunCommand _ _ =>
      (Ok {| exitStatus := VNum 0; stdout := "done";
             stderr := "warning: deprecated flag" |}, d)
  | OpenFile _ => (Ok tt, d)
  | OpenUrl _ _ => (Ok tt, d)
  | GetCurrentBrowserWindow => (Ok {| element_id := 0 |}, d)
  | FsWriteFile _ _ => (Ok tt, d)
  | FsWriteText _ _ => (Ok tt, d)
  | FsReadFile _ => (Ok [137; 80; 78; 71]%Z, d)
  | FsReadText _ => (Ok "", d)
  | FsReaddir _ => (Ok [], d)
  | GenerateText _ => (Ok "A drawing.", d)
  | StreamText _ _ _ _ => (Ok {| textStream := []; toolCalls := None |}, d)
  | EvalJs source =>
      (if String.eqb source (strict_return "2+2") then Ok (Returned (VNum 4))
       else Fail "SyntaxError: Unexpected token", d)
  | ToStringOf v => (Ok (Returned (js_to_string v)), d)
  | TemplateOf v => (Ok (Returned (js_to_string v)), d)
  | DateNow => (Ok 1700000000000%Z, d)
  | DateIso => (Ok "2024-01-01T00:00:00.000Z", d)
  | Prompt _ =>
      match keyboard d with
      | line :: rest => (Ok line, {| on_screen := on_screen d; keyboard := rest |})
      | [] => (Fail "stdin closed", d)
      end
  end.

Definition desk_facade : Facade desk :=
  {| perform := desk_perform; platform := "win32" |}.

(** What a run returned, and what it did. *)
Definition result_of {World A} (r : outcome A * World * list event) : outcome A :=
  fst (fst r).

Definition world_after {World A} (r : outcome A * World * list event) : World :=
  snd (fst r).

Definition events_of {World A} (r : outcome A * World * list event) : list event :=
  snd r.

(** The messages of the facade calls that failed during a run. *)
Definition failure_of (e : event) : list string :=
  match e with
  | EvCall c (Some msg) => if is_facade c then [msg] else []
  | _ => []
  end.

Definition facade_failures (evs : list event) : list string :=
  flat_map failure_of evs.

Definition facade_failure (evs : list event) (msg : string) : Prop :=
  In msg (facade_failures evs).

(** * What the specification says

    The predicates the properties are stated with. *)

Section Specification.
Context {World : Type} `{Facade World}.
Local Abbreviation M := (script World).

(** A computation is [faithful] when the exception it throws, if any, is the
    failure of the facade call that stopped it: no facade failure was
    swallowed on the way. *)
Definition faithful {A} (m : M A) : Prop :=
  forall w,
    match m w with
    | (Ret _, _, evs) => forall msg, ~ facade_failure evs msg
    | (Throw thrown, _, evs) => forall msg, facade_failure evs msg -> msg = thrown
    | (Exit _, _, _) | (Hang, _, _) => True
    end.

(** The computation neither ends the process nor stalls it. *)
Definition no_stop {A} (m : M A) : Prop :=
  forall w, match m w with (Exit _, _, _) | (Hang, _, _) => False | _ => True end.

Definition no_throw {A} (m : M A) : Prop :=
  forall w, match m w with (Throw _, _, _) => False | _ => True end.

(** Whatever is returned satisfies [P]. *)
Definition returns {A} (P : A -> Prop) (m : M A) : Prop :=
  forall w, match m w with (Ret a, _, _) => P a | _ => True end.

(** The computation always returns. *)
Definition total {A} (m : M A) : Prop :=
  forall w, exists a w' evs, m w = (Ret a, w', evs).

(** A computation that never makes a facade call fail. *)
Definition quiet {A} (m : M A) : Prop :=
  forall w, facade_failures (events_of (m w)) = [].

(** The computation always returns, and what it returns satisfies [P]. *)
Definition always {A} (P : A -> Prop) (m : M A) : Prop :=
  forall w, exists a w' evs, m w = (Ret a, w', evs) /\ P a.

(** The run was stopped by the user's text: its last event is a call that
    runs the text, and the host answered that call by ending the process
    with the status the run ends with, or by never returning. *)
Definition stopped_by_the_text {A} (r : outcome A * World * list event) : Prop :=
  exists B (c : call (ending B)) (w0 : World) (evs : list event),
    events_of r = (evs ++ [EvCall c None])%list /\
    ((exists code,
         perform c w0 = (Ok (Exited code), world_after r) /\ result_of r = Exit code) \/
     (perform c w0 = (Ok Looping, world_after r) /\ result_of r = Hang)).

(** The computation ends the process or stalls only inside the user's text. *)
Definition stops_in_the_text_only {A} (m : M A) : Prop :=
  forall w,
    match result_of (m w) with
    | Exit _ | Hang => stopped_by_the_text (m w)
    | _ => True
    end.

(** The computation returns, and what it returns satisfies [P], unless the
    user's text stops it; it never throws. *)
Definition unless_stopped {A} (P : A -> Prop) (m : M A) : Prop :=
  forall w,
    (exists a w' evs, m w = (Ret a, w', evs) /\ P a) \/ stopped_by_the_text (m w).

(** A result that reports the failure [msg] the way the claim C1 says. *)
Definition reports_failure (v : value) (msg : string) : Prop :=
  get "success" v = VBool false /\ get "error" v = VStr msg.

(** C1 for one tool: it always returns a result, and every facade failure
    of the run is reported by that result. *)
Definition converts_failures (tool : M value) : Prop :=
  forall w, exists v w' evs,
    tool w = (Ret v, w', evs) /\
    forall msg, facade_failure evs msg -> reports_failure v msg.

(** The convention of the AI agent: no [success] field, and a facade failure
    shows at the end of the [error] text. *)
Definition reports_in_error_text (tool : M value) : Prop :=
  forall w, exists v w' evs,
    tool w = (Ret v, w', evs) /\
    has_field "success" v = false /\
    forall msg, facade_failure evs msg ->
                exists prefix, get "error" v = VStr (prefix ++ msg).

(** The two shapes of C2. *)
Definition success_shape (v : value) : Prop :=
  get "success" v = VBool true /\
  (exists message, get "message" v = VStr message) /\
  has_field "error" v = false.

Definition failure_shape (v : value) : Prop :=
  get "success" v = VBool false /\
  (exists error, get "error" v = VStr error) /\
  has_field "message" v = false.

Definition well_shaped (v : value) : Prop := success_shape v \/ failure_shape v.

(** What [runCommand] returns on success: [error] holds the command's
    standard error. *)
Definition success_with_stderr (v : value) : Prop :=
  get "success" v = VBool true /\
  (exists message, get "message" v = VStr message) /\
  (exists text, get "error" v = VStr text).

Definition no_success_field (v : value) : Prop := has_field "success" v = false.

(** What a calculate tool answers when it answers: success, or the one
    error it knows. *)
Definition calculated (v : value) : Prop :=
  success_shape v \/ v = fail_result "Invalid mathematical expression".

(** What a calculate tool answers for the value [v] of the expression. *)
Definition calculation (expression : string) (v : value) : value :=
  VObj [("success", VBool true);
        ("result", VStr (js_to_string v));
        ("message", VStr (expression ++ " = " ++ js_to_string v))].

(** What C1 becomes for the tools of simple-agent and test-agent: calculate
    runs the user's text, which may stop the run; whatever the text throws is
    reported by the one error, and a boolean, a whole number or a string it
    returns is the result.  Every other tool converts the facade failures. *)
Definition simple_agent_promise (i : SimpleAgent.invocation) : Prop :=
  match i with
  | SimpleAgent.Calculate expression =>
      unless_stopped calculated (SimpleAgent.execute i) /\
      (forall w message w1,
          perform (EvalJs (strict_return expression)) w = (Fail message, w1) ->
          result_of (SimpleAgent.execute i w)
          = Ret (fail_result "Invalid mathematical expression")) /\
      (forall w v w1,
          perform (EvalJs (strict_return expression)) w = (Ok (Returned v), w1) ->
          primitive v = true ->
          result_of (SimpleAgent.execute i w) = Ret (calculation expression v))
  | _ => converts_failures (SimpleAgent.execute i)
  end.

Definition test_agent_promise (i : TestAgent.invocation) : Prop :=
  match i with
  | TestAgent.Calculate expression =>
      unless_stopped calculated (TestAgent.execute i) /\
      (forall w message w1,
          perform (EvalJs (strict_return expression)) w = (Fail message, w1) ->
          result_of (TestAgent.execute i w)
          = Ret (fail_result "Invalid mathematical expression")) /\
      (forall w v w1,
          perform (EvalJs (strict_return expression)) w = (Ok (Returned v), w1) ->
          primitive v = true ->
          result_of (TestAgent.execute i w) = Ret (calculation expression v))
  | _ => converts_failures (TestAgent.execute i)
  end.

(** The shape of a result of the AI agent: no [success] field; when there
    is an [error] field it holds a string, and there is no [status]. *)
Definition ai_agent_shape (v : value) : Prop :=
  has_field "success" v = false /\
  (has_field "error" v = true ->
   (exists error, get "error" v = VStr error) /\ has_field "status" v = false).

(** What C1 becomes for the AI agent: the calculator runs the user's text
    and swallows the failure of its optional demonstration, the other tools
    put the facade message at the end of their [error] text. *)
Definition ai_agent_reports (i : AiAgent.invocation) : Prop :=
  match i with
  | AiAgent.Calculator expression _ =>
      unless_stopped no_success_field (AiAgent.execute i) /\
      (forall w message w1,
          perform (EvalJs (strict_return expression)) w = (Fail message, w1) ->
          result_of (AiAgent.execute i w)
          = Ret (VObj [("error", VStr "Invalid mathematical expression");
                       ("expression", VStr expression)])) /\
      (forall w v w1,
          perform (EvalJs (strict_return expression)) w = (Ok (Returned v), w1) ->
          primitive v = true ->
          exists answer,
            result_of (AiAgent.execute i w) = Ret answer /\
            get "result" answer = VStr (js_to_string v) /\
            has_field "error" answer = false)
  | _ => reports_in_error_text (AiAgent.execute i)
  end.

(** A tool promises [P] of its results: it always returns one, calculate
    apart, which returns one unless the user's text stops the run. *)
Definition simple_agent_result (P : value -> Prop) (i : SimpleAgent.invocation) : Prop :=
  match i with
  | SimpleAgent.Calculate _ => unless_stopped P (SimpleAgent.execute i)
  | _ => always P (SimpleAgent.execute i)
  end.

Definition test_agent_result (P : value -> Prop) (i : TestAgent.invocation) : Prop :=
  match i with
  | TestAgent.Calculate _ => unless_stopped P (TestAgent.execute i)
  | _ => always P (TestAgent.execute i)
  end.

Definition ai_agent_result (P : value -> Prop) (i : AiAgent.invocation) : Prop :=
  match i with
  | AiAgent.Calculator _ _ => unless_stopped P (AiAgent.execute i)
  | _ => always P (AiAgent.execute i)
  end.

(** The shape simple-agent and test-agent promise for each tool: runCommand
    keeps the command's standard error in [error] when it succeeds. *)
Definition simple_agent_shape (i : SimpleAgent.invocation) (v : value) : Prop :=
  match i with
  | SimpleAgent.RunCommand_ _ => failure_shape v \/ success_with_stderr v
  | _ => well_shaped v
  end.

Definition test_agent_shape (i : TestAgent.invocation) (v : value) : Prop :=
  match i with
  | TestAgent.RunCommand_ _ => failure_shape v \/ success_with_stderr v
  | _ => well_shaped v
  end.

(** What [findElements] answers when the search finds nothing. *)
Definition nothing_found (selector : string) : value :=
  VObj [("success", VBool true);
        ("count", VNum 0);
        ("elements", VArr []);
        ("message", VStr ("Found 0 elements matching " ++ selector))].

(** What C10 says of one [findElements], once the search has answered [els]
    in the world [w]: the first five matches are described, and no other.
    When the five descriptions come back, the result is a success that
    reports the full count and lists them; when one of them throws, the
    result is the failure with that message. *)
Definition truncates_to_five (describe : Element -> M value) (selector : string)
  (els : list Element) (w : World) (r : outcome value) : Prop :=
  match result_of (mapM describe (firstn 5 els) w) with
  | Ret details =>
      r = Ret (VObj [("success", VBool true);
                     ("count", VNum (Z.of_nat (List.length els)));
                     ("elements", VArr details);
                     ("message", VStr ("Found " ++ string_of_nat (List.length els)
                                       ++ " elements matching " ++ selector))]) /\
      List.length details = Nat.min (List.length els) 5
  | Throw message => r = Ret (fail_result message)
  | Exit _ | Hang => False
  end.

(** The Tool Result of the scenario [calc "2+2"]. *)
Definition two_plus_two : value :=
  VObj [("success", VBool true); ("result", VStr "4"); ("message", VStr "2+2 = 4")].

Definition testing (toolName : string) : event :=
  EvPrint (nl ++ "🧪 Testing " ++ toolName ++ "...").

Definition asked : list event := [EvPrint ""; EvCall (Prompt "🤖 Agent") None].

End Specification.

(** What the mouse is asked to do. *)
Inductive mouse_request : Type :=
| Press (x y : Z)
| Move (x y : Z)
| Release.

Definition request_of (e : event) : list mouse_request :=
  match e with
  | EvCall c _ =>
      match c with
      | MouseClickAndHold _ x y => [Press x y]
      | MouseMove _ x y => [Move x y]
      | MouseRelease _ => [Release]
      | _ => []
      end
  | _ => []
  end.

Definition requests (evs : list event) : list mouse_request :=
  flat_map request_of evs.

(** The drag gesture that replays a sequence of points: press at the first,
    move through the others, release. *)
Definition gesture (points : list (Z * Z)) : list mouse_request :=
  match points with
  | [] => []
  | (x, y) :: rest => (Press x y :: List.map (fun p => Move (fst p) (snd p)) rest
                       ++ [Release])%list
  end.

Definition rounded {flt} `{JSMath flt} (p : flt * flt) : Z * Z :=
  (Math_round (fst p), Math_round (snd p)).

Section GestureSteps.
Context {World : Type} `{Facade World}.
Context {flt : Type} `{JSMath flt}.
Local Abbreviation M := (script World).

Definition move_to (p : flt * flt) : mouse_request :=
  Move (Math_round (fst p)) (Math_round (snd p)).

Definition move_step (canvas : Locator) (p : @VisionArtist.point flt) : M unit :=
  bind (ext (MouseMove canvas (Math_round (fst p)) (Math_round (snd p))))
       (fun _ => sleep 50).

End GestureSteps.

(** What one run of a shape function asks of the mouse: it returns, the
    requests are a beginning of the gesture through the given points, and
    the whole gesture when no call failed. *)
Definition replays {World} (r : outcome unit * World * list event)
  (points : list (Z * Z)) : Prop :=
  result_of r = Ret tt /\
  (exists n, requests (events_of r) = firstn n (gesture points)) /\
  (facade_failures (events_of r) = [] -> requests (events_of r) = gesture points).

Definition empty_desk : desk := {| on_screen := 0; keyboard := [] |}.

Definition seven_buttons : desk := {| on_screen := 7; keyboard := [] |}.

Definition enter_pressed : desk := {| on_screen := 0; keyboard := [""] |}.

(** A coarse stand-in for the doubles, over the integers, with which the
    drawing tools can be run on the concrete desk: division truncates and the
    trigonometric functions are flat.  No theorem depends on it; the
    properties are stated for every implementation of the arithmetic. *)
Definition whole_numbers : JSMath Z :=
  {| of_Z := fun n => n;
     toNumber := fun v => match v with VNum n => n | _ => 0%Z end;
     fadd := Z.add;
     fsub := Z.sub;
     fmul := Z.mul;
     fdiv := Z.div;
     Math_cos := fun _ => 1%Z;
     Math_sin := fun _ => 0%Z;
     Math_sqrt := Z.sqrt;
     Math_pow := Z.pow;
     Math_PI := 3%Z;
     Math_round := fun n => n |}.

(** ** A studio: a desk with a folder and a model that may be down

    A second concrete world.  The folder lists the files of the working
    directory, and a file written is added to it; [disk_error] is what every
    file operation fails with, when set, and [model_error] what every request
    to the language model fails with.  The evaluator of the studio knows, besides
    the sum of the desk, an expression that ends the process, one that loops,
    and two that build an object and an array. *)

Record studio : Type :=
  { at_desk : desk;
    folder : list string;
    disk_error : option string;
    model_error : option string }.

Definition on_disk {A} (s : studio) (a : A) : reply A :=
  match disk_error s with
  | Some message => Fail message
  | None => Ok a
  end.

Definition by_model {A} (s : studio) (a : A) : reply A :=
  match model_error s with
  | Some message => Fail message
  | None => Ok a
  end.

Definition at_the_desk {A} (s : studio) (r : reply A * desk) : reply A * studio :=
  (fst r,
   {| at_desk := snd r; folder := folder s;
      disk_error := disk_error s; model_error := model_error s |}).

(** What the evaluator of the studio knows besides the sum of the desk. *)
Definition studio_eval (source : string) : option (reply (ending value)) :=
  if String.eqb source (strict_return "process.exit(7)") then Some (Ok (Exited 7))
  else if String.eqb source (strict_return "(() => { while (true) {} })()")
  then Some (Ok Looping)
  else if String.eqb source (strict_return "({ toString: 5 })")
  then Some (Ok (Returned (VObj [("toString", VNum 5)])))
  else if String.eqb source (strict_return "[1, 2]")
  then Some (Ok (Returned (VArr [VNum 1; VNum 2])))
  else None.

(** An object that carries a [toString] of its own which is no function
    cannot be converted. *)
Definition studio_conversion (v : value) (failure : string) : reply (ending string) :=
  match v with
  | VObj fields =>
      match lookup "toString" fields with
      | Some _ => Fail failure
      | None => Ok (Returned (js_to_string v))
      end
  | _ => Ok (Returned (js_to_string v))
  end.

Definition studio_perform (A : Type) (c : call A) (s : studio) : reply A * studio :=
  match c in call T return reply T * studio with
  | EvalJs source =>
      match studio_eval source with
      | Some answer => (answer, s)
      | None => at_the_desk s (desk_perform (EvalJs source) (at_desk s))
      end
  | ToStringOf v => (studio_conversion v "result.toString is not a function", s)
  | TemplateOf v => (studio_conversion v "Cannot convert object to primitive value", s)
  | FsReaddir _ => (on_disk s (folder s), s)
  | FsReadFile _ => (on_disk s [137; 80; 78; 71]%Z, s)
  | FsWriteFile path _ =>
      (on_disk s tt,
       match disk_error s with
       | Some _ => s
       | None => {| at_desk := at_desk s; folder := path :: folder s;
                    disk_error := None; model_error := model_error s |}
       end)
  | GenerateText _ => (by_model s "A star with five points.", s)
  | StreamText _ _ _ _ =>
      (by_model s {| textStream := ["On"; " it."]; toolCalls := None |}, s)
  | other => at_the_desk s (desk_perform other (at_desk s))
  end.

Definition studio_facade : Facade studio :=
  {| perform := studio_perform; platform := "win32" |}.

Definition in_studio (d : desk) (files : list string) : studio :=
  {| at_desk := d; folder := files; disk_error := None; model_error := None |}.

(** What the AI agent does before its first prompt, when the model answers. *)
Definition started : list event :=
  [EvCall NewDesktop None;
   EvPrint "AI Agent";
   EvPrint (nl ++ "🤖 Powered by Terminator.js + DeepSeek-R1:1.5B + Ollama + Vercel AI SDK" ++ nl);
   EvPrint AiAgent.banner_text;
   EvSpinner "🔍 Checking DeepSeek-R1:1.5B availability...";
   EvCall (GenerateText "Hello! Are you working correctly?") None;
   EvPrint "✅ DeepSeek-R1:1.5B is ready!"].

(** The files a run asked to read, and to write, in order. *)
Definition file_read (e : event) : list string :=
  match e with
  | EvCall c _ =>
      match c with
      | FsReadFile path => [path]
      | FsReadText path => [path]
      | _ => []
      end
  | _ => []
  end.

Definition files_read (evs : list event) : list string := flat_map file_read evs.

Definition file_written (e : event) : list string :=
  match e with
  | EvCall c _ =>
      match c with
      | FsWriteFile path _ => [path]
      | FsWriteText path _ => [path]
      | _ => []
      end
  | _ => []
  end.

Definition files_written (evs : list event) : list string := flat_map file_written evs.

(** The prompts a run sent to [generateText], each with the failure it met. *)
Definition model_request (e : event) : list (string * option string) :=
  match e with
  | EvCall c failure =>
      match c with
      | GenerateText prompt => [(prompt, failure)]
      | _ => []
      end
  | _ => []
  end.

Definition model_requests (evs : list event) : list (string * option string) :=
  flat_map model_request evs.

(** The captures [analyzeArtwork] chooses from, and the screenshots
    [analyzeScreenshot] chooses from. *)
Definition is_capture (f : string) : bool :=
  (starts_with "artwork_" f && ends_with ".png" f)%bool.

Definition is_art (f : string) : bool :=
  (starts_with "art_" f && ends_with ".png" f)%bool.

(** A run that answers with a success. *)
Definition succeeds {World} (r : outcome value * World * list event) : Prop :=
  exists v w' evs, r = (Ret v, w', evs) /\ get "success" v = VBool true.

(** A step that always returns and touches no file. *)
Definition leaves_files_alone {World A} (m : script World A) : Prop :=
  forall w, exists a w' evs,
    m w = (Ret a, w', evs) /\ files_written evs = [] /\ files_read evs = [].

(** A computation that only prints: it returns, leaves the world as it was,
    and prints the same whatever the world. *)
Definition only_prints {World} (m : script World unit) : Prop :=
  exists evs, forall w, m w = (Ret tt, w, evs).

(** A field that is absent or holds a string. *)
Definition text_or_absent (v : value) : Prop :=
  v = VUndef \/ exists s, v = VStr s.

(** A field that is absent or holds an array of objects. *)
Definition objects_or_absent (v : value) : Prop :=
  v = VUndef \/
  exists items, v = VArr items /\ Forall (fun el => exists fields, el = VObj fields) items.

(** A successful Tool Result of the kind test-agent displays. *)
Definition displayable (v : value) : Prop :=
  (exists fields, v = VObj fields) /\
  get "success" v = VBool true /\
  text_or_absent (get "extractedText" v) /\
  objects_or_absent (get "elements" v) /\
  text_or_absent (get "output" v) /\
  text_or_absent (get "error" v).

(** What a tool of test-agent hands to the display. *)
Definition shown_or_failed (v : value) : Prop :=
  displayable v \/ exists message, v = fail_result message.

(** ** simple-agent.js: the chat loop *)

Module SimpleAgentChat.
Section WithFacade.
Context {World : Type} `{Facade World}.
Local Abbreviation M := (script World).

Definition show_tool_call (toolCall : value) : M unit :=
  result <- prop toolCall "result" ;;
  success <- prop result "success" ;;
  if truthy success then
    console_log (nl ++ "✅ " ++ js_to_string (get "message" result)) ;;
    (if truthy (get "extractedText" result) then
       head <- method_substring (get "extractedText" result) 200
                 "result.extractedText" ;;
       console_log ("📝 Text found: " ++ head ++ "...")
     else ret tt) ;;
    (if truthy (get "elements" result) then
       items <- items_of (get "elements" result) "result.elements" "map" ;;
       names <- mapM (fun e => prop e "name") items ;;
       console_log ("🔍 Elements: "
                    ++ join ", " (List.map (fun n => match n with
                                                     | VUndef | VNull => ""
                                                     | _ => js_to_string n
                                                     end) names))
     else ret tt) ;;
    (if truthy (get "output" result) then
       trimmed <- method_trim (get "output" result) "result.output" ;;
       if String.eqb trimmed "" then ret tt
       else console_log ("📤 Output: " ++ trimmed)
     else ret tt)
  else
    console_log (nl ++ "❌ Error: " ++ js_to_string (get "error" result)).

(** One pass of the [while (true)]: [false] when the user leaves. *)
Definition chat_turn : M bool :=
  message <- ext (Prompt "You:") ;;
  if (String.eqb (toLowerCase message) "quit"
      || String.eqb (toLowerCase message) "exit")%bool then
    console_log (nl ++ "👋 Goodbye!") ;;
    ret false
  else if String.eqb (trim message) "" then ret true
  else
    (try (
       console_log (nl ++ "🤖 AI:  { newline: false }") ;;
       response <- ext (StreamText (Some TestAgent.system_prompt) message []
                          TestAgent.tool_names) ;;
       forM (textStream response) stdout_write ;;
       match toolCalls response with
       | Some (call1 :: calls) => forM (call1 :: calls) show_tool_call
       | _ => ret tt
       end ;;
       console_log nl)
     catch message => console_log (nl ++ "❌ Error: " ++ message ++ nl)) ;;
    ret true.

(** [chat], for at most [fuel] messages. *)
Fixpoint chat (fuel : nat) : M unit :=
  match fuel with
  | O => ret tt
  | S fuel' =>
      again <- chat_turn ;;
      if again then chat fuel' else ret tt
  end.

(** The script: the banner, then [chat().catch(...)]. *)
Definition main (fuel : nat) : M unit :=
  ext NewDesktop ;;
  console_log "🤖 Initializing Desktop automation engine" ;;
  console_log "✅ Desktop automation engine initialized" ;;
  console_log (nl ++ "💬 Simple AI Chat Agent") ;;
  console_log "Just talk naturally - I can take screenshots, click things, open apps, and more!" ;;
  console_log ("Type " ++ dquote ++ "quit" ++ dquote ++ " or " ++ dquote ++ "exit"
               ++ dquote ++ " to stop" ++ nl) ;;
  try chat fuel
  catch message =>
    console_log ("Fatal error: " ++ message) ;;
    process_exit 1.

End WithFacade.
End SimpleAgentChat.

(** ** The simple vision artist: the commands *)

Module SimpleVisionArtistCli.
Section WithFacade.
Context {World : Type} `{Facade World}.
Local Abbreviation M := (script World).

Definition tool_names : list string :=
  ["openPaint"; "drawOnCanvas"; "takeScreenshot"; "analyzeScreenshot"].

Definition create_prompt (description : string) : string :=
  "You are an AI artist. Your ONLY job is to use the provided tools to draw in MS Paint and verify your work." ++ nl ++ nl ++
  "MANDATORY STEPS - YOU MUST DO ALL OF THESE:" ++ nl ++
  "1. FIRST: Use openPaint tool to open MS Paint" ++ nl ++
  "2. THEN: Use drawOnCanvas tool to draw something (specify exact coordinates like startX:300, startY:200, endX:500, endY:400)" ++ nl ++
  "3. THEN: Use takeScreenshot tool to capture what you drew" ++ nl ++
  "4. THEN: Use analyzeScreenshot tool to see what you actually created" ++ nl ++
  "5. REPEAT steps 2-4 to add more elements" ++ nl ++ nl ++
  "YOU MUST USE THE TOOLS. Do not just talk - USE THE TOOLS." ++ nl ++ nl ++
  "Task: " ++ description ++ nl ++ nl ++
  "Start by using the openPaint tool RIGHT NOW.".

Definition show_action (toolCall : value) : M unit :=
  result <- prop toolCall "result" ;;
  success <- prop result "success" ;;
  if truthy success then
    console_log ("✅ " ++ js_to_string (get "message" result)) ;;
    when (truthy (get "analysis" result))
      (console_log (nl ++ "👁️ Vision Analysis:") ;;
       console_log (js_to_string (get "analysis" result)))
  else
    console_log ("❌ " ++ js_to_string (get "error" result)).

Definition createArt (description : string) : M unit :=
  console_log (nl ++ "🎨 Creating: " ++ description) ;;
  try (
    response <- ext (StreamText None (create_prompt description) [] tool_names) ;;
    console_log (nl ++ "🤖 AI Artist: ") ;;
    forM (textStream response) stdout_write ;;
    match toolCalls response with
    | Some (call1 :: calls) =>
        console_log (nl ++ nl ++ "🛠️ Actions taken:") ;;
        forM (call1 :: calls) show_action
    | _ => console_log (nl ++ "❌ No tools were used! AI did not follow instructions.")
    end ;;
    console_log (nl ++ "🎨 Artwork creation complete!"))
  catch message => console_log ("❌ Error: " ++ message).

(** [console.log(result.success ? ... : ...)] *)
Definition report (result : value) : M unit :=
  console_log (if truthy (get "success" result)
               then "✅ " ++ js_to_string (get "message" result)
               else "❌ " ++ js_to_string (get "error" result)).

Definition test : M unit :=
  console_log (nl ++ "🧪 Testing basic functionality...") ;;
  console_log (nl ++ "1. Testing openPaint...") ;;
  result <- SimpleVisionArtist.openPaint_execute ;;
  report result ;;
  console_log (nl ++ "2. Testing drawOnCanvas...") ;;
  result <- SimpleVisionArtist.drawOnCanvas_execute 300 200 500 300 "test line" ;;
  report result ;;
  console_log (nl ++ "3. Testing takeScreenshot...") ;;
  result <- SimpleVisionArtist.takeScreenshot_execute (Some "test capture") ;;
  report result ;;
  (if truthy (get "success" result) then
     console_log (nl ++ "4. Testing analyzeScreenshot...") ;;
     result <- SimpleVisionArtist.analyzeScreenshot_execute
                 (Some "What did I just draw?") ;;
     report result ;;
     if (truthy (get "success" result) && truthy (get "analysis" result))%bool then
       console_log (nl ++ "👁️ Analysis result:") ;;
       head <- method_substring (get "analysis" result) 200 "result.analysis" ;;
       console_log (head ++ "...")
     else ret tt
   else ret tt) ;;
  console_log (nl ++ "✅ Test complete!").

Definition usage : list string :=
  [nl ++ "🎨 Simple Vision AI Artist";
   "Usage:";
   "  node simple-vision-artist.js create " ++ dquote ++ "draw a star" ++ dquote;
   "  node simple-vision-artist.js test"]%string.

(** The script, run on [process.argv.slice(2)]. *)
Definition main (args : list string) : M unit :=
  ext NewDesktop ;;
  console_log "🎨 Initializing Simple Vision Artist..." ;;
  console_log "✅ Simple Vision Artist ready" ;;
  match args with
  | [] => forM usage console_log ;; process_exit 0
  | command :: rest =>
      if String.eqb command "" then forM usage console_log ;; process_exit 0
      else if String.eqb command "create" then
        let joined := join " " rest in
        createArt (if String.eqb joined "" then "simple drawing" else joined)
      else if String.eqb command "test" then test
      else console_log ("Unknown command: " ++ command)
  end.

End WithFacade.
End SimpleVisionArtistCli.

(** The tool of test-agent that stands for a tool of simple-agent. *)
Definition same_tool (i : SimpleAgent.invocation) : TestAgent.invocation :=
  match i with
  | SimpleAgent.Screenshot_ withOCR => TestAgent.Screenshot_ withOCR
  | SimpleAgent.ClickElement selector => TestAgent.ClickElement selector
  | SimpleAgent.FindElements selector => TestAgent.FindElements selector
  | SimpleAgent.OpenApp appName => TestAgent.OpenApp appName
  | SimpleAgent.TypeText text => TestAgent.TypeText text
  | SimpleAgent.Calculate expression => TestAgent.Calculate expression
  | SimpleAgent.RunCommand_ command => TestAgent.RunCommand_ command
  end.

(** The events of a run that are not lines printed. *)
Definition is_print (e : event) : bool :=
  match e with
  | EvPrint _ => true
  | _ => false
  end.

Definition unprinted (evs : list event) : list event :=
  filter (fun e => negb (is_print e)) evs.

(** A computation that prints nothing. *)
Definition silent {World A} (m : script World A) : Prop :=
  forall w, unprinted (events_of (m w)) = events_of (m w).

(** * Reasoning about scripts *)

Section Reasoning.
Context {World : Type} `{Facade World}.
Local Abbreviation M := (script World).

Lemma facade_failure_app evs1 evs2 msg :
  facade_failure (evs1 ++ evs2) msg <->
  facade_failure evs1 msg \/ facade_failure evs2 msg.
Proof.
  unfold facade_failure, facade_failures. rewrite flat_map_app. apply in_app_iff.
Qed.

Lemma facade_failure_nil msg : ~ facade_failure [] msg.
Proof. intros []. Qed.

Lemma facade_failure_quiet e msg :
  failure_of e = [] -> ~ facade_failure [e] msg.
Proof.
  unfold facade_failure, facade_failures; cbn. intros ->. intros [].
Qed.

Lemma total_intro A (m : M A) : no_throw m -> no_stop m -> total m.
Proof.
  intros Ht He w. specialize (Ht w). specialize (He w).
  destruct (m w) as [[[a | msg | code |] w'] evs]; try contradiction; eauto.
Qed.

(** *** [faithful] *)

Lemma faithful_ret A (a : A) : faithful (ret a : M A).
Proof. intros w; cbn. apply facade_failure_nil. Qed.

Lemma faithful_throw A msg : faithful (@throw World A msg).
Proof. intros w; cbn. intros m Hm. now apply facade_failure_nil in Hm. Qed.

Lemma faithful_emit e : failure_of e = [] -> faithful (emit e : M unit).
Proof.
  intros He w; cbn. intros msg. now apply facade_failure_quiet.
Qed.

Lemma faithful_ext A (c : call A) : faithful (ext c).
Proof.
  intros w; unfold ext. destruct (perform c w) as [[a | msg] w1].
  - intros m. now apply facade_failure_quiet.
  - intros m. unfold facade_failure, facade_failures; cbn.
    destruct (is_facade c); cbn; [intros [E | []]; now subst | intros []].
Qed.

Lemma faithful_bind A B (m : M A) (k : A -> M B) :
  faithful m -> (forall a, faithful (k a)) -> faithful (bind m k).
Proof.
  intros Hm Hk w. unfold bind. specialize (Hm w).
  destruct (m w) as [[[a | thrown | code |] w1] ev1]; auto.
  specialize (Hk a w1). unfold after.
  destruct (k a w1) as [[[b | thrown | code |] w2] ev2]; auto.
  - intros msg Hf.
    apply facade_failure_app in Hf as [Hf | Hf]; [eapply Hm | eapply Hk]; eauto.
  - intros msg Hf.
    apply facade_failure_app in Hf as [Hf | Hf]; [now apply Hm in Hf | auto].
Qed.

Lemma faithful_mapM A B (f : A -> M B) l :
  (forall a, faithful (f a)) -> faithful (mapM f l).
Proof.
  intros Hf; induction l as [| a l IH]; cbn [mapM].
  - apply faithful_ret.
  - apply faithful_bind; auto. intros b. apply faithful_bind; auto.
    intros bs. apply faithful_ret.
Qed.

(** *** [no_stop] and [no_throw] *)

Lemma no_stop_ret A (a : A) : no_stop (ret a : M A).
Proof. intros w; exact I. Qed.

Lemma no_stop_throw A msg : no_stop (@throw World A msg).
Proof. intros w; exact I. Qed.

Lemma no_stop_emit e : no_stop (emit e : M unit).
Proof. intros w; exact I. Qed.

Lemma no_stop_ext A (c : call A) : no_stop (ext c).
Proof. intros w; unfold ext. now destruct (perform c w) as [[a | msg] w1]. Qed.

Lemma no_stop_bind A B (m : M A) (k : A -> M B) :
  no_stop m -> (forall a, no_stop (k a)) -> no_stop (bind m k).
Proof.
  intros Hm Hk w. unfold bind. specialize (Hm w).
  destruct (m w) as [[[a | thrown | code |] w1] ev1]; auto.
  specialize (Hk a w1). unfold after.
  now destruct (k a w1) as [[[b | thrown | code |] w2] ev2].
Qed.

Lemma no_stop_try A (body : M A) handler :
  no_stop body -> (forall msg, no_stop (handler msg)) ->
  no_stop (try_catch body handler).
Proof.
  intros Hb Hh w. unfold try_catch. specialize (Hb w).
  destruct (body w) as [[[a | thrown | code |] w1] ev1]; auto.
  specialize (Hh thrown w1). unfold after.
  now destruct (handler thrown w1) as [[[b | thrown' | code |] w2] ev2].
Qed.

Lemma no_stop_mapM A B (f : A -> M B) l :
  (forall a, no_stop (f a)) -> no_stop (mapM f l).
Proof.
  intros Hf; induction l as [| a l IH]; cbn [mapM].
  - apply no_stop_ret.
  - apply no_stop_bind; auto. intros b. apply no_stop_bind; auto.
    intros bs. apply no_stop_ret.
Qed.

Lemma no_stop_forM A (body : A -> M unit) l :
  (forall a, no_stop (body a)) -> no_stop (forM l body).
Proof.
  intros Hf; induction l as [| a l IH]; cbn [forM].
  - apply no_stop_ret.
  - apply no_stop_bind; auto.
Qed.

Lemma no_throw_ret A (a : A) : no_throw (ret a : M A).
Proof. intros w; exact I. Qed.

Lemma no_throw_emit e : no_throw (emit e : M unit).
Proof. intros w; exact I. Qed.

Lemma no_throw_bind A B (m : M A) (k : A -> M B) :
  no_throw m -> (forall a, no_throw (k a)) -> no_throw (bind m k).
Proof.
  intros Hm Hk w. unfold bind. specialize (Hm w).
  destruct (m w) as [[[a | thrown | code |] w1] ev1]; auto.
  specialize (Hk a w1). unfold after.
  now destruct (k a w1) as [[[b | thrown | code |] w2] ev2].
Qed.

Lemma no_throw_try A (body : M A) handler :
  (forall msg, no_throw (handler msg)) -> no_throw (try_catch body handler).
Proof.
  intros Hh w. unfold try_catch.
  destruct (body w) as [[[a | thrown | code |] w1] ev1]; auto.
  specialize (Hh thrown w1). unfold after.
  now destruct (handler thrown w1) as [[[b | thrown' | code |] w2] ev2].
Qed.

(** *** [returns] *)

Lemma returns_ret A (P : A -> Prop) a : P a -> returns P (ret a : M A).
Proof. intros Ha w; exact Ha. Qed.

Lemma returns_bind A B (P : B -> Prop) (m : M A) (k : A -> M B) :
  (forall a, returns P (k a)) -> returns P (bind m k).
Proof.
  intros Hk w. unfold bind.
  destruct (m w) as [[[a | thrown | code |] w1] ev1]; auto.
  specialize (Hk a w1). unfold after.
  now destruct (k a w1) as [[[b | thrown | code |] w2] ev2].
Qed.

Lemma returns_try A (P : A -> Prop) (body : M A) handler :
  returns P body -> (forall msg, returns P (handler msg)) ->
  returns P (try_catch body handler).
Proof.
  intros Hb Hh w. unfold try_catch. specialize (Hb w).
  destruct (body w) as [[[a | thrown | code |] w1] ev1]; auto.
  specialize (Hh thrown w1). unfold after.
  now destruct (handler thrown w1) as [[[b | thrown' | code |] w2] ev2].
Qed.

Lemma returns_bind_with A B (Q : A -> Prop) (P : B -> Prop) (m : M A) (k : A -> M B) :
  returns Q m -> (forall a, Q a -> returns P (k a)) -> returns P (bind m k).
Proof.
  intros Hm Hk w. unfold bind. specialize (Hm w).
  destruct (m w) as [[[a | thrown | code |] w1] ev1]; auto.
  specialize (Hk a Hm w1). unfold after.
  now destruct (k a w1) as [[[b | thrown | code |] w2] ev2].
Qed.

Lemma lookup_set_field_other k k' x fields :
  k <> k' -> lookup k (set_field k' x fields) = lookup k fields.
Proof.
  intros Hk. induction fields as [| [k0 v0] fields IH]; cbn.
  - apply String.eqb_neq in Hk. now rewrite Hk.
  - destruct (String.eqb k' k0) eqn:E'; cbn.
    + apply String.eqb_eq in E'; subst k0.
      apply String.eqb_neq in Hk. now rewrite Hk.
    + now rewrite IH.
Qed.

Lemma has_field_set_other k k' x v :
  k <> k' -> has_field k (set k' x v) = has_field k v.
Proof.
  intros Hk. destruct v; cbn; auto. now rewrite lookup_set_field_other.
Qed.

(** *** Running a script step by step *)

Lemma run_bind A B (m : M A) (k : A -> M B) w :
  bind m k w =
  match m w with
  | (Ret a, w1, ev1) => after ev1 (k a w1)
  | (Throw msg, w1, ev1) => (Throw msg, w1, ev1)
  | (Exit code, w1, ev1) => (Exit code, w1, ev1)
  | (Hang, w1, ev1) => (Hang, w1, ev1)
  end.
Proof. reflexivity. Qed.

Lemma run_try A (body : M A) handler w :
  try_catch body handler w =
  match body w with
  | (Throw msg, w1, ev1) => after ev1 (handler msg w1)
  | r => r
  end.
Proof. reflexivity. Qed.

Lemma run_ext_ok A (c : call A) w a w1 :
  perform c w = (Ok a, w1) -> ext c w = (Ret a, w1, [EvCall c None]).
Proof. intros E; unfold ext; now rewrite E. Qed.

Lemma run_ext_fail A (c : call A) w msg w1 :
  perform c w = (Fail msg, w1) -> ext c w = (Throw msg, w1, [EvCall c (Some msg)]).
Proof. intros E; unfold ext; now rewrite E. Qed.

Lemma result_of_after A ev (r : outcome A * World * list event) :
  result_of (after ev r) = result_of r.
Proof. now destruct r as [[o w] e]. Qed.

Lemma events_of_after A ev (r : outcome A * World * list event) :
  events_of (after ev r) = (ev ++ events_of r)%list.
Proof. now destruct r as [[o w] e]. Qed.

Lemma after_nil A (r : outcome A * World * list event) : after [] r = r.
Proof. now destruct r as [[o w] e]. Qed.

Lemma after_after A ev1 ev2 (r : outcome A * World * list event) :
  after ev1 (after ev2 r) = after (ev1 ++ ev2) r.
Proof. destruct r as [[o w] e]; cbn. now rewrite app_assoc. Qed.

Lemma mapM_length A B (f : A -> M B) l w bs w' evs :
  mapM f l w = (Ret bs, w', evs) -> List.length bs = List.length l.
Proof.
  revert w bs w' evs; induction l as [| a l IH]; intros w bs w' evs; cbn [mapM].
  - intros E; inversion E; reflexivity.
  - rewrite run_bind.
    destruct (f a w) as [[[b | thrown | code |] w1] ev1]; try discriminate.
    rewrite run_bind.
    destruct (mapM f l w1) as [[[bs' | thrown | code |] w2] ev2] eqn:E;
      try discriminate.
    cbn. intros E'; inversion E'; subst. cbn. f_equal. eapply IH; eauto.
Qed.

(** *** [host] and the runs the user's text stops *)

Lemma run_host_returned A (c : call (ending A)) w a w1 :
  perform c w = (Ok (Returned a), w1) -> host c w = (Ret a, w1, [EvCall c None]).
Proof. intros E; unfold host; now rewrite E. Qed.

Lemma run_host_fail A (c : call (ending A)) w msg w1 :
  perform c w = (Fail msg, w1) -> host c w = (Throw msg, w1, [EvCall c (Some msg)]).
Proof. intros E; unfold host; now rewrite E. Qed.

Lemma run_host_exited A (c : call (ending A)) w code w1 :
  perform c w = (Ok (Exited code), w1) -> host c w = (Exit code, w1, [EvCall c None]).
Proof. intros E; unfold host; now rewrite E. Qed.

Lemma run_host_looping A (c : call (ending A)) w w1 :
  perform c w = (Ok Looping, w1) -> host c w = (Hang, w1, [EvCall c None]).
Proof. intros E; unfold host; now rewrite E. Qed.

Lemma toString_of_a_primitive (v : value) :
  primitive v = true -> method_toString v = ret (js_to_string v).
Proof.
  intros Hv. destruct v; try discriminate Hv; unfold method_toString; now rewrite Hv.
Qed.

Lemma template_of_a_primitive (v : value) :
  primitive v = true -> template_of v = ret (js_to_string v).
Proof.
  intros Hv. destruct v; try discriminate Hv; unfold template_of; now rewrite Hv.
Qed.

Lemma faithful_host A (c : call (ending A)) : is_facade c = false -> faithful (host c).
Proof.
  intros Hc w; unfold host.
  destruct (perform c w) as [[[a | code |] | msg] w1]; try exact I.
  - intros m. now apply facade_failure_quiet.
  - intros m. unfold facade_failure, facade_failures; cbn. rewrite Hc. intros [].
Qed.

Lemma stopped_after A ev (r : outcome A * World * list event) :
  stopped_by_the_text r -> stopped_by_the_text (after ev r).
Proof.
  destruct r as [[o w1] ev1].
  intros (B & c & w0 & evs & Hev & Hcase). cbn in Hev. subst ev1.
  exists B, c, w0, (ev ++ evs)%list. split; [cbn; now rewrite app_assoc | exact Hcase].
Qed.

Lemma stops_of_no_stop A (m : M A) : no_stop m -> stops_in_the_text_only m.
Proof.
  intros Hm w. specialize (Hm w).
  destruct (m w) as [[[a | thrown | code |] w1] ev1]; cbn; auto; contradiction.
Qed.

Lemma stops_host A (c : call (ending A)) : stops_in_the_text_only (host c).
Proof.
  intros w. unfold host.
  destruct (perform c w) as [[[a | code |] | msg] w1] eqn:E; cbn; auto.
  - exists A, c, w, []. split; [reflexivity |]. left. exists code. now split.
  - exists A, c, w, []. split; [reflexivity |]. right. now split.
Qed.

Lemma stopped_bind A B (m : M A) (k : A -> M B) w :
  stopped_by_the_text (m w) ->
  stopped_by_the_text (bind m k w) /\ events_of (bind m k w) = events_of (m w).
Proof.
  intros (C & c & w0 & evs & Hev & Hcase). rewrite run_bind.
  destruct (m w) as [[o w1] ev1]. cbn in Hev, Hcase. subst ev1.
  destruct Hcase as [(code & Hp & ->) | (Hp & ->)]; (split; [| reflexivity]);
    exists C, c, w0, evs; (split; [reflexivity |]);
    [left; exists code | right]; now split.
Qed.

Lemma stopped_try A (body : M A) handler w :
  stopped_by_the_text (body w) ->
  stopped_by_the_text (try_catch body handler w) /\
  events_of (try_catch body handler w) = events_of (body w).
Proof.
  intros (C & c & w0 & evs & Hev & Hcase). rewrite run_try.
  destruct (body w) as [[o w1] ev1]. cbn in Hev, Hcase. subst ev1.
  destruct Hcase as [(code & Hp & ->) | (Hp & ->)]; (split; [| reflexivity]);
    exists C, c, w0, evs; (split; [reflexivity |]);
    [left; exists code | right]; now split.
Qed.

Lemma stops_bind A B (m : M A) (k : A -> M B) :
  stops_in_the_text_only m -> (forall a, stops_in_the_text_only (k a)) ->
  stops_in_the_text_only (bind m k).
Proof.
  intros Hm Hk w. specialize (Hm w).
  destruct (m w) as [[[a | thrown | code |] w1] ev1] eqn:E; cbn in Hm.
  - rewrite run_bind, E. specialize (Hk a w1). rewrite result_of_after.
    destruct (result_of (k a w1)); auto; now apply stopped_after.
  - rewrite run_bind, E. exact I.
  - rewrite <- E in Hm. destruct (@stopped_bind _ _ m k w Hm) as [Hs _].
    rewrite run_bind, E. rewrite run_bind, E in Hs. exact Hs.
  - rewrite <- E in Hm. destruct (@stopped_bind _ _ m k w Hm) as [Hs _].
    rewrite run_bind, E. rewrite run_bind, E in Hs. exact Hs.
Qed.

Lemma stops_try A (body : M A) handler :
  stops_in_the_text_only body -> (forall msg, stops_in_the_text_only (handler msg)) ->
  stops_in_the_text_only (try_catch body handler).
Proof.
  intros Hb Hh w. rewrite run_try. specialize (Hb w).
  destruct (body w) as [[[a | thrown | code |] w1] ev1]; cbn in *; auto.
  specialize (Hh thrown w1). rewrite result_of_after.
  destruct (result_of (handler thrown w1)); auto; now apply stopped_after.
Qed.

Lemma unless_stopped_intro A (P : A -> Prop) (m : M A) :
  returns P m -> no_throw m -> stops_in_the_text_only m -> unless_stopped P m.
Proof.
  intros Hr Ht Hs w. specialize (Hr w). specialize (Ht w). specialize (Hs w).
  destruct (m w) as [[[a | msg | code |] w'] evs]; cbn in *;
    try contradiction; eauto 6.
Qed.

End Reasoning.

Section Shapes.
Context {World : Type} `{Facade World}.
Local Abbreviation M := (script World).

Lemma quiet_faithful A (m : M A) : quiet m -> faithful m.
Proof.
  intros Hq w. specialize (Hq w). unfold facade_failure.
  destruct (m w) as [[[a | thrown | code |] w1] evs]; auto;
    change (facade_failures evs = []) in Hq; rewrite Hq; intros msg [].
Qed.

Lemma quiet_ret A (a : A) : quiet (ret a : M A).
Proof. intros w; reflexivity. Qed.

Lemma quiet_throw A msg : quiet (@throw World A msg).
Proof. intros w; reflexivity. Qed.

Lemma quiet_emit e : failure_of e = [] -> quiet (emit e : M unit).
Proof. intros He w; cbn. now rewrite He. Qed.

Lemma quiet_ext A (c : call A) : is_facade c = false -> quiet (ext c).
Proof.
  intros Hc w; unfold ext. destruct (perform c w) as [[a | msg] w1]; cbn; auto.
  now rewrite Hc.
Qed.

Lemma quiet_host A (c : call (ending A)) : is_facade c = false -> quiet (host c).
Proof.
  intros Hc w; unfold host.
  destruct (perform c w) as [[[a | code |] | msg] w1]; cbn; auto.
  now rewrite Hc.
Qed.

Lemma quiet_bind A B (m : M A) (k : A -> M B) :
  quiet m -> (forall a, quiet (k a)) -> quiet (bind m k).
Proof.
  intros Hm Hk w. rewrite run_bind. specialize (Hm w).
  destruct (m w) as [[[a | thrown | code |] w1] ev1]; auto.
  change (facade_failures ev1 = []) in Hm.
  rewrite events_of_after. unfold facade_failures in *. rewrite flat_map_app, Hm.
  apply Hk.
Qed.

Lemma quiet_try A (body : M A) handler :
  quiet body -> (forall msg, quiet (handler msg)) -> quiet (try_catch body handler).
Proof.
  intros Hb Hh w. rewrite run_try. specialize (Hb w).
  destruct (body w) as [[[a | thrown | code |] w1] ev1]; auto.
  change (facade_failures ev1 = []) in Hb.
  rewrite events_of_after. unfold facade_failures in *. rewrite flat_map_app, Hb.
  apply Hh.
Qed.

Lemma faithful_try_quiet A (body : M A) handler :
  quiet body -> (forall msg, faithful (handler msg)) ->
  faithful (try_catch body handler).
Proof.
  intros Hb Hh w. rewrite run_try. specialize (Hb w).
  destruct (body w) as [[[a | thrown | code |] w1] ev1] eqn:E;
    change (facade_failures ev1 = []) in Hb.
  - intros msg. unfold facade_failure. rewrite Hb. intros [].
  - specialize (Hh thrown w1). unfold after.
    destruct (handler thrown w1) as [[[b | thrown' | code |] w2] ev2]; auto;
      intros msg Hf; apply facade_failure_app in Hf as [Hf | Hf];
      try (unfold facade_failure in Hf; rewrite Hb in Hf; destruct Hf).
    + now apply Hh in Hf.
    + now apply Hh in Hf.
  - exact I.
  - exact I.
Qed.

Lemma always_intro A (P : A -> Prop) (m : M A) :
  returns P m -> no_throw m -> no_stop m -> always P m.
Proof.
  intros Hr Ht He w. specialize (Hr w). specialize (Ht w). specialize (He w).
  destruct (m w) as [[[a | msg | code |] w'] evs]; try contradiction; eauto.
Qed.

(** A tool that never makes a facade call fail has nothing to convert. *)
Lemma quiet_converts (tool : M value) :
  quiet tool -> no_throw tool -> no_stop tool -> converts_failures tool.
Proof.
  intros Hq Ht He w. specialize (Hq w). specialize (Ht w). specialize (He w).
  destruct (tool w) as [[[v | thrown | code |] w1] evs]; try contradiction.
  exists v, w1, evs. split; auto. intros msg Hm.
  change (facade_failures evs = []) in Hq. unfold facade_failure in Hm.
  rewrite Hq in Hm. destruct Hm.
Qed.

(** A tool whose handler turns the exception into [{success:false, error}]
    converts the failures of a faithful body. *)
Lemma try_converts (body : M value) :
  faithful body -> no_stop body ->
  converts_failures (try_catch body (fun message => ret (fail_result message))).
Proof.
  intros Hf Hn w. rewrite run_try. specialize (Hf w). specialize (Hn w).
  destruct (body w) as [[[v | thrown | code |] w1] ev1]; try contradiction.
  - exists v, w1, ev1. split; auto. intros msg Hm. now apply Hf in Hm.
  - cbn. exists (fail_result thrown), w1, (ev1 ++ [])%list. split; auto.
    intros msg Hm. rewrite app_nil_r in Hm. apply Hf in Hm. subst. now split.
Qed.

(** The same for a handler that answers [{error: prefix + message, ...}]. *)
Lemma try_reports_in_text (body : M value) (answer : string -> value) :
  faithful body -> no_stop body ->
  returns (fun v => has_field "success" v = false) body ->
  (forall message,
      has_field "success" (answer message) = false /\
      exists prefix, get "error" (answer message) = VStr (prefix ++ message)) ->
  reports_in_error_text (try_catch body (fun message => ret (answer message))).
Proof.
  intros Hf Hn Hr Ha w. rewrite run_try.
  specialize (Hf w). specialize (Hn w). specialize (Hr w).
  destruct (body w) as [[[v | thrown | code |] w1] ev1]; try contradiction.
  - exists v, w1, ev1. repeat split; auto. intros msg Hm. now apply Hf in Hm.
  - cbn. exists (answer thrown), w1, (ev1 ++ [])%list.
    destruct (Ha thrown) as [Hs He]. repeat split; auto.
    intros msg Hm. rewrite app_nil_r in Hm. apply Hf in Hm. now subst.
Qed.

End Shapes.

(** Tactics that follow the structure of a script. *)

Ltac head_of t :=
  lazymatch t with
  | ?f _ => head_of f
  | _ => t
  end.

Ltac unfold_head m := let h := head_of m in unfold h.

Ltac quiet_step :=
  lazymatch goal with
  | |- quiet (bind _ _) => apply quiet_bind; [| intros ?]
  | |- quiet (try_catch _ _) => apply quiet_try; [| intros ?]
  | |- quiet (ret _) => apply quiet_ret
  | |- quiet (throw _) => apply quiet_throw
  | |- quiet (ext _) => apply quiet_ext; reflexivity
  | |- quiet (host _) => apply quiet_host; reflexivity
  | |- quiet (emit _) => apply quiet_emit; reflexivity
  | |- quiet (if ?b then _ else _) => destruct b
  | |- quiet (match ?x with _ => _ end) => destruct x
  | |- quiet ?m => unfold_head m
  end.

Ltac quiet_auto := repeat quiet_step.

Ltac no_stop_step :=
  lazymatch goal with
  | |- no_stop (bind _ _) => apply no_stop_bind; [| intros ?]
  | |- no_stop (try_catch _ _) => apply no_stop_try; [| intros ?]
  | |- no_stop (mapM _ _) => apply no_stop_mapM; intros ?
  | |- no_stop (forM _ _) => apply no_stop_forM; intros ?
  | |- no_stop (ret _) => apply no_stop_ret
  | |- no_stop (throw _) => apply no_stop_throw
  | |- no_stop (ext _) => apply no_stop_ext
  | |- no_stop (emit _) => apply no_stop_emit
  | |- no_stop (if ?b then _ else _) => destruct b
  | |- no_stop (match ?x with _ => _ end) => destruct x
  | |- no_stop ?m => unfold_head m
  end.

Ltac no_stop_auto := repeat no_stop_step.

Ltac faithful_step :=
  lazymatch goal with
  | |- faithful (bind _ _) => apply faithful_bind; [| intros ?]
  | |- faithful (mapM _ _) => apply faithful_mapM; intros ?
  | |- faithful (ret _) => apply faithful_ret
  | |- faithful (throw _) => apply faithful_throw
  | |- faithful (ext _) => apply faithful_ext
  | |- faithful (host _) => apply faithful_host; reflexivity
  | |- faithful (emit _) => apply faithful_emit; reflexivity
  | |- faithful (if ?b then _ else _) => destruct b
  | |- faithful (match ?x with _ => _ end) => destruct x
  | |- faithful (try_catch _ _) =>
      apply faithful_try_quiet; [solve [repeat quiet_step] | intros ?]
  | |- faithful ?m => unfold_head m
  end.

Ltac faithful_auto := repeat faithful_step.

Ltac returns_step :=
  lazymatch goal with
  | |- returns _ (bind _ _) => apply returns_bind; intros ?
  | |- returns _ (try_catch _ _) => apply returns_try; [| intros ?]
  | |- returns _ (ret _) => apply returns_ret
  | |- returns _ (if ?b then _ else _) => destruct b
  | |- returns _ (match ?x with _ => _ end) => destruct x
  | |- returns _ ?m => unfold_head m
  end.

Ltac returns_auto := repeat returns_step.

Ltac no_throw_step :=
  lazymatch goal with
  | |- no_throw (bind _ _) => apply no_throw_bind; [| intros ?]
  | |- no_throw (try_catch _ _) => apply no_throw_try; intros ?
  | |- no_throw (ret _) => apply no_throw_ret
  | |- no_throw (emit _) => apply no_throw_emit
  | |- no_throw (if ?b then _ else _) => destruct b
  | |- no_throw (match ?x with _ => _ end) => destruct x
  | |- no_throw ?m => unfold_head m
  end.

Ltac no_throw_auto := repeat no_throw_step.

Ltac stops_step :=
  lazymatch goal with
  | |- stops_in_the_text_only (bind _ _) => apply stops_bind; [| intros ?]
  | |- stops_in_the_text_only (try_catch _ _) => apply stops_try; [| intros ?]
  | |- stops_in_the_text_only (host _) => apply stops_host
  | |- stops_in_the_text_only (ret _) => apply stops_of_no_stop, no_stop_ret
  | |- stops_in_the_text_only (throw _) => apply stops_of_no_stop, no_stop_throw
  | |- stops_in_the_text_only (ext _) => apply stops_of_no_stop, no_stop_ext
  | |- stops_in_the_text_only (emit _) => apply stops_of_no_stop, no_stop_emit
  | |- stops_in_the_text_only (if ?b then _ else _) => destruct b
  | |- stops_in_the_text_only (match ?x with _ => _ end) => destruct x
  | |- stops_in_the_text_only ?m => unfold_head m
  end.

Ltac stops_auto := repeat stops_step.

Ltac unless_stopped_auto leaf :=
  apply unless_stopped_intro; [returns_auto; leaf | no_throw_auto | stops_auto].

(** A tool of the form [try body catch message => ret (fail_result message)]. *)
Ltac converts_auto :=
  lazymatch goal with
  | |- converts_failures ?tool =>
      unfold_head tool; cbv zeta;
      apply try_converts; [faithful_auto | no_stop_auto]
  end.

(** The leaves of the shape proofs: a result written out as a literal. *)
Ltac shape_leaf :=
  solve
    [ left; split; [reflexivity | split; [eexists; reflexivity | reflexivity]]
    | right; split; [reflexivity | split; [eexists; reflexivity | reflexivity]] ].

Ltac stderr_leaf :=
  solve
    [ left; split; [reflexivity | split; [eexists; reflexivity | reflexivity]]
    | right; split; [reflexivity | split; eexists; reflexivity] ].

Ltac always_auto leaf :=
  apply always_intro; [returns_auto; leaf | no_throw_auto | no_stop_auto].

Ltac error_text_auto :=
  lazymatch goal with
  | |- reports_in_error_text ?tool =>
      unfold_head tool; cbv zeta;
      apply try_reports_in_text;
      [ faithful_auto
      | no_stop_auto
      | returns_auto; reflexivity
      | intros ?; split;
        [ reflexivity
        | first [eexists; reflexivity | exists ""; reflexivity] ] ]
  end.

(** * The properties *)

(** The host functions, on the inputs the scripts give them. *)

Example split_of_a_command :
  split_space (trim "  click name:Seven ") = ["click"; "name:Seven"].
Proof. reflexivity. Qed.

Example split_of_an_empty_line : split_space (trim "   ") = [""].
Proof. reflexivity. Qed.

Example split_keeps_empty_words : split_space "a  b" = ["a"; ""; "b"].
Proof. reflexivity. Qed.

Example base64_of_three_bytes : base64 [77; 97; 110]%Z = "TWFu".
Proof. reflexivity. Qed.

Example base64_pads : base64 [77; 97]%Z = "TWE=" /\ base64 [77]%Z = "TQ==".
Proof. split; reflexivity. Qed.

Example greatest_is_the_latest :
  greatest ["artwork_2024-01-01.png"; "artwork_2024-03-01.png"; "artwork_2024-02-01.png"]
  = Some "artwork_2024-03-01.png".
Proof. reflexivity. Qed.

Example words_are_counted : word_count "File  Edit View" = 3%Z /\ word_count "" = 1%Z.
Proof. split; reflexivity. Qed.

Example rounding_of_kilobytes :
  round_div_1024 1535 = 1%Z /\ round_div_1024 1536 = 2%Z.
Proof. split; reflexivity. Qed.

Example circle_loop_turns : loop_indices 361 0 360 10 true
  = List.map (fun k => (10 * Z.of_nat k)%Z) (seq 0 37).
Proof. reflexivity. Qed.

Example inherited_is_not_missing :
  property_of [("help", 0)] "toString" = Inherited /\
  property_of [("help", 0)] "help" = Own 0 /\
  property_of [("help", 0)] "bogus" = Missing.
Proof. repeat split; reflexivity. Qed.

Section Properties.
Context {World : Type} `{Facade World}.
Local Abbreviation M := (script World).

(** C5: when the element search returns an empty list without throwing,
    [findElements] (simple-agent and test-agent) returns success=true,
    count=0 and elements=[]: an empty result is a success. *)
Theorem C5_empty_search_is_success (selector : string) (w w1 w2 : World) (loc : Locator) :
  perform (MkLocator selector) w = (Ok loc, w1) ->
  perform (LocatorAll loc) w1 = (Ok [], w2) ->
  result_of (SimpleAgent.findElements_execute selector w) = Ret (nothing_found selector) /\
  result_of (TestAgent.findElements_execute selector w) = Ret (nothing_found selector).
Proof.
  intros Hloc Hall. split.
  - unfold SimpleAgent.findElements_execute, try_catch, bind, ext.
    rewrite Hloc, Hall. reflexivity.
  - unfold TestAgent.findElements_execute, try_catch, bind, ext, console_log, emit.
    rewrite Hloc, Hall. reflexivity.
Qed.

(** C10: once the search has answered, [findElements] (simple-agent and
    test-agent) describes the first five matches and no other.  When the
    descriptions come back the result is a success that reports in [count]
    the full number of matches and lists in [elements] those descriptions,
    min(count, 5) of them; the only other result is the failure that carries
    the message of the description that threw. *)
Theorem C10_findElements_truncates (selector : string) (w w1 w2 : World)
  (loc : Locator) (els : list Element) :
  perform (MkLocator selector) w = (Ok loc, w1) ->
  perform (LocatorAll loc) w1 = (Ok els, w2) ->
  truncates_to_five SimpleAgent.describe_element selector els w2
    (result_of (SimpleAgent.findElements_execute selector w)) /\
  truncates_to_five TestAgent.describe_element selector els w2
    (result_of (TestAgent.findElements_execute selector w)).
Proof.
  intros Hloc Hall. split.
  - unfold truncates_to_five, SimpleAgent.findElements_execute.
    rewrite run_try, run_bind, (run_ext_ok _ _ Hloc); cbv beta iota.
    rewrite run_bind, (run_ext_ok _ _ Hall); cbv beta iota.
    rewrite run_bind.
    assert (Hne : no_stop (mapM SimpleAgent.describe_element (firstn 5 els)))
      by no_stop_auto.
    specialize (Hne w2).
    destruct (mapM SimpleAgent.describe_element (firstn 5 els) w2)
      as [[[details | thrown | code |] w3] ev3] eqn:E; try contradiction.
    + split; [reflexivity |].
      apply mapM_length in E. rewrite E, length_firstn. apply Nat.min_comm.
    + reflexivity.
  - unfold truncates_to_five, TestAgent.findElements_execute.
    rewrite run_try, run_bind; cbn [console_log emit]; cbv beta iota.
    rewrite run_bind, (run_ext_ok _ _ Hloc); cbv beta iota.
    rewrite run_bind, (run_ext_ok _ _ Hall); cbv beta iota.
    rewrite run_bind.
    assert (Hne : no_stop (mapM TestAgent.describe_element (firstn 5 els)))
      by no_stop_auto.
    specialize (Hne w2).
    destruct (mapM TestAgent.describe_element (firstn 5 els) w2)
      as [[[details | thrown | code |] w3] ev3] eqn:E; try contradiction.
    + split; [reflexivity |].
      apply mapM_length in E. rewrite E, length_firstn. apply Nat.min_comm.
    + reflexivity.
Qed.

(** C3: running test-agent with [calc "2+2"] makes the calculate tool return
    {success:true, result:"4", message:"2+2 = 4"}, the result is displayed,
    and the process ends with exit code 0 (the SDK loads and the host
    evaluates the sum to 4). *)
Theorem C3_calc_two_plus_two (w w1 w2 : World) :
  perform NewDesktop w = (Ok tt, w1) ->
  perform (EvalJs (strict_return "2+2")) w1 = (Ok (Returned (VNum 4)), w2) ->
  result_of (TestAgent.calculate_execute "2+2" w1) = Ret two_plus_two /\
  TestAgent.main ["calc"; "2+2"] w =
    (Ret tt, w2,
     [EvCall NewDesktop None;
      EvPrint "🤖 Initializing Desktop automation engine";
      EvPrint "✅ Desktop automation engine initialized";
      EvPrint "🧮 Calculating 2+2...";
      EvCall (EvalJs (strict_return "2+2")) None;
      EvPrint "✅ 2+2 = 4";
      EvPrint "🔢 Result: 4"]) /\
  TestAgent.exit_code (TestAgent.main ["calc"; "2+2"] w) = Some 0%Z.
Proof.
  intros Hdesk Heval.
  assert (Htool : TestAgent.calculate_execute "2+2" w1 =
                  (Ret two_plus_two, w2,
                   [EvPrint "🧮 Calculating 2+2...";
                    EvCall (EvalJs (strict_return "2+2")) None])).
  { unfold TestAgent.calculate_execute.
    rewrite run_try, run_bind. cbn [console_log emit]. cbv beta iota.
    rewrite run_bind, (run_host_returned _ _ Heval). reflexivity. }
  assert (Hmain : TestAgent.main ["calc"; "2+2"] w =
    (Ret tt, w2,
     [EvCall NewDesktop None;
      EvPrint "🤖 Initializing Desktop automation engine";
      EvPrint "✅ Desktop automation engine initialized";
      EvPrint "🧮 Calculating 2+2...";
      EvCall (EvalJs (strict_return "2+2")) None;
      EvPrint "✅ 2+2 = 4";
      EvPrint "🔢 Result: 4"])).
  { unfold TestAgent.main.
    rewrite run_bind, (run_ext_ok _ _ Hdesk). cbv beta iota.
    do 2 (rewrite run_bind; cbn [console_log emit]; cbv beta iota).
    change (String.eqb "calc" "") with false. cbv iota.
    unfold TestAgent.executeCommand.
    rewrite run_try, run_bind.
    change (TestAgent.select "calc" ["2+2"] w1)
      with (bind (when (TestAgent.missing ["2+2"])
                    (bind (console_log "❌ Please provide an expression")
                          (fun _ => process_exit 1)))
                 (fun _ => TestAgent.calculate_execute (join " " ["2+2"])) w1).
    rewrite run_bind. cbn [TestAgent.missing when String.eqb Ascii.eqb Bool.eqb ret].
    cbv beta iota. change (join " " ["2+2"]) with "2+2".
    rewrite Htool. reflexivity. }
  split; [now rewrite Htool |]. split; [exact Hmain |]. now rewrite Hmain.
Qed.

(** C4: running test-agent with [click <selector>] when the facade finds no
    element (the search for the first match throws) makes the clickElement
    tool return {success:false, error:<facade message>}; the error is
    displayed and the process ends with exit code 1. *)
Theorem C4_click_missing_element (selector message : string) (w w1 w2 w3 : World)
  (loc : Locator) :
  selector <> "" ->
  perform NewDesktop w = (Ok tt, w1) ->
  perform (MkLocator selector) w1 = (Ok loc, w2) ->
  perform (LocatorFirst loc) w2 = (Fail message, w3) ->
  result_of (TestAgent.clickElement_execute selector w1) = Ret (fail_result message) /\
  TestAgent.main ["click"; selector] w =
    (Exit 1, w3,
     [EvCall NewDesktop None;
      EvPrint "🤖 Initializing Desktop automation engine";
      EvPrint "✅ Desktop automation engine initialized";
      EvPrint ("🖱️ Looking for " ++ selector ++ "...");
      EvCall (MkLocator selector) None;
      EvCall (LocatorFirst loc) (Some message);
      EvPrint ("❌ " ++ message)]) /\
  TestAgent.exit_code (TestAgent.main ["click"; selector] w) = Some 1%Z.
Proof.
  intros Hsel Hdesk Hloc Hfirst.
  assert (Htool : TestAgent.clickElement_execute selector w1 =
                  (Ret (fail_result message), w3,
                   [EvPrint ("🖱️ Looking for " ++ selector ++ "...");
                    EvCall (MkLocator selector) None;
                    EvCall (LocatorFirst loc) (Some message)])).
  { unfold TestAgent.clickElement_execute.
    rewrite run_try, run_bind. cbn [console_log emit]. cbv beta iota.
    rewrite run_bind, (run_ext_ok _ _ Hloc). cbv beta iota.
    rewrite run_bind, (run_ext_fail _ _ Hfirst). reflexivity. }
  assert (Hmain : TestAgent.main ["click"; selector] w =
    (Exit 1, w3,
     [EvCall NewDesktop None;
      EvPrint "🤖 Initializing Desktop automation engine";
      EvPrint "✅ Desktop automation engine initialized";
      EvPrint ("🖱️ Looking for " ++ selector ++ "...");
      EvCall (MkLocator selector) None;
      EvCall (LocatorFirst loc) (Some message);
      EvPrint ("❌ " ++ message)])).
  { unfold TestAgent.main.
    rewrite run_bind, (run_ext_ok _ _ Hdesk). cbv beta iota.
    do 2 (rewrite run_bind; cbn [console_log emit]; cbv beta iota).
    change (String.eqb "click" "") with false. cbv iota.
    unfold TestAgent.executeCommand.
    rewrite run_try, run_bind.
    change (TestAgent.select "click" [selector] w1)
      with (bind (when (TestAgent.missing [selector])
                    (bind (console_log "❌ Please provide a selector")
                          (fun _ => process_exit 1)))
                 (fun _ => TestAgent.clickElement_execute
                             (TestAgent.first_param [selector])) w1).
    rewrite run_bind. unfold TestAgent.missing, TestAgent.first_param.
    apply String.eqb_neq in Hsel. rewrite Hsel. cbn [when ret]. cbv beta iota.
    rewrite Htool. reflexivity. }
  split; [now rewrite Htool |]. split; [exact Hmain |]. now rewrite Hmain.
Qed.

End Properties.

Lemma C5_witness :
  result_of (SimpleAgent.findElements_execute (H := desk_facade) "role:Button"
               {| on_screen := 0; keyboard := [] |})
  = Ret (nothing_found "role:Button") /\
  result_of (TestAgent.findElements_execute (H := desk_facade) "role:Button"
               {| on_screen := 0; keyboard := [] |})
  = Ret (nothing_found "role:Button").
Proof.
  exact (@C5_empty_search_is_success desk desk_facade "role:Button"
           {| on_screen := 0; keyboard := [] |} {| on_screen := 0; keyboard := [] |}
           {| on_screen := 0; keyboard := [] |} {| locator_id := 0 |}
           eq_refl eq_refl).
Defined.

(** The AI agent's findElements marks the same outcome with
    [status: 'success'] instead. *)
Example ai_agent_empty_search :
  result_of (AiAgent.findElements_execute (H := desk_facade) "role:Button" 10 empty_desk)
  = Ret (VObj [("status", VStr "success");
               ("selector", VStr "role:Button");
               ("count", VNum 0);
               ("returned", VNum 0);
               ("elements", VArr [])]).
Proof. reflexivity. Qed.

Lemma C10_witness :
  truncates_to_five (SimpleAgent.describe_element (H := desk_facade)) "role:Button"
    (elements_on seven_buttons) seven_buttons
    (result_of (SimpleAgent.findElements_execute (H := desk_facade) "role:Button"
                  seven_buttons)) /\
  truncates_to_five (TestAgent.describe_element (H := desk_facade)) "role:Button"
    (elements_on seven_buttons) seven_buttons
    (result_of (TestAgent.findElements_execute (H := desk_facade) "role:Button"
                  seven_buttons)).
Proof.
  exact (@C10_findElements_truncates desk desk_facade "role:Button"
           seven_buttons seven_buttons seven_buttons {| locator_id := 0 |}
           (elements_on seven_buttons) eq_refl eq_refl).
Defined.

(** On a screen with seven buttons the search succeeds, counts seven and
    describes five. *)
Example seven_found_five_described :
  exists v details,
    result_of (SimpleAgent.findElements_execute (H := desk_facade) "role:Button"
                 seven_buttons) = Ret v /\
    get "success" v = VBool true /\
    get "count" v = VNum 7 /\
    get "elements" v = VArr details /\
    List.length details = 5.
Proof. eexists _, _. repeat split; reflexivity. Qed.

Lemma C3_witness :
  result_of (TestAgent.calculate_execute (H := desk_facade) "2+2" empty_desk)
  = Ret two_plus_two /\
  TestAgent.main (H := desk_facade) ["calc"; "2+2"] empty_desk =
    (Ret tt, empty_desk,
     [EvCall NewDesktop None;
      EvPrint "🤖 Initializing Desktop automation engine";
      EvPrint "✅ Desktop automation engine initialized";
      EvPrint "🧮 Calculating 2+2...";
      EvCall (EvalJs (strict_return "2+2")) None;
      EvPrint "✅ 2+2 = 4";
      EvPrint "🔢 Result: 4"]) /\
  TestAgent.exit_code (TestAgent.main (H := desk_facade) ["calc"; "2+2"] empty_desk)
  = Some 0%Z.
Proof.
  exact (@C3_calc_two_plus_two desk desk_facade empty_desk empty_desk empty_desk
           eq_refl eq_refl).
Defined.

Lemma C4_witness :
  result_of (TestAgent.clickElement_execute (H := desk_facade) "name:DoesNotExist"
               empty_desk)
  = Ret (fail_result "Element not found") /\
  TestAgent.main (H := desk_facade) ["click"; "name:DoesNotExist"] empty_desk =
    (Exit 1, empty_desk,
     [EvCall NewDesktop None;
      EvPrint "🤖 Initializing Desktop automation engine";
      EvPrint "✅ Desktop automation engine initialized";
      EvPrint ("🖱️ Looking for " ++ "name:DoesNotExist" ++ "...");
      EvCall (MkLocator "name:DoesNotExist") None;
      EvCall (LocatorFirst {| locator_id := 0 |}) (Some "Element not found");
      EvPrint ("❌ " ++ "Element not found")]) /\
  TestAgent.exit_code
    (TestAgent.main (H := desk_facade) ["click"; "name:DoesNotExist"] empty_desk)
  = Some 1%Z.
Proof.
  refine (@C4_click_missing_element desk desk_facade "name:DoesNotExist"
            "Element not found" empty_desk empty_desk empty_desk empty_desk
            {| locator_id := 0 |} _ eq_refl eq_refl eq_refl).
  discriminate.
Defined.

Section Convention.
Context {World : Type} `{Facade World}.
Local Abbreviation M := (script World).

Lemma simple_calculate_reports_a_throw expression (w w1 : World) message :
  perform (EvalJs (strict_return expression)) w = (Fail message, w1) ->
  result_of (SimpleAgent.calculate_execute expression w)
  = Ret (fail_result "Invalid mathematical expression").
Proof.
  intros E. unfold SimpleAgent.calculate_execute.
  now rewrite run_try, run_bind, (run_host_fail _ _ E).
Qed.

Lemma test_calculate_reports_a_throw expression (w w1 : World) message :
  perform (EvalJs (strict_return expression)) w = (Fail message, w1) ->
  result_of (TestAgent.calculate_execute expression w)
  = Ret (fail_result "Invalid mathematical expression").
Proof.
  intros E. unfold TestAgent.calculate_execute.
  rewrite run_try, run_bind. cbn [console_log emit]. cbv beta iota.
  now rewrite run_bind, (run_host_fail _ _ E).
Qed.

Lemma ai_calculator_reports_a_throw expression useApp (w w1 : World) message :
  perform (EvalJs (strict_return expression)) w = (Fail message, w1) ->
  result_of (AiAgent.calculator_execute expression useApp w)
  = Ret (VObj [("error", VStr "Invalid mathematical expression");
               ("expression", VStr expression)]).
Proof.
  intros E. unfold AiAgent.calculator_execute.
  now rewrite run_try, run_bind, (run_host_fail _ _ E).
Qed.

Lemma simple_calculate_answers expression (w w1 : World) v :
  perform (EvalJs (strict_return expression)) w = (Ok (Returned v), w1) ->
  primitive v = true ->
  result_of (SimpleAgent.calculate_execute expression w) = Ret (calculation expression v).
Proof.
  intros E Hv. unfold SimpleAgent.calculate_execute.
  rewrite run_try, run_bind, (run_host_returned _ _ E).
  rewrite (toString_of_a_primitive _ Hv), (template_of_a_primitive _ Hv). reflexivity.
Qed.

Lemma test_calculate_answers expression (w w1 : World) v :
  perform (EvalJs (strict_return expression)) w = (Ok (Returned v), w1) ->
  primitive v = true ->
  result_of (TestAgent.calculate_execute expression w) = Ret (calculation expression v).
Proof.
  intros E Hv. unfold TestAgent.calculate_execute.
  rewrite run_try, run_bind. cbn [console_log emit]. cbv beta iota.
  rewrite run_bind, (run_host_returned _ _ E).
  rewrite (toString_of_a_primitive _ Hv), (template_of_a_primitive _ Hv). reflexivity.
Qed.

(** The rest of the AI agent's calculator, once the text of the result is
    known: the optional demonstration cannot make it fail. *)
Lemma calculator_demonstration (expression shown : string) (useApp : bool) :
  always
    (fun v => get "result" v = VStr shown /\
              get "expression" v = VStr expression /\
              has_field "error" v = false)
    (let response :=
       VObj [("result", VStr shown);
             ("expression", VStr expression);
             ("method", VStr "programmatic")] in
     if useApp then
       launched <-
         (try (calcApp <- ext (OpenApplication "calc") ;; ret (Some calcApp))
          catch _ignored => ret None) ;;
       match launched with
       | None => ret (set "appError" (VStr "Could not launch Calculator app") response)
       | Some calcApp =>
           let response :=
             set "appDemo" (VStr "Calculator app launched for demonstration") response in
           let response := set "method" (VStr "app + programmatic") response in
           try (
             name <- ext (ElName calcApp) ;;
             role <- ext (ElRole calcApp) ;;
             ret (set "app" (VObj [("name", VStr name); ("role", VStr role)]) response))
           catch _ignored =>
             ret (set "appError" (VStr "Could not launch Calculator app") response)
       end
     else ret response : M value).
Proof.
  cbv zeta.
  apply always_intro; [returns_auto; repeat split | no_throw_auto | no_stop_auto].
Qed.

Lemma ai_calculator_answers expression useApp (w w1 w2 : World) result shown converting :
  perform (EvalJs (strict_return expression)) w = (Ok (Returned result), w1) ->
  method_toString result w1 = (Ret shown, w2, converting) ->
  exists v w' evs,
    AiAgent.calculator_execute expression useApp w = (Ret v, w', evs) /\
    get "result" v = VStr shown /\
    get "expression" v = VStr expression /\
    has_field "error" v = false.
Proof.
  intros Heval Hshown.
  destruct (calculator_demonstration expression shown useApp w2)
    as (v & w' & evs & E & Hv).
  exists v, w',
    (EvCall (EvalJs (strict_return expression)) None :: converting ++ evs)%list.
  split; [| exact Hv].
  unfold AiAgent.calculator_execute.
  rewrite run_try, run_bind, (run_host_returned _ _ Heval). cbv beta iota.
  rewrite run_bind, Hshown. cbv beta iota zeta.
  cbv zeta in E. rewrite E. reflexivity.
Qed.

Ltac calculated_leaf :=
  solve
    [ left; split; [reflexivity | split; [eexists; reflexivity | reflexivity]]
    | right; reflexivity ].

Lemma simple_agent_keeps_its_promise (i : SimpleAgent.invocation) :
  simple_agent_promise i.
Proof.
  destruct i; cbn [simple_agent_promise SimpleAgent.execute]; try converts_auto.
  split; [| split].
  - unless_stopped_auto calculated_leaf.
  - intros w message w1. apply simple_calculate_reports_a_throw.
  - intros w v w1. apply simple_calculate_answers.
Qed.

Lemma test_agent_keeps_its_promise (i : TestAgent.invocation) :
  test_agent_promise i.
Proof.
  destruct i; cbn [test_agent_promise TestAgent.execute]; try converts_auto.
  split; [| split].
  - unless_stopped_auto calculated_leaf.
  - intros w message w1. apply test_calculate_reports_a_throw.
  - intros w v w1. apply test_calculate_answers.
Qed.

Lemma simple_vision_artist_converts (i : SimpleVisionArtist.invocation) :
  converts_failures (SimpleVisionArtist.execute i).
Proof. destruct i; cbn [SimpleVisionArtist.execute]; converts_auto. Qed.

Lemma vision_openPaint_converts : converts_failures VisionArtist.openPaint_execute.
Proof. converts_auto. Qed.

Lemma vision_captureArtwork_converts purpose :
  converts_failures (VisionArtist.captureArtwork_execute purpose).
Proof. converts_auto. Qed.

Lemma vision_analyzeArtwork_converts focus :
  converts_failures (VisionArtist.analyzeArtwork_execute focus).
Proof. converts_auto. Qed.

Lemma vision_setupBrush_total size color :
  total (VisionArtist.setupBrush_execute size color).
Proof. apply total_intro; [no_throw_auto | no_stop_auto]. Qed.

Lemma vision_drawShape_total flt (J : JSMath flt) shape x y size :
  total (VisionArtist.drawShape_execute shape x y size).
Proof. apply total_intro; [no_throw_auto | no_stop_auto]. Qed.

(** The screenshot tool of the AI agent builds its result in steps. *)
Lemma ai_screenshot_body_no_success (withOCR : bool) (savePath : option string)
  (screenshot : Screenshot) (first : value) :
  no_success_field first ->
  returns no_success_field
    (bind (if given savePath then
             bind (ext (FsWriteFile (text_of savePath) (imageData screenshot)))
                  (fun _ => ret (set "savedTo" (opt_value savePath) first))
           else ret first)
          (fun result =>
             if withOCR then
               bind (ext (OcrScreenshot screenshot))
                    (fun ocrText =>
                       ret (set "textLength" (VNum (len ocrText))
                              (set "ocrText" (VStr ocrText) result)))
             else ret result)).
Proof.
  intros Hfirst.
  apply returns_bind_with with (Q := no_success_field).
  - destruct (given savePath).
    + apply returns_bind; intros _. apply returns_ret.
      unfold no_success_field. now rewrite has_field_set_other by discriminate.
    + now apply returns_ret.
  - intros result Hresult. destruct withOCR.
    + apply returns_bind; intros ocrText. apply returns_ret.
      unfold no_success_field. now rewrite !has_field_set_other by discriminate.
    + now apply returns_ret.
Qed.

Lemma ai_screenshot_reports withOCR savePath :
  reports_in_error_text (AiAgent.screenshot_execute withOCR savePath).
Proof.
  unfold AiAgent.screenshot_execute.
  apply try_reports_in_text.
  - faithful_auto.
  - no_stop_auto.
  - apply returns_bind; intros screenshot. cbv zeta.
    now apply ai_screenshot_body_no_success.
  - intros message. split; [reflexivity | eexists; reflexivity].
Qed.

Lemma reports_in_error_text_no_success (tool : M value) :
  reports_in_error_text tool -> always no_success_field tool.
Proof.
  intros Hr w. destruct (Hr w) as (v & w' & evs & E & Hs & _). eauto.
Qed.

Lemma ai_agent_reports_all (i : AiAgent.invocation) : ai_agent_reports i.
Proof.
  destruct i; unfold ai_agent_reports; cbn [AiAgent.execute];
    try error_text_auto.
  - apply ai_screenshot_reports.
  - split; [| split].
    + unless_stopped_auto ltac:(reflexivity).
    + intros w message w1. apply ai_calculator_reports_a_throw.
    + intros w v w1 Heval Hv.
      assert (Hshown : method_toString v w1 = (Ret (js_to_string v), w1, []))
        by now rewrite (toString_of_a_primitive _ Hv).
      destruct (@ai_calculator_answers expression useApp _ _ _ _ _ _ Heval Hshown)
        as (answer & w' & evs & E & Hresult & _ & Herror).
      exists answer. rewrite E. auto.
Qed.

(** C1, amended: no execute function lets an exception escape, and every one
    returns a Tool Result for every input, the calculators apart: they run
    the expression inside the process, and return a result (for whatever the
    expression throws, the one error "Invalid mathematical expression")
    unless the expression itself ends the process or never returns.  In
    simple-agent, test-agent, the simple vision artist and the vision
    artist's openPaint, captureArtwork and analyzeArtwork every facade
    failure of the run is reported as success=false with the facade message
    as error.  The vision artist's setupBrush and drawShape only promise a
    result (failures of their sub-steps are swallowed); the AI agent's tools
    carry no success field and, the calculator apart, put the facade message
    at the end of their error text. *)
Theorem C1_failures_become_results :
  (forall i, simple_agent_promise i) /\
  (forall i, test_agent_promise i) /\
  (forall i, converts_failures (SimpleVisionArtist.execute i)) /\
  converts_failures VisionArtist.openPaint_execute /\
  (forall purpose, converts_failures (VisionArtist.captureArtwork_execute purpose)) /\
  (forall focus, converts_failures (VisionArtist.analyzeArtwork_execute focus)) /\
  (forall size color, total (VisionArtist.setupBrush_execute size color)) /\
  (forall flt (J : JSMath flt) shape x y size,
      total (VisionArtist.drawShape_execute shape x y size)) /\
  (forall i, ai_agent_reports i).
Proof.
  split; [| split; [| split; [| split; [| split; [| split; [| split; [| split]]]]]]].
  - apply simple_agent_keeps_its_promise.
  - apply test_agent_keeps_its_promise.
  - apply simple_vision_artist_converts.
  - apply vision_openPaint_converts.
  - apply vision_captureArtwork_converts.
  - apply vision_analyzeArtwork_converts.
  - apply vision_setupBrush_total.
  - apply vision_drawShape_total.
  - apply ai_agent_reports_all.
Qed.

End Convention.

Section ResultShapes.
Context {World : Type} `{Facade World}.
Local Abbreviation M := (script World).

Lemma simple_agent_shapes (i : SimpleAgent.invocation) :
  simple_agent_result (simple_agent_shape i) i.
Proof.
  destruct i; cbn [simple_agent_result SimpleAgent.execute simple_agent_shape];
    first [ always_auto shape_leaf
          | always_auto stderr_leaf
          | unless_stopped_auto shape_leaf ].
Qed.

Lemma test_agent_shapes (i : TestAgent.invocation) :
  test_agent_result (test_agent_shape i) i.
Proof.
  destruct i; cbn [test_agent_result TestAgent.execute test_agent_shape];
    first [ always_auto shape_leaf
          | always_auto stderr_leaf
          | unless_stopped_auto shape_leaf ].
Qed.

Lemma simple_vision_artist_shapes (i : SimpleVisionArtist.invocation) :
  always well_shaped (SimpleVisionArtist.execute i).
Proof. destruct i; cbn [SimpleVisionArtist.execute]; always_auto shape_leaf. Qed.

Lemma vision_artist_shapes flt (J : JSMath flt) (i : VisionArtist.invocation) :
  always well_shaped (VisionArtist.execute i).
Proof. destruct i; cbn [VisionArtist.execute]; always_auto shape_leaf. Qed.

(** The leaves of the AI agent's results: literals, and literals with fields
    added that are neither [success], [error] nor [status]. *)
Ltac ai_shape_leaf :=
  solve
    [ split; [reflexivity | intros _; split; [eexists; reflexivity | reflexivity]]
    | split; [reflexivity | intros Herror; discriminate Herror]
    | unfold ai_agent_shape; cbn [set];
      rewrite ?has_field_set_other by discriminate;
      split; [reflexivity | intros Herror; discriminate Herror] ].

Lemma ai_screenshot_body_shape (withOCR : bool) (savePath : option string)
  (screenshot : Screenshot) (first : value) :
  has_field "success" first = false /\ has_field "error" first = false ->
  returns ai_agent_shape
    (bind (if given savePath then
             bind (ext (FsWriteFile (text_of savePath) (imageData screenshot)))
                  (fun _ => ret (set "savedTo" (opt_value savePath) first))
           else ret first)
          (fun result =>
             if withOCR then
               bind (ext (OcrScreenshot screenshot))
                    (fun ocrText =>
                       ret (set "textLength" (VNum (len ocrText))
                              (set "ocrText" (VStr ocrText) result)))
             else ret result)).
Proof.
  intros Hfirst.
  apply returns_bind_with
    with (Q := fun v => has_field "success" v = false /\ has_field "error" v = false).
  - destruct (given savePath).
    + apply returns_bind; intros _. apply returns_ret.
      now rewrite !has_field_set_other by discriminate.
    + now apply returns_ret.
  - intros result [Hsuccess Herror]. destruct withOCR.
    + apply returns_bind; intros ocrText. apply returns_ret.
      split; [now rewrite !has_field_set_other by discriminate |].
      rewrite !has_field_set_other by discriminate. rewrite Herror. discriminate.
    + apply returns_ret. split; [exact Hsuccess |]. rewrite Herror. discriminate.
Qed.

Lemma ai_agent_shapes (i : AiAgent.invocation) : ai_agent_result ai_agent_shape i.
Proof.
  destruct i; cbn [ai_agent_result AiAgent.execute].
  - apply always_intro; [| no_throw_auto | no_stop_auto].
    unfold AiAgent.screenshot_execute. apply returns_try.
    + apply returns_bind; intros screenshot. cbv zeta.
      apply ai_screenshot_body_shape. now split.
    + intros message. apply returns_ret. ai_shape_leaf.
  - always_auto ai_shape_leaf.
  - always_auto ai_shape_leaf.
  - always_auto ai_shape_leaf.
  - always_auto ai_shape_leaf.
  - always_auto ai_shape_leaf.
  - unless_stopped_auto ai_shape_leaf.
  - always_auto ai_shape_leaf.
  - always_auto ai_shape_leaf.
  - always_auto ai_shape_leaf.
Qed.

(** C2, amended: every Tool Result of simple-agent, test-agent, the simple
    vision artist and the vision artist carries the boolean [success]; with
    success=false it has an error string and no message; with success=true it
    has a message string and no error field, except that runCommand keeps
    the command's standard error in [error].  The results of the AI agent's
    tools carry no [success] field at all: one that has an [error] field has
    a string there and no [status].  Every tool returns such a result for
    every input, the calculators apart, which return none when the
    expression they evaluate ends the process or never returns. *)
Theorem C2_result_shapes :
  (forall i, simple_agent_result (simple_agent_shape i) i) /\
  (forall i, test_agent_result (test_agent_shape i) i) /\
  (forall i, always well_shaped (SimpleVisionArtist.execute i)) /\
  (forall flt (J : JSMath flt) i, always well_shaped (VisionArtist.execute i)) /\
  (forall i, ai_agent_result ai_agent_shape i).
Proof.
  split; [| split; [| split; [| split]]].
  - apply simple_agent_shapes.
  - apply test_agent_shapes.
  - apply simple_vision_artist_shapes.
  - intros flt J i. apply vision_artist_shapes.
  - apply ai_agent_shapes.
Qed.

End ResultShapes.

(** With nothing on screen the brush tool cannot be clicked, under either
    selector; setupBrush goes on and reports success. *)
Example setupBrush_on_empty_desk :
  VisionArtist.setupBrush_execute (H := desk_facade) (VStr "medium") (VStr "red")
    empty_desk =
  (Ret (VObj [("success", VBool true);
              ("message", VStr "Brush configured: medium red brush ready!");
              ("settings", VObj [("size", VStr "medium"); ("color", VStr "red")])]),
   empty_desk,
   [EvPrint "🎨 Setting up brush: medium red...";
    EvCall (MkLocator "name:Brush") None;
    EvCall (LocatorClick {| locator_id := 0 |}) (Some "Element not found");
    EvCall (MkLocator "automationid:BrushTool") None;
    EvCall (LocatorClick {| locator_id := 0 |}) (Some "Element not found");
    EvSleep 500]).
Proof. reflexivity. Qed.

(** C1 fails as stated: the facade call of setupBrush throws, and the tool
    returns success=true. *)
Lemma C1_counterexample :
  ~ converts_failures
      (VisionArtist.setupBrush_execute (H := desk_facade) (VStr "medium") (VStr "red")).
Proof.
  intros Hc. destruct (Hc empty_desk) as (v & w' & evs & E & Hrep).
  rewrite setupBrush_on_empty_desk in E. inversion E; subst. clear E.
  destruct (Hrep "Element not found") as [Hsuccess _].
  - cbn. auto.
  - discriminate Hsuccess.
Qed.

(** The AI agent's screenshot tool reports a failed capture without a
    [success] field. *)
Example ai_agent_failure_has_no_success (World : Type) (F : Facade World) (w w1 : World) :
  perform CaptureScreen w = (Fail "capture failed", w1) ->
  result_of (AiAgent.screenshot_execute false None w) =
  Ret (VObj [("error", VStr "Screenshot failed: capture failed")]).
Proof.
  intros E. unfold AiAgent.screenshot_execute.
  now rewrite run_try, run_bind, (run_ext_fail _ _ E).
Qed.

(** C2 fails as stated: a command that succeeds returns success=true with
    its standard error in the [error] field. *)
Lemma C2_counterexample :
  exists v,
    result_of (SimpleAgent.runCommand_execute (H := desk_facade) "dir" empty_desk)
    = Ret v /\
    get "success" v = VBool true /\
    get "error" v = VStr "warning: deprecated flag" /\
    ~ well_shaped v.
Proof.
  eexists. split; [reflexivity |]. split; [reflexivity |]. split; [reflexivity |].
  intros [(_ & _ & Herr) | (Hsuccess & _)]; discriminate.
Qed.

Section Resolution.
Context {World : Type} `{Facade World}.
Local Abbreviation M := (script World).

Lemma show_test_result_prints fields (w : World) :
  exists shown, VisionArtist.show_test_result (VObj fields) w = (Ret tt, w, shown).
Proof.
  unfold VisionArtist.show_test_result. rewrite run_bind. cbn [prop ret].
  cbv beta iota. rewrite after_nil.
  destruct (truthy (get "success" (VObj fields))).
  - rewrite run_bind. cbn [console_log emit]. cbv beta iota.
    destruct (truthy (get "analysis" (VObj fields))); eexists; reflexivity.
  - eexists; reflexivity.
Qed.

Lemma well_shaped_object v : well_shaped v -> exists fields, v = VObj fields.
Proof.
  intros [[Hs _] | [Hs _]]; destruct v; try discriminate Hs; eauto.
Qed.

Lemma testTool_registered flt (J : JSMath flt) name destructure params (w : World) :
  own_property VisionArtist.artistTools name = Some destructure ->
  exists v w' evs shown,
    VisionArtist.execute (destructure params) w = (Ret v, w', evs) /\
    VisionArtist.testTool name params w =
      (Ret v, w', testing name :: evs ++ shown)%list.
Proof.
  intros Hown.
  destruct (vision_artist_shapes J (destructure params) w)
    as (v & w' & evs & E & Hshape).
  destruct (well_shaped_object Hshape) as [fields ->].
  destruct (show_test_result_prints fields w') as [shown Hshown].
  exists (VObj fields), w', evs, shown. split; [exact E |].
  unfold VisionArtist.testTool. rewrite run_bind. cbn [console_log emit].
  cbv beta iota. unfold property_of. rewrite Hown.
  rewrite run_try, run_bind, E. cbv beta iota.
  rewrite run_bind, Hshown. cbn. now rewrite app_nil_r.
Qed.

Lemma testTool_missing name params (w : World) :
  property_of VisionArtist.artistTools name = Missing ->
  forall flt (J : JSMath flt),
    VisionArtist.testTool name params w =
    (Ret VUndef, w, [testing name; EvPrint ("❌ Tool " ++ name ++ " not found")]).
Proof.
  intros Hmiss flt J. unfold VisionArtist.testTool. rewrite run_bind.
  cbn [console_log emit]. cbv beta iota. now rewrite Hmiss.
Qed.

Lemma exit_is_no_command fuel : own_property (AiAgent.commands fuel) "exit" = None.
Proof. reflexivity. Qed.

Lemma command_round_registered fuel history line (w w1 : World) cmd args run :
  perform (Prompt "🤖 Agent") w = (Ok line, w1) ->
  split_space (trim line) = cmd :: args ->
  own_property (AiAgent.commands fuel) cmd = Some run ->
  AiAgent.command_round fuel history w = after asked (run args history w1).
Proof.
  intros Hprompt Hsplit Hown.
  assert (Hexit : String.eqb cmd "exit" = false).
  { destruct (String.eqb cmd "exit") eqn:E; auto.
    apply String.eqb_eq in E; subst cmd.
    rewrite exit_is_no_command in Hown. discriminate. }
  unfold AiAgent.command_round. rewrite run_bind. cbn [console_log emit].
  cbv beta iota. rewrite run_bind, (run_ext_ok _ _ Hprompt). cbv beta iota zeta.
  rewrite Hsplit, Hexit. unfold property_of. rewrite Hown.
  now rewrite after_after.
Qed.

Lemma command_round_unknown fuel history line (w w1 : World) cmd args :
  perform (Prompt "🤖 Agent") w = (Ok line, w1) ->
  split_space (trim line) = cmd :: args ->
  property_of (AiAgent.commands fuel) cmd = Missing ->
  cmd <> "exit" -> cmd <> "" ->
  AiAgent.command_round fuel history w =
  (Ret history, w1,
   asked ++ [EvPrint ("❌ Unknown command: " ++ cmd);
             EvPrint ("Type " ++ dquote ++ "help" ++ dquote
                      ++ " for available commands")])%list.
Proof.
  intros Hprompt Hsplit Hmiss Hexit Hempty.
  apply String.eqb_neq in Hexit. apply String.eqb_neq in Hempty.
  unfold AiAgent.command_round. rewrite run_bind. cbn [console_log emit].
  cbv beta iota. rewrite run_bind, (run_ext_ok _ _ Hprompt). cbv beta iota zeta.
  rewrite Hsplit, Hexit, Hmiss, Hempty. reflexivity.
Qed.

Lemma command_round_empty fuel history line (w w1 : World) args :
  perform (Prompt "🤖 Agent") w = (Ok line, w1) ->
  split_space (trim line) = "" :: args ->
  AiAgent.command_round fuel history w = (Ret history, w1, asked).
Proof.
  intros Hprompt Hsplit.
  unfold AiAgent.command_round. rewrite run_bind. cbn [console_log emit].
  cbv beta iota. rewrite run_bind, (run_ext_ok _ _ Hprompt). cbv beta iota zeta.
  rewrite Hsplit. reflexivity.
Qed.

(** C6, amended: a name registered in a registry resolves to its entry and
    the entry runs: [testTool] returns what the tool's execute returned, after
    its events, and the command loop runs the handler on the words typed.  A
    name that is neither registered nor inherited from [Object.prototype]
    gets "Tool <name> not found" from [testTool], and "Unknown command:
    <name>" from the command loop when it is not empty and not "exit"; nothing
    is invoked.  An empty command line is passed over in silence. *)
Theorem C6_resolution :
  (forall flt (J : JSMath flt) name destructure params w,
      own_property VisionArtist.artistTools name = Some destructure ->
      exists v w' evs shown,
        VisionArtist.execute (destructure params) w = (Ret v, w', evs) /\
        VisionArtist.testTool name params w =
          (Ret v, w', testing name :: evs ++ shown)%list) /\
  (forall flt (J : JSMath flt) name params w,
      property_of VisionArtist.artistTools name = Missing ->
      VisionArtist.testTool name params w =
      (Ret VUndef, w, [testing name; EvPrint ("❌ Tool " ++ name ++ " not found")])) /\
  (forall fuel history line w w1 cmd args run,
      perform (Prompt "🤖 Agent") w = (Ok line, w1) ->
      split_space (trim line) = cmd :: args ->
      own_property (AiAgent.commands fuel) cmd = Some run ->
      AiAgent.command_round fuel history w = after asked (run args history w1)) /\
  (forall fuel history line w w1 cmd args,
      perform (Prompt "🤖 Agent") w = (Ok line, w1) ->
      split_space (trim line) = cmd :: args ->
      property_of (AiAgent.commands fuel) cmd = Missing ->
      cmd <> "exit" -> cmd <> "" ->
      AiAgent.command_round fuel history w =
      (Ret history, w1,
       asked ++ [EvPrint ("❌ Unknown command: " ++ cmd);
                 EvPrint ("Type " ++ dquote ++ "help" ++ dquote
                          ++ " for available commands")])%list) /\
  (forall fuel history line w w1 args,
      perform (Prompt "🤖 Agent") w = (Ok line, w1) ->
      split_space (trim line) = "" :: args ->
      AiAgent.command_round fuel history w = (Ret history, w1, asked)).
Proof.
  split; [| split; [| split; [| split]]].
  - intros; now apply testTool_registered.
  - intros; now apply testTool_missing.
  - intros; eapply command_round_registered; eauto.
  - intros; eapply command_round_unknown; eauto.
  - intros; eapply command_round_empty; eauto.
Qed.

End Resolution.

(** C6 fails as stated: the empty name is not in the command table, and a
    round that reads it reports nothing. *)
Lemma C6_counterexample :
  own_property (AiAgent.commands (H := desk_facade) 0) "" = None /\
  AiAgent.command_round (H := desk_facade) 0 [] enter_pressed =
    (Ret [], empty_desk, [EvPrint ""; EvCall (Prompt "🤖 Agent") None]) /\
  ~ In (EvPrint ("❌ Unknown command: " ++ ""))
       (events_of (AiAgent.command_round (H := desk_facade) 0 [] enter_pressed)).
Proof.
  split; [reflexivity |]. split; [reflexivity |].
  cbn. intros [E | [E | []]]; discriminate E.
Qed.

(** The round that reads "bogus now" reports the unknown command. *)
Lemma C6_witness :
  property_of (AiAgent.commands (H := desk_facade) 0) "bogus" = Missing /\
  AiAgent.command_round (H := desk_facade) 0 []
    {| on_screen := 0; keyboard := ["bogus now"] |} =
  (Ret [], empty_desk,
   asked ++ [EvPrint ("❌ Unknown command: " ++ "bogus");
             EvPrint ("Type " ++ dquote ++ "help" ++ dquote
                      ++ " for available commands")])%list.
Proof.
  split; [reflexivity |].
  apply (proj1 (proj2 (proj2 (proj2 (@C6_resolution desk desk_facade)))))
    with (line := "bogus now") (args := ["now"]);
    [reflexivity | reflexivity | reflexivity | discriminate | discriminate].
Defined.

(** A word that is no command is reported; a command runs its handler. *)
Example bogus_is_reported :
  AiAgent.command_round (H := desk_facade) 0 []
    {| on_screen := 0; keyboard := ["bogus now"] |} =
  (Ret [], empty_desk,
   [EvPrint ""; EvCall (Prompt "🤖 Agent") None;
    EvPrint "❌ Unknown command: bogus";
    EvPrint ("Type " ++ dquote ++ "help" ++ dquote ++ " for available commands")]).
Proof. reflexivity. Qed.

Example clear_runs_its_handler :
  AiAgent.command_round (H := desk_facade) 0 [AiAgent.Chat "hi" "hello"]
    {| on_screen := 0; keyboard := ["clear"] |} =
  (Ret [], empty_desk,
   [EvPrint ""; EvCall (Prompt "🤖 Agent") None;
    EvPrint "✅ Conversation history cleared"]).
Proof. reflexivity. Qed.

Section Sequencing.
Context {World : Type} `{Facade World}.
Local Abbreviation M := (script World).

Lemma run_bind_ret A B (m : M A) (k : A -> M B) w a w1 ev1 :
  m w = (Ret a, w1, ev1) -> bind m k w = after ev1 (k a w1).
Proof. intros E. now rewrite run_bind, E. Qed.

Lemma testTool_total flt (J : JSMath flt) name params :
  total (VisionArtist.testTool name params).
Proof.
  apply total_intro.
  - unfold VisionArtist.testTool. apply no_throw_bind; [apply no_throw_emit |].
    intros _. destruct (property_of VisionArtist.artistTools name);
      no_throw_auto.
  - no_stop_auto.
Qed.

Lemma drawSomething_total x1 y1 x2 y2 description :
  total (WorkingArtist.drawSomething x1 y1 x2 y2 description).
Proof. apply total_intro; [no_throw_auto | no_stop_auto]. Qed.

End Sequencing.

(** The four strokes of "draw a star" on a desk with seven buttons, one
    after the other. *)
Example star_strokes_in_order :
  requests (events_of (WorkingArtist.draw_for (H := desk_facade) "draw a star"
                         seven_buttons)) =
  [Press 350 150; Move 350 350; Release;
   Press 200 250; Move 500 250; Release;
   Press 250 180; Move 450 320; Release;
   Press 450 180; Move 250 320; Release].
Proof. reflexivity. Qed.

(** With nothing on screen every stroke fails at its first call; the other
    strokes are attempted all the same, in order. *)
Example star_strokes_on_empty_desk :
  requests (events_of (WorkingArtist.draw_for (H := desk_facade) "draw a star"
                         empty_desk)) =
  [Press 350 150; Press 200 250; Press 250 180; Press 450 180] /\
  result_of (WorkingArtist.draw_for (H := desk_facade) "draw a star" empty_desk)
  = Ret false.
Proof. split; reflexivity. Qed.

Section Gestures.
Context {World : Type} `{Facade World}.
Context {flt : Type} `{JSMath flt}.
Local Abbreviation M := (script World).

Lemma requests_app evs1 evs2 :
  requests (evs1 ++ evs2) = (requests evs1 ++ requests evs2)%list.
Proof. apply flat_map_app. Qed.

Lemma move_step_run canvas p (w : World) :
  (exists w1, move_step canvas p w =
              (Ret tt, w1,
               [EvCall (MouseMove canvas (Math_round (fst p)) (Math_round (snd p))) None;
                EvSleep 50])) \/
  (exists msg w1, move_step canvas p w =
                  (Throw msg, w1,
                   [EvCall (MouseMove canvas (Math_round (fst p)) (Math_round (snd p)))
                      (Some msg)])).
Proof.
  unfold move_step. rewrite run_bind. unfold ext.
  destruct (perform (MouseMove canvas (Math_round (fst p)) (Math_round (snd p))) w)
    as [[[] | msg] w1];
    [left; eexists; reflexivity | right; eexists _, _; reflexivity].
Qed.

Lemma failure_recorded A (c : call A) msg evs :
  is_facade c = true -> In (EvCall c (Some msg)) evs -> facade_failures evs <> [].
Proof.
  intros Hc Hin Hnone.
  assert (Hf : facade_failure evs msg).
  { unfold facade_failure, facade_failures. apply in_flat_map.
    exists (EvCall c (Some msg)). split; [exact Hin |]. cbn. rewrite Hc. now left. }
  unfold facade_failure in Hf. rewrite Hnone in Hf. destruct Hf.
Qed.

Lemma facade_failures_app evs1 evs2 :
  facade_failures (evs1 ++ evs2) = (facade_failures evs1 ++ facade_failures evs2)%list.
Proof. apply flat_map_app. Qed.

(** The moves through the points after the first: all of them when the loop
    completes, the first few when a move throws. *)
Lemma moves_requested (canvas : Locator) (rest : list (@VisionArtist.point flt)) :
  forall (w : World) o w' evs,
    forM rest (move_step canvas) w = (o, w', evs) ->
    (exists n, requests evs = firstn n (List.map move_to rest)) /\
    (forall u, o = Ret u -> requests evs = List.map move_to rest) /\
    (forall msg, o = Throw msg -> facade_failures evs <> []) /\
    (forall code, o <> Exit code) /\
    o <> Hang.
Proof.
  induction rest as [| p rest IH]; intros w o w' evs; cbn [forM].
  - intros E; inversion E; subst. repeat split.
    + exists 0%nat; reflexivity.
    + discriminate.
    + discriminate.
    + discriminate.
  - rewrite run_bind.
    destruct (move_step_run canvas p w) as [[w1 E1] | (msg & w1 & E1)]; rewrite E1.
    + destruct (forM rest (move_step canvas) w1) as [[o2 w2] ev2] eqn:E2.
      destruct (IH _ _ _ _ E2) as ([n Hn] & Hall & Hthrow & Hexit & Hhang).
      cbn [after]. intros E; inversion E; subst. repeat split.
      * exists (S n). cbn. now rewrite <- Hn.
      * intros u Hu. cbn. now rewrite <- (Hall u Hu).
      * intros msg Hmsg. change (facade_failures ev2 <> []). now apply Hthrow with msg.
      * exact Hexit.
      * exact Hhang.
    + intros E; inversion E; subst. repeat split.
      * exists 1%nat; reflexivity.
      * discriminate.
      * intros _ _. discriminate.
      * discriminate.
      * discriminate.
Qed.

Lemma firstn_app_exact A (l1 l2 : list A) n :
  firstn (List.length l1 + n) (l1 ++ l2) = (l1 ++ firstn n l2)%list.
Proof. induction l1; cbn; congruence. Qed.

Lemma firstn_app_short A (l1 l2 : list A) n :
  exists k, firstn n l1 = firstn k (l1 ++ l2).
Proof.
  exists (Nat.min n (List.length l1)).
  rewrite firstn_app. replace (Nat.min n (List.length l1) - List.length l1)%nat with 0%nat by lia.
  cbn. rewrite app_nil_r. revert n. induction l1 as [| a l1 IH]; intros [| n]; cbn; auto.
  now rewrite <- IH.
Qed.

Lemma gesture_rounded startX startY (rest : list (flt * flt)) :
  gesture (List.map rounded ((startX, startY) :: rest)) =
  (Press (Math_round startX) (Math_round startY)
     :: List.map move_to rest ++ [Release])%list.
Proof.
  cbn [List.map rounded gesture fst snd]. now rewrite map_map.
Qed.

(** Whatever the world answers, [drawConnectedPoints] returns, and what it
    asked of the mouse is a beginning of the gesture through the rounded
    points: the whole of it when no call failed. *)
Lemma drawConnectedPoints_requests (canvas : Locator)
  (points : list (@VisionArtist.point flt)) (w : World) :
  exists n w' evs,
    VisionArtist.drawConnectedPoints canvas points w = (Ret tt, w', evs) /\
    requests evs = firstn n (gesture (List.map rounded points)) /\
    (facade_failures evs = [] -> requests evs = gesture (List.map rounded points)).
Proof.
  destruct points as [| [startX startY] rest].
  - exists 0%nat, w, []. repeat split; reflexivity.
  - rewrite gesture_rounded.
    cbn [VisionArtist.drawConnectedPoints].
    rewrite run_try, run_bind.
    destruct (perform (MouseClickAndHold canvas (Math_round startX) (Math_round startY)) w)
      as [[[] | msg] w1] eqn:Epress.
    + rewrite (run_ext_ok _ _ Epress). cbv beta iota.
      rewrite run_bind. cbn [sleep emit]. cbv beta iota.
      rewrite run_bind.
      match goal with
      | |- context [forM rest ?body w1] => change body with (move_step canvas)
      end.
      destruct (forM rest (move_step canvas) w1) as [[o2 w2] ev2] eqn:E2.
      destruct (moves_requested _ _ _ E2) as ([n Hn] & Hall & Hthrow & Hexit & Hhang).
      destruct o2 as [[] | thrown | code |]; cbv beta iota.
      * specialize (Hall tt eq_refl).
        exists (S (List.length (List.map move_to rest) + 1)).
        destruct (perform (MouseRelease canvas) w2) as [[[] | msg] w3] eqn:Erelease;
          [rewrite (run_ext_ok _ _ Erelease) | rewrite (run_ext_fail _ _ Erelease)];
          eexists _, _; (split; [reflexivity |]).
        -- split.
           ++ rewrite !requests_app, Hall.
              cbn [requests flat_map request_of app firstn].
              rewrite firstn_app_exact. reflexivity.
           ++ intros _. rewrite !requests_app, Hall. reflexivity.
        -- split.
           ++ rewrite !requests_app, Hall.
              cbn [requests flat_map request_of app firstn console_log emit].
              rewrite firstn_app_exact. cbn [firstn].
              rewrite ?app_nil_r. reflexivity.
           ++ intros Hnone. exfalso. revert Hnone.
              apply failure_recorded with (c := MouseRelease canvas) (msg := msg);
                [reflexivity |].
              cbn [after app]. right. right.
              apply in_or_app. left. apply in_or_app. right. now left.
      * destruct (firstn_app_short (List.map move_to rest) [Release] n) as [k Hk].
        exists (S k). eexists _, _. split; [reflexivity |]. split.
        -- rewrite !requests_app, Hn.
           cbn [requests flat_map request_of app firstn]. rewrite app_nil_r.
           now rewrite Hk.
        -- intros Hnone. exfalso. apply (Hthrow thrown eq_refl).
           unfold facade_failures in *. cbn [after app flat_map failure_of] in Hnone.
           rewrite flat_map_app in Hnone.
           apply app_eq_nil in Hnone as [Hnone _]. exact Hnone.
      * now elim (Hexit code).
      * now elim Hhang.
    + rewrite (run_ext_fail _ _ Epress). exists 1%nat. eexists _, _.
      split; [reflexivity |]. split; [reflexivity |].
      intros Hnone. cbn in Hnone. discriminate Hnone.
Qed.

(** The points of a circle and of a star are as many as the loop turns. *)
Lemma circle_points_count (x y radius : flt) :
  List.length (VisionArtist.circle_points x y radius) = 37%nat.
Proof. reflexivity. Qed.

Lemma star_points_count (x y size : flt) :
  List.length (VisionArtist.star_points x y size) = 11%nat.
Proof. reflexivity. Qed.

End Gestures.

(** C8: a shape generator is a function of the centre and the size alone.
    The circle has 37 points and the star 11.  Every run of drawCircle, and
    of the other shape functions, returns, and what it asks of the mouse is a
    beginning of the gesture through the points computed from the arguments,
    the whole of it when no call fails, whatever the world and whatever the
    facade answers.  So two calls of drawCircle with identical centre and
    size that both go through replay the identical ordered sequence. *)
Theorem C8_shape_generators_are_pure
  (flt : Type) (J : JSMath flt) (canvas : Locator) (x y size : flt) :
  List.length (VisionArtist.circle_points x y size) = 37%nat /\
  List.length (VisionArtist.star_points x y size) = 11%nat /\
  (forall World (F : Facade World) (w : World),
      replays (VisionArtist.drawCircle canvas x y size w)
        (List.map rounded (VisionArtist.circle_points x y size)) /\
      replays (VisionArtist.drawSquare canvas x y size w)
        (List.map rounded (VisionArtist.square_points x y size)) /\
      replays (VisionArtist.drawStar canvas x y size w)
        (List.map rounded (VisionArtist.star_points x y size)) /\
      replays (VisionArtist.drawHeart canvas x y size w)
        (List.map rounded (VisionArtist.heart_points x y size)) /\
      replays (VisionArtist.drawTriangle canvas x y size w)
        (List.map rounded (VisionArtist.triangle_points x y size)) /\
      replays (VisionArtist.drawSpiral canvas x y size w)
        (List.map rounded (VisionArtist.spiral_points x y size))) /\
  (forall World1 (F1 : Facade World1) (w1 : World1)
          World2 (F2 : Facade World2) (w2 : World2),
      facade_failures (events_of (VisionArtist.drawCircle canvas x y size w1)) = [] ->
      facade_failures (events_of (VisionArtist.drawCircle canvas x y size w2)) = [] ->
      requests (events_of (VisionArtist.drawCircle canvas x y size w1)) =
      requests (events_of (VisionArtist.drawCircle canvas x y size w2))).
Proof.
  assert (Hgen : forall World (F : Facade World) points (w : World),
             replays (VisionArtist.drawConnectedPoints canvas points w)
               (List.map rounded points)).
  { intros World F points w.
    destruct (drawConnectedPoints_requests canvas points w)
      as (n & w' & evs & E & Hn & Hall).
    unfold replays. rewrite E. repeat split; eauto. }
  split; [reflexivity |]. split; [reflexivity |]. split.
  - intros World F w. repeat split; apply Hgen.
  - intros World1 F1 w1 World2 F2 w2 Hquiet1 Hquiet2.
    destruct (Hgen World1 F1 (VisionArtist.circle_points x y size) w1)
      as (_ & _ & Hwhole1).
    destruct (Hgen World2 F2 (VisionArtist.circle_points x y size) w2)
      as (_ & _ & Hwhole2).
    unfold VisionArtist.drawCircle in *.
    now rewrite (Hwhole1 Hquiet1), (Hwhole2 Hquiet2).
Qed.

(** Two circles drawn on desks with different numbers of buttons, neither
    with a failing call, ask the mouse for the same gesture. *)
Lemma C8_witness :
  let canvas := {| locator_id := 0 |} in
  let run (d : desk) :=
    VisionArtist.drawCircle (H := desk_facade) (H0 := whole_numbers)
      canvas 400%Z 300%Z 100%Z d in
  facade_failures (events_of (run seven_buttons)) = [] /\
  facade_failures (events_of (run {| on_screen := 1; keyboard := [] |})) = [] /\
  requests (events_of (run seven_buttons)) =
  requests (events_of (run {| on_screen := 1; keyboard := [] |})).
Proof.
  split; [reflexivity |]. split; [reflexivity |].
  exact (proj2 (proj2 (proj2
           (@C8_shape_generators_are_pure Z whole_numbers {| locator_id := 0 |}
              400%Z 300%Z 100%Z)))
           desk desk_facade seven_buttons
           desk desk_facade {| on_screen := 1; keyboard := [] |}
           eq_refl eq_refl).
Defined.

(** * Further properties of the scripts

    What the code of the scripts shows besides: the argument checks and the
    exit statuses of the command lines, the bounds of the lists and previews
    the tools hand back, what a failure of the disk or of the model leads
    to, and how the captures are named and found again. *)

(** * The command line of test-agent *)

Section Printing.
Context {World : Type} `{Facade World}.
Local Abbreviation M := (script World).

Lemma only_prints_ret : only_prints (ret tt : M unit).
Proof. eexists; intros w; reflexivity. Qed.

Lemma only_prints_log line : only_prints (console_log line : M unit).
Proof. eexists; intros w; reflexivity. Qed.

Lemma only_prints_bind (m k : M unit) :
  only_prints m -> only_prints k -> only_prints (bind m (fun _ => k)).
Proof.
  intros [ev1 E1] [ev2 E2]. exists (ev1 ++ ev2)%list. intros w.
  rewrite run_bind, E1. cbn. now rewrite E2.
Qed.

Lemma only_prints_when b (m : M unit) : only_prints m -> only_prints (when b m).
Proof. destruct b; cbn; auto using only_prints_ret. Qed.

Lemma only_prints_if (b : bool) (m k : M unit) :
  only_prints m -> only_prints k -> only_prints (if b then m else k).
Proof. now destruct b. Qed.

Lemma show_elements_prints items i :
  Forall (fun el => exists fields, el = VObj fields) items ->
  only_prints (TestAgent.show_elements i items : M unit).
Proof.
  intros Hall; revert i; induction Hall as [| el items [fields ->] _ IH]; intros i;
    cbn [TestAgent.show_elements].
  - apply only_prints_ret.
  - apply only_prints_bind; [| apply IH].
    unfold TestAgent.show_element. cbn [prop].
    destruct (truthy (get "text" (VObj fields))); eexists; intros w; reflexivity.
Qed.

Lemma display_of_success result :
  displayable result ->
  exists rest, forall w : World,
    TestAgent.display result w =
    (Ret tt, w, EvPrint ("✅ " ++ js_to_string (get "message" result)) :: rest).
Proof.
  intros ([fields ->] & Hs & Htext & Hels & Hout & Herr).
  assert (Hrest : only_prints
    (bind (if truthy (get "extractedText" (VObj fields)) then
       let text := get "extractedText" (VObj fields) in
       console_log ("📝 Text found (" ++ js_to_string (length_of text) ++ " chars):") ;;
       head <- method_substring text 500 "result.extractedText" ;;
       console_log head ;;
       when (match length_of text with VNum n => Z.ltb 500 n | _ => false end)
         (console_log "... (truncated)")
     else ret tt) (fun _ => bind
    (if truthy (get "elements" (VObj fields)) then
       console_log ("🔍 Found " ++ js_to_string (get "count" (VObj fields)) ++ " elements:") ;;
       items <- items_of (get "elements" (VObj fields)) "result.elements" "forEach" ;;
       TestAgent.show_elements 0 items
     else ret tt) (fun _ => bind
    (if truthy (get "output" (VObj fields)) then
       trimmed <- method_trim (get "output" (VObj fields)) "result.output" ;;
       if String.eqb trimmed "" then ret tt
       else console_log "📤 Output:" ;; console_log trimmed
     else ret tt) (fun _ => bind
    (if truthy (get "error" (VObj fields)) then
       trimmed <- method_trim (get "error" (VObj fields)) "result.error" ;;
       if String.eqb trimmed "" then ret tt
       else console_log "⚠️ Stderr:" ;; console_log trimmed
     else ret tt) (fun _ => bind
    (when (truthy (get "result" (VObj fields)))
      (console_log ("🔢 Result: " ++ js_to_string (get "result" (VObj fields))))) (fun _ =>
    (if truthy (get "app" (VObj fields)) then
       console_log ("📱 App: " ++ js_to_string (get "name" (get "app" (VObj fields)))
                    ++ " (" ++ js_to_string (get "role" (get "app" (VObj fields))) ++ ")")
     else ret tt)))))) : M unit)).
  { repeat apply only_prints_bind.
    - destruct Htext as [-> | [s ->]]; [apply only_prints_ret |].
      apply only_prints_if; [| apply only_prints_ret]. cbv zeta.
      apply only_prints_bind; [apply only_prints_log |].
      cbn [method_substring].
      destruct (match length_of (VStr s) with VNum n => Z.ltb 500 n | _ => false end);
        eexists; intros w; reflexivity.
    - destruct Hels as [-> | (items & -> & Hitems)]; [apply only_prints_ret |].
      cbn [truthy]. apply only_prints_bind; [apply only_prints_log |].
      cbn [items_of].
      destruct (show_elements_prints 0 Hitems) as [evs E]. exists evs; intros w.
      rewrite run_bind. cbn [ret]. cbv beta iota. rewrite E. reflexivity.
    - destruct Hout as [-> | [s ->]]; [apply only_prints_ret |].
      apply only_prints_if; [| apply only_prints_ret].
      cbn [method_trim].
      destruct (String.eqb (trim s) "") eqn:E; eexists; intros w;
        rewrite run_bind; cbn [ret]; cbv beta iota; rewrite E; reflexivity.
    - destruct Herr as [-> | [s ->]]; [apply only_prints_ret |].
      apply only_prints_if; [| apply only_prints_ret].
      cbn [method_trim].
      destruct (String.eqb (trim s) "") eqn:E; eexists; intros w;
        rewrite run_bind; cbn [ret]; cbv beta iota; rewrite E; reflexivity.
    - apply only_prints_when, only_prints_log.
    - apply only_prints_if; [apply only_prints_log | apply only_prints_ret]. }
  destruct Hrest as [rest Hrest]. exists rest. intros w.
  unfold TestAgent.display. cbn [prop]. rewrite run_bind. cbn [ret]. cbv beta iota.
  rewrite Hs. cbn [truthy].
  rewrite run_bind. cbn [console_log emit]. cbv beta iota.
  rewrite Hrest. reflexivity.
Qed.

Lemma display_of_failure result (w : World) :
  (exists fields, result = VObj fields) ->
  truthy (get "success" result) = false ->
  TestAgent.display result w =
  (Exit 1, w, [EvPrint ("❌ " ++ js_to_string (get "error" result))]).
Proof.
  intros [fields ->] Hs. unfold TestAgent.display. cbn [prop].
  rewrite run_bind. cbn [ret]. cbv beta iota. rewrite Hs. reflexivity.
Qed.

End Printing.

Ltac field_leaf :=
  first [ left; reflexivity | right; eexists; reflexivity ].

Ltac displayable_leaf :=
  solve
    [ right; eexists; reflexivity
    | left; split; [eexists; reflexivity |];
      split; [reflexivity |];
      split; [field_leaf |];
      split; [left; reflexivity |];
      split; field_leaf ].

Section TestAgentCli.
Context {World : Type} `{Facade World}.
Local Abbreviation M := (script World).

(** X1: A command that needs an argument and is given none (or an empty one)
    prints what it misses and ends the process with status 1; no tool runs
    and nothing is called. *)
Theorem test_agent_missing_argument (command : string) (params : list string) (w : World) :
  In command ["click"; "find"; "open"; "type"; "calc"; "run"; "chat"] ->
  TestAgent.missing params = true ->
  exists what,
    TestAgent.executeCommand command params w =
    (Exit 1, w, [EvPrint ("❌ Please provide " ++ what)]).
Proof.
  intros Hin Hm.
  cbn [In] in Hin.
  repeat (destruct Hin as [<- | Hin]); try contradiction;
    unfold TestAgent.executeCommand, TestAgent.select;
    cbn [String.eqb Ascii.eqb Bool.eqb];
    rewrite run_try, !run_bind, Hm; eexists; reflexivity.
Qed.

(** X2: A first argument that is not empty and is none of the eight commands
    is reported, and the process ends with status 1; nothing is called once
    the desktop is created.  An empty first argument gets the usage, and
    status 0. *)
Theorem test_agent_unknown_command (command : string) (params : list string)
  (w w1 : World) :
  perform NewDesktop w = (Ok tt, w1) ->
  existsb (String.eqb command)
    ["screenshot"; "click"; "find"; "open"; "type"; "calc"; "run"; "chat"] = false ->
  let ready :=
    [EvCall NewDesktop None;
     EvPrint "🤖 Initializing Desktop automation engine";
     EvPrint "✅ Desktop automation engine initialized"] in
  (command <> "" ->
   TestAgent.main (command :: params) w =
   (Exit 1, w1, ready ++ [EvPrint ("❌ Unknown command: " ++ command)])%list) /\
  (command = "" ->
   TestAgent.main (command :: params) w =
   (Exit 0, w1, ready ++ List.map EvPrint TestAgent.usage)%list).
Proof.
  intros Hdesk Hunknown ready. cbn [existsb] in Hunknown.
  repeat (apply orb_false_iff in Hunknown as [?E Hunknown]).
  unfold TestAgent.main.
  rewrite run_bind, (run_ext_ok _ _ Hdesk). cbv beta iota.
  do 2 (rewrite run_bind; cbn [console_log emit]; cbv beta iota).
  split.
  - intros Hne. apply String.eqb_neq in Hne. rewrite Hne.
    unfold TestAgent.executeCommand, TestAgent.select.
    rewrite E, E0, E1, E2, E3, E4, E5, E6. reflexivity.
  - intros ->. reflexivity.
Qed.

Lemma described_are_objects (els : list Element) :
  returns (Forall (fun el => exists fields, el = VObj fields))
    (mapM TestAgent.describe_element els : M (list value)).
Proof.
  induction els as [| el els IH]; cbn [mapM].
  - apply returns_ret. constructor.
  - eapply returns_bind_with with (Q := fun v => exists fields, v = VObj fields).
    + unfold TestAgent.describe_element. returns_auto. eexists; reflexivity.
    + intros v Hv. eapply returns_bind_with; [exact IH |].
      intros vs Hvs. apply returns_ret. now constructor.
Qed.

Lemma test_agent_tools_are_shown (i : TestAgent.invocation) :
  test_agent_result shown_or_failed i.
Proof.
  destruct i; cbn [test_agent_result TestAgent.execute].
  - always_auto displayable_leaf.
  - always_auto displayable_leaf.
  - apply always_intro; [| no_throw_auto | no_stop_auto].
    unfold TestAgent.findElements_execute.
    apply returns_try; [| intros ?; apply returns_ret; right; eexists; reflexivity].
    do 3 (apply returns_bind; intros ?).
    eapply returns_bind_with; [apply described_are_objects |].
    intros details Hd. apply returns_ret. left.
    split; [eexists; reflexivity |]. split; [reflexivity |].
    split; [left; reflexivity |]. split; [right; eexists; split; [reflexivity | exact Hd] |].
    split; left; reflexivity.
  - always_auto displayable_leaf.
  - always_auto displayable_leaf.
  - unless_stopped_auto displayable_leaf.
  - always_auto displayable_leaf.
Qed.


Lemma executeCommand_shows command params (w : World) v w1 evs :
  TestAgent.select command params w = (Ret v, w1, evs) ->
  shown_or_failed v ->
  exists shown,
    TestAgent.executeCommand command params w =
      ((if truthy (get "success" v) then Ret tt else Exit 1), w1, (evs ++ shown)%list) /\
    (truthy (get "success" v) = false ->
     shown = [EvPrint ("❌ " ++ js_to_string (get "error" v))]) /\
    (truthy (get "success" v) = true ->
     exists rest, shown = EvPrint ("✅ " ++ js_to_string (get "message" v)) :: rest).
Proof.
  intros Esel [Hd | [message ->]].
  - destruct (display_of_success (World := World) Hd) as [rest Hrest].
    exists (EvPrint ("✅ " ++ js_to_string (get "message" v)) :: rest).
    destruct Hd as (_ & Hs & _). rewrite Hs. cbn [truthy].
    split; [| split; [discriminate | eauto]].
    unfold TestAgent.executeCommand. rewrite run_try, run_bind, Esel. cbv beta iota.
    rewrite Hrest. reflexivity.
  - exists [EvPrint ("❌ " ++ message)]. cbn [get fail_result lookup String.eqb Ascii.eqb Bool.eqb truthy].
    split; [| split; [reflexivity | discriminate]].
    unfold TestAgent.executeCommand. rewrite run_try, run_bind, Esel. reflexivity.
Qed.

Lemma tool_then_display command params (w : World) i :
  (forall w', TestAgent.select command params w' = TestAgent.execute i w') ->
  (exists v w1 evs shown,
      TestAgent.select command params w = (Ret v, w1, evs) /\
      TestAgent.executeCommand command params w =
        ((if truthy (get "success" v) then Ret tt else Exit 1), w1, (evs ++ shown)%list) /\
      (truthy (get "success" v) = false ->
       shown = [EvPrint ("❌ " ++ js_to_string (get "error" v))]) /\
      (truthy (get "success" v) = true ->
       exists rest, shown = EvPrint ("✅ " ++ js_to_string (get "message" v)) :: rest)) \/
  ((exists expression, i = TestAgent.Calculate expression) /\
   stopped_by_the_text (TestAgent.executeCommand command params w) /\
   events_of (TestAgent.executeCommand command params w)
   = events_of (TestAgent.select command params w)).
Proof.
  intros Hi.
  assert (Hreturned : forall v w1 evs,
             TestAgent.execute i w = (Ret v, w1, evs) -> shown_or_failed v ->
             exists v w1 evs shown,
               TestAgent.select command params w = (Ret v, w1, evs) /\
               TestAgent.executeCommand command params w =
                 ((if truthy (get "success" v) then Ret tt else Exit 1), w1,
                  (evs ++ shown)%list) /\
               (truthy (get "success" v) = false ->
                shown = [EvPrint ("❌ " ++ js_to_string (get "error" v))]) /\
               (truthy (get "success" v) = true ->
                exists rest,
                  shown = EvPrint ("✅ " ++ js_to_string (get "message" v)) :: rest)).
  { intros v w1 evs E Hv. rewrite <- Hi in E.
    destruct (executeCommand_shows _ _ _ E Hv) as (shown & H1 & H2 & H3).
    exists v, w1, evs, shown. auto. }
  pose proof (test_agent_tools_are_shown i) as Hshown.
  destruct i; cbn [test_agent_result] in Hshown;
    try (destruct (Hshown w) as (v & w1 & evs & E & Hv); left;
         exact (Hreturned v w1 evs E Hv)).
  destruct (Hshown w) as [(v & w1 & evs & E & Hv) | Hstop];
    [left; exact (Hreturned v w1 evs E Hv) |].
  right. split; [eexists; reflexivity |].
  rewrite <- Hi in Hstop. unfold TestAgent.executeCommand.
  destruct (@stopped_bind _ _ _ _ _ TestAgent.display _ Hstop) as [Hbound Hevents].
  destruct (@stopped_try _ _ _ _
              (fun message =>
                 bind (console_log ("💥 Fatal error: " ++ message))
                      (fun _ => process_exit 1)) _ Hbound) as [Htried Hevents'].
  split; [exact Htried | exact (eq_trans Hevents' Hevents)].
Qed.

(** X3: For a tool command other than [calc] that has its argument, the
    status of the process follows the Tool Result: when [success] is true the
    result is displayed, beginning with its message, and the run ends
    normally (status 0); otherwise the error is printed and the process ends
    with status 1.  No exception escapes.  ([calc] runs the user's expression
    inside the process, which may end it with a status of its own.) *)
Theorem test_agent_status_follows_result (command : string) (params : list string)
  (w : World) :
  In command ["screenshot"; "click"; "find"; "open"; "type"; "run"] ->
  command = "screenshot" \/ TestAgent.missing params = false ->
  exists v w1 evs shown,
    TestAgent.select command params w = (Ret v, w1, evs) /\
    TestAgent.executeCommand command params w =
      ((if truthy (get "success" v) then Ret tt else Exit 1), w1, (evs ++ shown)%list) /\
    (truthy (get "success" v) = false ->
     shown = [EvPrint ("❌ " ++ js_to_string (get "error" v))]) /\
    (truthy (get "success" v) = true ->
     exists rest, shown = EvPrint ("✅ " ++ js_to_string (get "message" v)) :: rest).
Proof.
  intros Hin Hgiven.
  cbn [In] in Hin.
  repeat (destruct Hin as [<- | Hin]); try contradiction;
    try (destruct Hgiven as [Hg | Hg]; [discriminate Hg |]).
  - destruct (@tool_then_display "screenshot" params w
                (TestAgent.Screenshot_ (existsb (String.eqb "--ocr") params)))
      as [Hleft | ([e He] & _)]; [reflexivity | exact Hleft | discriminate He].
  - destruct (@tool_then_display "click" params w
                (TestAgent.ClickElement (TestAgent.first_param params)))
      as [Hleft | ([e He] & _)]; [| exact Hleft | discriminate He].
    intros w'. unfold TestAgent.select; cbn [String.eqb Ascii.eqb Bool.eqb].
    rewrite Hg, run_bind. cbn [when ret]. cbv beta iota. apply after_nil.
  - destruct (@tool_then_display "find" params w
                (TestAgent.FindElements (TestAgent.first_param params)))
      as [Hleft | ([e He] & _)]; [| exact Hleft | discriminate He].
    intros w'. unfold TestAgent.select; cbn [String.eqb Ascii.eqb Bool.eqb].
    rewrite Hg, run_bind. cbn [when ret]. cbv beta iota. apply after_nil.
  - destruct (@tool_then_display "open" params w
                (TestAgent.OpenApp (TestAgent.first_param params)))
      as [Hleft | ([e He] & _)]; [| exact Hleft | discriminate He].
    intros w'. unfold TestAgent.select; cbn [String.eqb Ascii.eqb Bool.eqb].
    rewrite Hg, run_bind. cbn [when ret]. cbv beta iota. apply after_nil.
  - destruct (@tool_then_display "type" params w
                (TestAgent.TypeText (join " " params)))
      as [Hleft | ([e He] & _)]; [| exact Hleft | discriminate He].
    intros w'. unfold TestAgent.select; cbn [String.eqb Ascii.eqb Bool.eqb].
    rewrite Hg, run_bind. cbn [when ret]. cbv beta iota. apply after_nil.
  - destruct (@tool_then_display "run" params w
                (TestAgent.RunCommand_ (join " " params)))
      as [Hleft | ([e He] & _)]; [| exact Hleft | discriminate He].
    intros w'. unfold TestAgent.select; cbn [String.eqb Ascii.eqb Bool.eqb].
    rewrite Hg, run_bind. cbn [when ret]. cbv beta iota. apply after_nil.
Qed.

(** [calc] follows its result too when the tool has one; the run without a
    result is that of an expression that ends the process or never returns,
    and nothing is displayed then. *)
Lemma calc_follows_its_result (params : list string) (w : World) :
  TestAgent.missing params = false ->
  (exists v w1 evs shown,
      TestAgent.select "calc" params w = (Ret v, w1, evs) /\
      TestAgent.executeCommand "calc" params w =
        ((if truthy (get "success" v) then Ret tt else Exit 1), w1, (evs ++ shown)%list) /\
      (truthy (get "success" v) = false ->
       shown = [EvPrint ("❌ " ++ js_to_string (get "error" v))]) /\
      (truthy (get "success" v) = true ->
       exists rest, shown = EvPrint ("✅ " ++ js_to_string (get "message" v)) :: rest)) \/
  (stopped_by_the_text (TestAgent.executeCommand "calc" params w) /\
   events_of (TestAgent.executeCommand "calc" params w)
   = events_of (TestAgent.calculate_execute (join " " params) w)).
Proof.
  intros Hg.
  assert (Hsel : forall w', TestAgent.select "calc" params w'
                            = TestAgent.calculate_execute (join " " params) w').
  { intros w'. unfold TestAgent.select; cbn [String.eqb Ascii.eqb Bool.eqb].
    rewrite Hg, run_bind. cbn [when ret]. cbv beta iota. apply after_nil. }
  destruct (@tool_then_display "calc" params w
              (TestAgent.Calculate (join " " params)))
    as [Hleft | (_ & Hstop & Hevents)]; [exact Hsel | now left |].
  right. split; [exact Hstop |]. now rewrite Hevents, Hsel.
Qed.

End TestAgentCli.

(** * The tools of the AI agent *)

Lemma substring_length n s :
  String.length (substring 0 n s) = Nat.min n (String.length s).
Proof.
  revert s; induction n as [| n IH]; intros [| c s]; cbn; auto.
Qed.

Lemma substring_whole n s :
  (String.length s <= n)%nat -> substring 0 n s = s.
Proof.
  revert s; induction n as [| n IH]; intros [| c s]; cbn; intros Hn; auto.
  - lia.
  - f_equal. apply IH. lia.
Qed.

Lemma append_empty (a : string) : a ++ "" = a.
Proof. induction a as [| c a IH]; cbn; congruence. Qed.

Lemma length_append (a b : string) :
  String.length (a ++ b) = (String.length a + String.length b)%nat.
Proof. induction a as [| c a IH]; cbn; auto. Qed.

Section AiAgentTools.
Context {World : Type} `{Facade World}.
Local Abbreviation M := (script World).

(** X4: The AI agent's tools check their arguments before they act: when a
    required argument is missing, the answer is an error and nothing was
    called. *)
Theorem ai_agent_checks_arguments_first (absent : option string) (w : World) :
  given absent = false ->
  (forall action, In action ["launch"; "focus"; "activate"] ->
     exists message,
       AiAgent.appControl_execute action absent w =
       (Ret (VObj [("error", VStr message)]), w, [])) /\
  (forall content directory,
     AiAgent.fileManager_execute "read" absent content directory w =
     (Ret (VObj [("error", VStr "Filepath required for read action")]), w, [])) /\
  (forall content directory,
     AiAgent.fileManager_execute "write" absent content directory w =
     (Ret (VObj [("error", VStr "Filepath and content required for write action")]),
      w, [])) /\
  (forall filepath directory,
     AiAgent.fileManager_execute "write" filepath absent directory w =
     (Ret (VObj [("error", VStr "Filepath and content required for write action")]),
      w, [])) /\
  (forall content directory,
     AiAgent.fileManager_execute "open" absent content directory w =
     (Ret (VObj [("error", VStr "Filepath required for open action")]), w, [])) /\
  (forall browser,
     AiAgent.webTool_execute "open" absent browser w =
     (Ret (VObj [("error", VStr "URL required for open action")]), w, [])).
Proof.
  intros Hg. repeat split.
  - intros action Hin. cbn [In] in Hin.
    repeat (destruct Hin as [<- | Hin]); try contradiction;
      unfold AiAgent.appControl_execute; cbn [String.eqb Ascii.eqb Bool.eqb orb];
      rewrite Hg; eexists; reflexivity.
  - intros. unfold AiAgent.fileManager_execute. cbn [String.eqb Ascii.eqb Bool.eqb].
    rewrite Hg. reflexivity.
  - intros. unfold AiAgent.fileManager_execute. cbn [String.eqb Ascii.eqb Bool.eqb].
    rewrite Hg. reflexivity.
  - intros. unfold AiAgent.fileManager_execute. cbn [String.eqb Ascii.eqb Bool.eqb].
    rewrite Hg, orb_true_r. reflexivity.
  - intros. unfold AiAgent.fileManager_execute. cbn [String.eqb Ascii.eqb Bool.eqb].
    rewrite Hg. reflexivity.
  - intros. unfold AiAgent.webTool_execute. cbn [String.eqb Ascii.eqb Bool.eqb].
    rewrite Hg. reflexivity.
Qed.




(** X6: [appControl] with [list] counts every running application and
    describes the first ten. *)
Theorem listed_applications_are_the_first_ten (appName : option string)
  (w w1 : World) (apps : list Element) :
  perform Applications w = (Ok apps, w1) ->
  (exists message,
      result_of (AiAgent.appControl_execute "list" appName w) =
      Ret (VObj [("error", VStr ("App control failed: " ++ message))])) \/
  (exists v described,
      result_of (AiAgent.appControl_execute "list" appName w) = Ret v /\
      get "count" v = VNum (Z.of_nat (List.length apps)) /\
      get "applications" v = VArr described /\
      List.length described = Nat.min (List.length apps) 10 /\
      result_of (mapM AiAgent.describe_app (firstn 10 apps) w1) = Ret described).
Proof.
  intros Happs. unfold AiAgent.appControl_execute.
  cbn [String.eqb Ascii.eqb Bool.eqb].
  rewrite run_try, run_bind, (run_ext_ok _ _ Happs); cbv beta iota.
  rewrite run_bind.
  assert (Hne : no_stop (mapM AiAgent.describe_app (firstn 10 apps)))
    by no_stop_auto.
  specialize (Hne w1).
  destruct (mapM AiAgent.describe_app (firstn 10 apps) w1)
    as [[[described | thrown | code |] w2] ev2] eqn:E.
  - right. eexists _, described. do 3 (split; [reflexivity |]). split.
    + apply mapM_length in E. rewrite E, length_firstn. apply Nat.min_comm.
    + reflexivity.
  - left. exists thrown. reflexivity.
  - contradiction.
  - contradiction.
Qed.

(** What [ocrTool] answers about the text it read. *)
Lemma ocr_preview (source : string) (ocrText : string) :
  let v := VObj [("status", VStr "success");
                 ("source", VStr source);
                 ("textLength", VNum (len ocrText));
                 ("wordCount", VNum (word_count ocrText));
                 ("text", VStr (substring 0 1000 ocrText
                                ++ (if Z.ltb 1000 (len ocrText) then "..." else "")));
                 ("fullText", VStr ocrText)] in
  exists full preview,
    get "fullText" v = VStr full /\
    get "text" v = VStr preview /\
    get "textLength" v = VNum (len full) /\
    (len preview <= 1003)%Z /\
    ((len full <= 1000)%Z -> preview = full) /\
    ((1000 < len full)%Z -> preview = substring 0 1000 full ++ "...").
Proof.
  cbv zeta. eexists ocrText, _. do 3 (split; [reflexivity |]).
  unfold len. destruct (Z.ltb 1000 (Z.of_nat (String.length ocrText))) eqn:E.
  - apply Z.ltb_lt in E. split; [| split; [lia | reflexivity]].
    rewrite length_append, substring_length. cbn [String.length]. lia.
  - apply Z.ltb_ge in E. split; [| split; [| lia]].
    + rewrite length_append, substring_length. cbn [String.length]. lia.
    + intros _. rewrite substring_whole by lia. apply append_empty.
Qed.

(** X7: The text [ocrTool] hands to the model is a preview of at most 1000
    characters, followed by three dots when something was cut; [fullText]
    holds all of it. *)
Theorem ocr_preview_is_bounded (imagePath : option string) (w w' : World)
  (v : value) (evs : list event) :
  AiAgent.ocrTool_execute imagePath w = (Ret v, w', evs) ->
  has_field "error" v = false ->
  exists full preview,
    get "fullText" v = VStr full /\
    get "text" v = VStr preview /\
    get "textLength" v = VNum (len full) /\
    (len preview <= 1003)%Z /\
    ((len full <= 1000)%Z -> preview = full) /\
    ((1000 < len full)%Z -> preview = substring 0 1000 full ++ "...").
Proof.
  intros E Hok.
  assert (Hr : returns
    (fun v => has_field "error" v = false ->
       exists full preview,
         get "fullText" v = VStr full /\
         get "text" v = VStr preview /\
         get "textLength" v = VNum (len full) /\
         (len preview <= 1003)%Z /\
         ((len full <= 1000)%Z -> preview = full) /\
         ((1000 < len full)%Z -> preview = substring 0 1000 full ++ "..."))
    (AiAgent.ocrTool_execute imagePath)).
  { unfold AiAgent.ocrTool_execute.
    apply returns_try; [| intros ?; apply returns_ret; discriminate].
    apply returns_bind; intros ocrText. apply returns_ret. intros _.
    apply ocr_preview. }
  specialize (Hr w). rewrite E in Hr. auto.
Qed.

(** X8: The calculator does not depend on the Calculator app: when the
    expression evaluates to a value and the [toString] of that value gives a
    text (the usual one for a boolean, a whole number and a string), the
    answer carries that text and no error, whether or not the app can be
    launched for the demonstration. *)
Theorem calculator_survives_the_app (expression : string) (useApp : bool)
  (w w1 w2 : World) (result : value) (shown : string) (converting : list event) :
  perform (EvalJs (strict_return expression)) w = (Ok (Returned result), w1) ->
  method_toString result w1 = (Ret shown, w2, converting) ->
  (primitive result = true -> shown = js_to_string result) /\
  exists v w' evs,
    AiAgent.calculator_execute expression useApp w = (Ret v, w', evs) /\
    get "result" v = VStr shown /\
    get "expression" v = VStr expression /\
    has_field "error" v = false.
Proof.
  intros Heval Hshown. split.
  - intros Hresult. rewrite (toString_of_a_primitive _ Hresult) in Hshown.
    now inversion Hshown.
  - eapply ai_calculator_answers; eauto.
Qed.

End AiAgentTools.

(** * The command loop of the AI agent *)

(** The entry of the command table that a name stands for. *)
Ltac which_command Hown :=
  unfold AiAgent.commands in Hown; cbn [own_property] in Hown;
  repeat
    match goal with
    | Hc : (if String.eqb ?n ?k then _ else _) = _ |- _ =>
        let E := fresh "E" in
        destruct (String.eqb n k) eqn:E;
        [ apply String.eqb_eq in E; subst n; injection Hc as <- |]
    end;
  try discriminate.

Section AiAgentLoop.
Context {World : Type} `{Facade World}.
Local Abbreviation M := (script World).

Lemma command_loop_throws (rounds fuel : nat) (history : list AiAgent.entry)
  (w w' : World) thrown evs :
  AiAgent.command_round fuel history w = (Throw thrown, w', evs) ->
  AiAgent.command_loop (S rounds) fuel history w = (Throw thrown, w', evs).
Proof. intros E. cbn [AiAgent.command_loop]. now rewrite run_bind, E. Qed.

Lemma main_reports_what_the_loop_throws (rounds fuel : nat) (w w0 w1 w2 : World)
  greeting thrown evs :
  perform NewDesktop w = (Ok tt, w0) ->
  perform (GenerateText "Hello! Are you working correctly?") w0 = (Ok greeting, w1) ->
  AiAgent.command_loop rounds fuel [] w1 = (Throw thrown, w2, evs) ->
  AiAgent.main rounds fuel w =
  (Exit 1, w2, started ++ evs ++ [EvPrint ("🚨 Fatal error: " ++ thrown)])%list.
Proof.
  intros Hdesk Hmodel Hloop. unfold AiAgent.main.
  rewrite run_bind, (run_ext_ok _ _ Hdesk). cbv beta iota.
  rewrite run_try.
  do 4 (rewrite run_bind; cbn [console_log spinner_start emit]; cbv beta iota).
  rewrite run_bind, run_try, run_bind, (run_ext_ok _ _ Hmodel). cbv beta iota.
  cbn [console_log emit after]. cbv beta iota.
  rewrite run_bind, Hloop. cbn [after]. cbv beta iota.
  reflexivity.
Qed.

(** X9: When the working directory cannot be read, the [files] command does not
    report the error: it reads [files] of the error answer, the round ends
    with a TypeError, and the agent with "Fatal error" and status 1. *)
Theorem files_command_breaks_on_unreadable_directory (fuel : nat)
  (line message : string) (args : list string) (w w1 w2 : World) :
  perform (Prompt "🤖 Agent") w = (Ok line, w1) ->
  split_space (trim line) = "files" :: args ->
  perform (FsReaddir ".") w1 = (Fail message, w2) ->
  let listing :=
    (asked ++ [EvSpinner "📂 Listing files...";
               EvCall (FsReaddir ".") (Some message);
               EvSpinnerStop;
               EvPrint "📁 Files in undefined:"])%list in
  let thrown := "Cannot read properties of undefined (reading 'forEach')" in
  (forall history,
      AiAgent.command_round fuel history w = (Throw thrown, w2, listing)) /\
  (forall rounds before start greeting,
      perform NewDesktop before = (Ok tt, start) ->
      perform (GenerateText "Hello! Are you working correctly?") start = (Ok greeting, w) ->
      AiAgent.main (S rounds) fuel before =
      (Exit 1, w2,
       started ++ listing ++ [EvPrint ("🚨 Fatal error: " ++ thrown)])%list).
Proof.
  intros Hprompt Hsplit Hdir listing thrown.
  assert (Hround : forall history,
             AiAgent.command_round fuel history w = (Throw thrown, w2, listing)).
  { intros history.
    unfold AiAgent.command_round. rewrite run_bind. cbn [console_log emit].
    cbv beta iota. rewrite run_bind, (run_ext_ok _ _ Hprompt). cbv beta iota zeta.
    rewrite Hsplit. cbn [String.eqb Ascii.eqb Bool.eqb].
    change (property_of (AiAgent.commands fuel) "files") with (Own AiAgent.files_command).
    cbv iota. unfold AiAgent.files_command.
    rewrite run_bind. cbn [spinner_start emit]. cbv beta iota.
    rewrite run_bind.
    assert (Htool : AiAgent.fileManager_execute "list" None None None w1 =
                    (Ret (VObj [("error", VStr message); ("action", VStr "list")]), w2,
                     [EvCall (FsReaddir ".") (Some message)])).
    { unfold AiAgent.fileManager_execute. cbn [String.eqb Ascii.eqb Bool.eqb or_else].
      rewrite run_try, run_bind, (run_ext_fail _ _ Hdir). reflexivity. }
    rewrite Htool. reflexivity. }
  split; [exact Hround |].
  intros rounds before start greeting Hdesk Hmodel.
  eapply main_reports_what_the_loop_throws; [exact Hdesk | exact Hmodel |].
  apply command_loop_throws, Hround.
Qed.

(** X10: When the model does not answer the first request, the agent prints the
    setup instructions and ends with status 1; no command is read. *)
Theorem model_unavailable_is_fatal (rounds fuel : nat) (w w0 w1 : World)
  (message : string) :
  perform NewDesktop w = (Ok tt, w0) ->
  perform (GenerateText "Hello! Are you working correctly?") w0 = (Fail message, w1) ->
  AiAgent.main rounds fuel w =
  (Exit 1, w1,
   [EvCall NewDesktop None;
    EvPrint "AI Agent";
    EvPrint (nl ++ "🤖 Powered by Terminator.js + DeepSeek-R1:1.5B + Ollama + Vercel AI SDK" ++ nl);
    EvPrint AiAgent.banner_text;
    EvSpinner "🔍 Checking DeepSeek-R1:1.5B availability...";
    EvCall (GenerateText "Hello! Are you working correctly?") (Some message);
    EvPrint "❌ DeepSeek-R1:1.5B not available";
    EvPrint (nl ++ "🚨 Setup Instructions:");
    EvPrint "1. Install Ollama: curl -fsSL https://ollama.ai/install.sh | sh";
    EvPrint "2. Pull the model: ollama pull deepseek-r1:1.5b";
    EvPrint "3. Ensure Ollama is running: ollama serve"]).
Proof.
  intros Hdesk Hmodel. unfold AiAgent.main.
  rewrite run_bind, (run_ext_ok _ _ Hdesk). cbv beta iota.
  rewrite run_try.
  do 4 (rewrite run_bind; cbn [console_log spinner_start emit]; cbv beta iota).
  rewrite run_bind, run_try, run_bind, (run_ext_fail _ _ Hmodel). reflexivity.
Qed.

(** What one turn of the chat does to the history. *)
Lemma chat_turn_next (history : list AiAgent.entry) :
  returns (fun next =>
             next = None \/ next = Some history \/
             exists user ai, next = Some (history ++ [AiAgent.Chat user ai])%list)
    (AiAgent.chat_turn history).
Proof.
  unfold AiAgent.chat_turn. returns_auto; auto.
  all: right; right; eexists _, _; reflexivity.
Qed.

Lemma chat_loop_grows (fuel : nat) (history : list AiAgent.entry) (w : World) :
  match AiAgent.chat_loop fuel history w with
  | (Ret history', _, _) =>
      exists added,
        history' = (history ++ added)%list /\
        (List.length added <= fuel)%nat /\
        Forall (fun e => exists user ai, e = AiAgent.Chat user ai) added
  | _ => True
  end.
Proof.
  revert history w. induction fuel as [| fuel IH]; intros history w;
    cbn [AiAgent.chat_loop].
  - exists []. rewrite app_nil_r. repeat split; auto.
  - rewrite run_bind. pose proof (chat_turn_next history w) as Hturn.
    destruct (AiAgent.chat_turn history w) as [[[next | thrown | code |] w1] ev1]; auto.
    destruct Hturn as [-> | [-> | (user & ai & ->)]].
    + exists []. rewrite app_nil_r. repeat split; auto. cbn; lia.
    + specialize (IH history w1).
      destruct (AiAgent.chat_loop fuel history w1) as [[[h' | thrown | code |] w2] ev2];
        cbn; auto.
      destruct IH as (added & -> & Hlen & Hall). exists added. repeat split; auto.
    + specialize (IH (history ++ [AiAgent.Chat user ai])%list w1).
      destruct (AiAgent.chat_loop fuel (history ++ [AiAgent.Chat user ai]) w1)
        as [[[h' | thrown | code |] w2] ev2]; cbn; auto.
      destruct IH as (added & -> & Hlen & Hall).
      exists (AiAgent.Chat user ai :: added). rewrite <- app_assoc. repeat split.
      * cbn; lia.
      * constructor; eauto.
Qed.

(** X11: The chat only adds to the conversation history: what it returns is the
    history it was given followed by at most one chat entry for each turn. *)
Theorem chat_history_only_grows (fuel : nat) (history : list AiAgent.entry) (w : World) :
  match AiAgent.chat_loop fuel history w with
  | (Ret history', _, _) =>
      exists added,
        history' = (history ++ added)%list /\
        (List.length added <= fuel)%nat /\
        Forall (fun e => exists user ai, e = AiAgent.Chat user ai) added
  | _ => True
  end.
Proof. apply chat_loop_grows. Qed.

(** X12: The conversation history changes in three ways only: [clear] empties it,
    [think] adds its question and answer, the chat adds its turns.  Every
    other command gives it back as it was. *)
Theorem commands_keep_history (fuel : nat) (name : string) (run : AiAgent.handler)
  (args : list string) (history : list AiAgent.entry) (w : World) :
  own_property (AiAgent.commands fuel) name = Some run ->
  match run args history w with
  | (Ret history', _, _) =>
      (name = "clear" /\ history' = []) \/
      (exists added,
          history' = (history ++ added)%list /\
          (name <> "think" -> name <> "chat" -> added = []))
  | _ => True
  end.
Proof.
  intros Hown.
  assert (Hsame : forall m : M (list AiAgent.entry),
             returns (fun h' => h' = history) m ->
             match m w with
             | (Ret history', _, _) =>
                 (name = "clear" /\ history' = []) \/
                 (exists added,
                     history' = (history ++ added)%list /\
                     (name <> "think" -> name <> "chat" -> added = []))
             | _ => True
             end).
  { intros m Hm. specialize (Hm w).
    destruct (m w) as [[[h' | thrown | code |] w1] ev1]; auto.
    right. exists []. rewrite app_nil_r. auto. }
  which_command Hown.
  1-11: apply Hsame; returns_auto; reflexivity.
  - (* think *)
    assert (Hthink : returns
              (fun h' => exists added, h' = (history ++ added)%list)
              (AiAgent.think_command args history)).
    { unfold AiAgent.think_command. returns_auto.
      all: first [ exists []; now rewrite app_nil_r | eexists; reflexivity ]. }
    specialize (Hthink w).
    destruct (AiAgent.think_command args history w) as [[[h' | thrown | code |] w1] ev1];
      auto.
    destruct Hthink as [added ->]. right. exists added. split; auto.
    intros Hn; now contradiction Hn.
  - apply Hsame; returns_auto; reflexivity.
  - (* clear *)
    left. split; reflexivity.
  - (* chat *)
    unfold AiAgent.chat_command.
    do 3 (rewrite run_bind; cbn [console_log emit]; cbv beta iota).
    pose proof (chat_loop_grows fuel history w) as Hchat.
    destruct (AiAgent.chat_loop fuel history w) as [[[h' | thrown | code |] w1] ev1];
      cbn; auto.
    destruct Hchat as (added & -> & _). right. exists added. split; auto.
    intros _ Hn; now contradiction Hn.
Qed.

(** X13: A command is given the words typed after its name one by one, and reads
    the first only ([app] the first two): what follows is dropped. *)
Theorem commands_read_the_first_word (fuel : nat) (name : string)
  (run : AiAgent.handler) (word : string) (words : list string)
  (history : list AiAgent.entry) (w : World) :
  own_property (AiAgent.commands fuel) name = Some run ->
  (name <> "app" -> run (word :: words) history w = run [word] history w) /\
  (forall second,
      run (word :: second :: words) history w = run [word; second] history w).
Proof.
  intros Hown. which_command Hown.
  all: split; [intros Hname | intros second]; try reflexivity.
  now contradiction Hname.
Qed.

Lemma bind_ext_ok A B (c : call A) (k : A -> M B) (w w1 : World) a :
  perform c w = (Ok a, w1) ->
  bind (ext c) k w = after [EvCall c None] (k a w1).
Proof. intros E. now rewrite run_bind, (run_ext_ok _ _ E). Qed.


End AiAgentLoop.

(** * Captures and their analysis *)

(** The order of [sort]. *)
Lemma string_leb_refl a : string_leb a a = true.
Proof.
  induction a as [| c a IH]; cbn [string_leb]; auto.
  now rewrite Nat.ltb_irrefl.
Qed.

Lemma string_leb_total a b : string_leb a b = true \/ string_leb b a = true.
Proof.
  revert b; induction a as [| x a IH]; intros [| y b]; cbn [string_leb]; auto.
  destruct (Nat.ltb (nat_of_ascii x) (nat_of_ascii y)) eqn:E1;
    destruct (Nat.ltb (nat_of_ascii y) (nat_of_ascii x)) eqn:E2; auto.
Qed.

Lemma string_leb_trans a b c :
  string_leb a b = true -> string_leb b c = true -> string_leb a c = true.
Proof.
  revert b c; induction a as [| x a IH]; intros [| y b] [| z c]; cbn [string_leb];
    auto; try discriminate.
  destruct (Nat.ltb (nat_of_ascii x) (nat_of_ascii y)) eqn:Exy;
    destruct (Nat.ltb (nat_of_ascii y) (nat_of_ascii x)) eqn:Eyx;
    destruct (Nat.ltb (nat_of_ascii y) (nat_of_ascii z)) eqn:Eyz;
    destruct (Nat.ltb (nat_of_ascii z) (nat_of_ascii y)) eqn:Ezy;
    destruct (Nat.ltb (nat_of_ascii x) (nat_of_ascii z)) eqn:Exz;
    destruct (Nat.ltb (nat_of_ascii z) (nat_of_ascii x)) eqn:Ezx;
    try discriminate; auto;
    repeat match goal with
           | E : Nat.ltb _ _ = true |- _ => apply Nat.ltb_lt in E
           | E : Nat.ltb _ _ = false |- _ => apply Nat.ltb_ge in E
           end; try lia.
  apply IH.
Qed.

Lemma greatest_none files : greatest files = None -> files = [].
Proof.
  destruct files as [| f rest]; auto. cbn.
  destruct (greatest rest) as [g |]; [destruct (string_leb g f) |]; discriminate.
Qed.

Lemma greatest_is_greatest files latest :
  greatest files = Some latest ->
  In latest files /\ forall f, In f files -> string_leb f latest = true.
Proof.
  revert latest; induction files as [| f rest IH]; intros latest; cbn; [discriminate |].
  destruct (greatest rest) as [g |] eqn:E.
  - destruct (IH g eq_refl) as [Hin Hmax].
    destruct (string_leb g f) eqn:Egf; intros [= ->].
    + split; auto. intros f' [<- | Hf']; [apply string_leb_refl |].
      eapply string_leb_trans; eauto.
    + split; auto. intros f' [<- | Hf']; auto.
      destruct (string_leb_total f latest) as [Hl | Hl]; auto. congruence.
  - intros [= ->]. apply greatest_none in E. subst rest.
    split; auto. intros f' [<- | []]. apply string_leb_refl.
Qed.

(** Prefixes and suffixes. *)
Lemma append_assoc (a b c : string) : (a ++ b) ++ c = a ++ (b ++ c).
Proof. induction a as [| x a IH]; cbn; congruence. Qed.

Lemma rev_string_acc s acc : rev_string s acc = rev_string s "" ++ acc.
Proof.
  revert acc; induction s as [| c s IH]; intros acc; cbn [rev_string]; auto.
  rewrite IH, (IH (String c "")), append_assoc. reflexivity.
Qed.

Lemma rev_string_append a b :
  rev_string (a ++ b) "" = rev_string b "" ++ rev_string a "".
Proof.
  induction a as [| c a IH]; cbn [append rev_string].
  - induction (rev_string b "") as [| x r IHr]; cbn; congruence.
  - rewrite rev_string_acc, IH, (rev_string_acc a (String c "")), append_assoc.
    reflexivity.
Qed.

Lemma starts_with_append p s : starts_with p (p ++ s) = true.
Proof.
  induction p as [| c p IH]; cbn [append starts_with]; auto.
  now rewrite Ascii.eqb_refl, IH.
Qed.

Lemma ends_with_append p s : ends_with p (s ++ p) = true.
Proof.
  unfold ends_with. rewrite rev_string_append. apply starts_with_append.
Qed.

Lemma starts_with_longer p s t :
  starts_with p s = true -> starts_with p (s ++ t) = true.
Proof.
  revert s; induction p as [| c p IH]; intros [| d s]; cbn [append starts_with];
    auto; try discriminate.
  intros Hp. apply andb_true_iff in Hp as [-> Hp]. now rewrite IH.
Qed.

Lemma ends_with_itself p : ends_with p p = true.
Proof.
  unfold ends_with. rewrite <- (append_empty (rev_string p "")) at 2.
  apply starts_with_append.
Qed.

Lemma ends_with_longer p a s :
  ends_with p s = true -> ends_with p (a ++ s) = true.
Proof.
  unfold ends_with. rewrite rev_string_append. apply starts_with_longer.
Qed.

Lemma includes_colon_cons c s :
  includes ":" (String c s) = (Ascii.eqb ":" c || includes ":" s)%bool.
Proof. cbn [includes starts_with]. now rewrite andb_true_r. Qed.

Lemma no_colon_append a b :
  includes ":" a = false -> includes ":" b = false -> includes ":" (a ++ b) = false.
Proof.
  intros Ha Hb. induction a as [| c a IH]; cbn [append]; auto.
  rewrite includes_colon_cons in *. apply orb_false_iff in Ha as [Hc Ha].
  now rewrite Hc, IH.
Qed.

Lemma dashed_has_no_colon s : includes ":" (dash_colons_and_dots s) = false.
Proof.
  induction s as [| c s IH]; [reflexivity |].
  cbn [dash_colons_and_dots]. rewrite includes_colon_cons, IH, orb_false_r.
  destruct (Ascii.eqb c ":") eqn:E; cbn [orb].
  - reflexivity.
  - destruct (Ascii.eqb c "."); [reflexivity |].
    rewrite Ascii.eqb_sym. exact E.
Qed.

Lemma capture_name_is_a_capture stamp :
  is_capture ("artwork_" ++ stamp ++ ".png") = true.
Proof.
  unfold is_capture. rewrite <- append_assoc, ends_with_append, andb_true_r.
  rewrite append_assoc. apply starts_with_append.
Qed.

Lemma art_name_is_art stamp : is_art ("art_" ++ stamp ++ ".png") = true.
Proof.
  unfold is_art. rewrite <- append_assoc, ends_with_append, andb_true_r.
  rewrite append_assoc. apply starts_with_append.
Qed.

Section Captures.
Context {World : Type} `{Facade World}.
Local Abbreviation M := (script World).

(** X15: [analyzeArtwork] works on the capture whose name sorts last, and on no
    other file; with no capture in the directory it fails without reading
    anything or asking the model. *)
Theorem analyzeArtwork_reads_the_latest_capture (focus : value)
  (files : list string) (w w1 : World) :
  perform (FsReaddir ".") w = (Ok files, w1) ->
  (filter is_capture files = [] ->
     VisionArtist.analyzeArtwork_execute focus w =
     (Ret (fail_result "No artwork captures found. Use captureArtwork first."), w1,
      [EvPrint "🔍 Analyzing artwork with AI vision...";
       EvCall (FsReaddir ".") None])) /\
  (filter is_capture files <> [] ->
     exists latest v w' evs,
       In latest files /\ is_capture latest = true /\
       (forall f, In f files -> is_capture f = true -> string_leb f latest = true) /\
       VisionArtist.analyzeArtwork_execute focus w = (Ret v, w', evs) /\
       files_read evs = [latest] /\
       (get "success" v = VBool true -> get "file" v = VStr latest)).
Proof.
  intros Hdir.
  assert (Hstart : forall k : list string -> M value,
    try_catch
      (bind (console_log "🔍 Analyzing artwork with AI vision...")
         (fun _ => bind (ext (FsReaddir ".")) k))
      (fun message => ret (fail_result message)) w =
    after [EvPrint "🔍 Analyzing artwork with AI vision..."; EvCall (FsReaddir ".") None]
      (try_catch (k files) (fun message => ret (fail_result message)) w1)).
  { intros k. rewrite !run_try, run_bind. cbn [console_log emit]. cbv beta iota.
    rewrite run_bind, (run_ext_ok _ _ Hdir). cbv beta iota.
    destruct (k files w1) as [[[v | thrown | code |] w2] ev2]; reflexivity. }
  unfold VisionArtist.analyzeArtwork_execute. rewrite Hstart. cbv zeta.
  change (fun f => (starts_with "artwork_" f && ends_with ".png" f)%bool) with is_capture.
  split.
  - intros Hnone. rewrite Hnone. reflexivity.
  - intros Hsome.
    destruct (greatest (filter is_capture files)) as [latest |] eqn:Elatest;
      [| apply greatest_none in Elatest; contradiction].
    destruct (greatest_is_greatest _ Elatest) as [Hin Hmax].
    apply filter_In in Hin as [Hin Hcap].
    exists latest.
    assert (Hmax' : forall f, In f files -> is_capture f = true ->
                              string_leb f latest = true).
    { intros f Hf Hc. apply Hmax, filter_In. auto. }
    rewrite run_try, run_bind.
    destruct (perform (FsReadFile latest) w1) as [[data | failure] w2] eqn:Eread.
    + rewrite (run_ext_ok _ _ Eread). cbv beta iota zeta. rewrite run_try, run_bind.
      destruct (perform (GenerateText
                  (VisionArtist.analysis_prompt (js_to_string focus) (base64 data))) w2)
        as [[analysis | visionError] w3] eqn:Emodel.
      * rewrite (run_ext_ok _ _ Emodel). eexists _, _, _.
        repeat split; eauto.
      * rewrite (run_ext_fail _ _ Emodel). eexists _, _, _.
        repeat split; eauto.
    + rewrite (run_ext_fail _ _ Eread). eexists _, _, _.
      split; [exact Hin |]. split; [exact Hcap |]. split; [exact Hmax' |].
      split; [reflexivity |]. split; [reflexivity |]. discriminate.
Qed.

(** X16: When the vision model fails, [analyzeArtwork] still answers success:
    it hands back a fixed technical assessment that ends with the model's
    error. *)
Theorem analyzeArtwork_falls_back_on_a_technical_note (focus : value)
  (files : list string) (latest : string) (data : list Z) (visionError : string)
  (w w1 w2 w3 : World) :
  perform (FsReaddir ".") w = (Ok files, w1) ->
  greatest (filter is_capture files) = Some latest ->
  perform (FsReadFile latest) w1 = (Ok data, w2) ->
  perform (GenerateText (VisionArtist.analysis_prompt (js_to_string focus) (base64 data)))
    w2 = (Fail visionError, w3) ->
  result_of (VisionArtist.analyzeArtwork_execute focus w) =
  Ret (VObj [("success", VBool true);
             ("message", VStr "Artwork analysis completed (technical mode)");
             ("analysis",
              VStr (VisionArtist.fallback_analysis latest
                      (round_div_1024 (Z.of_nat (List.length data))) visionError));
             ("file", VStr latest);
             ("focus", focus)]) /\
  ends_with ("Vision analysis error: " ++ visionError)
    (VisionArtist.fallback_analysis latest
       (round_div_1024 (Z.of_nat (List.length data))) visionError) = true.
Proof.
  intros Hdir Hlatest Hread Hmodel. split.
  - unfold VisionArtist.analyzeArtwork_execute.
    rewrite run_try, run_bind. cbn [console_log emit]. cbv beta iota.
    rewrite run_bind, (run_ext_ok _ _ Hdir). cbv beta iota zeta.
    change (fun f => (starts_with "artwork_" f && ends_with ".png" f)%bool)
      with is_capture.
    rewrite Hlatest, run_bind, (run_ext_ok _ _ Hread). cbv beta iota zeta.
    rewrite run_try, run_bind, (run_ext_fail _ _ Hmodel). reflexivity.
  - unfold VisionArtist.fallback_analysis.
    repeat first [apply ends_with_itself | apply ends_with_longer].
Qed.

(** X17: The capture [captureArtwork] saves is one [analyzeArtwork] will find:
    its name begins with "artwork_", ends with ".png" and holds no colon. *)
Theorem captured_artwork_is_found (purpose : value) (w w' : World) (v : value)
  (evs : list event) :
  VisionArtist.captureArtwork_execute purpose w = (Ret v, w', evs) ->
  get "success" v = VBool true ->
  exists filename,
    get "filename" (get "capture" v) = VStr filename /\
    files_written evs = [filename] /\
    is_capture filename = true /\
    includes ":" filename = false.
Proof.
  unfold VisionArtist.captureArtwork_execute.
  rewrite run_try, run_bind. cbn [console_log emit]. cbv beta iota.
  rewrite run_bind.
  destruct (perform CaptureScreen w) as [[screenshot | failure] w1] eqn:Eshot;
    [rewrite (run_ext_ok _ _ Eshot) | rewrite (run_ext_fail _ _ Eshot)];
    cbv beta iota; [| intros [= <- <- <-]; discriminate].
  rewrite run_bind.
  destruct (perform DateIso w1) as [[iso | failure] w2] eqn:Enow;
    [rewrite (run_ext_ok _ _ Enow) | rewrite (run_ext_fail _ _ Enow)];
    cbv beta iota zeta; [| intros [= <- <- <-]; discriminate].
  rewrite run_bind.
  destruct (perform (FsWriteFile ("artwork_" ++ dash_colons_and_dots iso ++ ".png")
                       (imageData screenshot)) w2)
    as [[[] | failure] w3] eqn:Ewrite;
    [rewrite (run_ext_ok _ _ Ewrite) | rewrite (run_ext_fail _ _ Ewrite)];
    cbv beta iota; intros [= <- <- <-]; [intros _ | discriminate].
  eexists. split; [reflexivity |]. split; [reflexivity |].
  split; [apply capture_name_is_a_capture |].
  apply (@no_colon_append "artwork_" (dash_colons_and_dots iso ++ ".png"));
    [reflexivity |].
  apply (@no_colon_append (dash_colons_and_dots iso) ".png");
    [apply dashed_has_no_colon | reflexivity].
Qed.

End Captures.

(** * The vision artist at work *)

Section VisionArtistAtWork.
Context {World : Type} `{Facade World}.
Context {flt : Type} `{JSMath flt}.
Local Abbreviation M := (script World).

(** X18: [drawShape] needs a canvas and nothing else: it answers success as soon
    as one of its three selectors gives a locator, whatever the mouse does
    afterwards; when none does, it answers the failure of the last one and
    the mouse is not touched. *)
Theorem drawShape_needs_only_a_canvas (shape x y size : value) (w : World) :
  let run := VisionArtist.drawShape_execute shape x y size w in
  let drawing :=
    EvPrint ("✏️ Drawing " ++ js_to_string shape ++ " at (" ++ js_to_string x
             ++ ", " ++ js_to_string y ++ ") with size " ++ js_to_string size
             ++ "...") in
  match perform (MkLocator "name:Canvas") w with
  | (Ok _, _) => succeeds run
  | (Fail first, w1) =>
      match perform (MkLocator "className:MSPaintView") w1 with
      | (Ok _, _) => succeeds run
      | (Fail second, w2) =>
          match perform (MkLocator "name:Paint") w2 with
          | (Ok _, _) => succeeds run
          | (Fail third, w3) =>
              run = (Ret (fail_result third), w3,
                     [drawing;
                      EvCall (MkLocator "name:Canvas") (Some first);
                      EvCall (MkLocator "className:MSPaintView") (Some second);
                      EvCall (MkLocator "name:Paint") (Some third)])
          end
      end
  end.
Proof.
  cbv zeta. unfold VisionArtist.drawShape_execute.
  rewrite run_try, run_bind. cbn [console_log emit]. cbv beta iota.
  rewrite run_bind.
  assert (Hdraw : forall (m : M value) w0 ev0,
             always (fun v => get "success" v = VBool true) m ->
             succeeds
               match after ev0 (m w0) with
               | (Throw msg, w1, ev1) => after ev1 (ret (fail_result msg) w1)
               | r => r
               end).
  { intros m w0 ev0 Ha. destruct (Ha w0) as (v & w' & evs & -> & Hv). cbn [after].
    exists v, w', (ev0 ++ evs)%list. auto. }
  assert (Hrest : forall canvas : Locator,
             always (fun v => get "success" v = VBool true)
               (bind
                  (if is_string shape "circle" then
                     VisionArtist.drawCircle canvas (toNumber x) (toNumber y)
                       (toNumber size)
                   else if is_string shape "square" then
                     VisionArtist.drawSquare canvas (toNumber x) (toNumber y)
                       (toNumber size)
                   else if is_string shape "star" then
                     VisionArtist.drawStar canvas (toNumber x) (toNumber y)
                       (toNumber size)
                   else if is_string shape "heart" then
                     VisionArtist.drawHeart canvas (toNumber x) (toNumber y)
                       (toNumber size)
                   else if is_string shape "triangle" then
                     VisionArtist.drawTriangle canvas (toNumber x) (toNumber y)
                       (toNumber size)
                   else if is_string shape "line" then
                     VisionArtist.drawLine canvas
                       (fsub (toNumber x) (fdiv (toNumber size) (of_Z 2))) (toNumber y)
                       (fadd (toNumber x) (fdiv (toNumber size) (of_Z 2))) (toNumber y)
                   else if is_string shape "spiral" then
                     VisionArtist.drawSpiral canvas (toNumber x) (toNumber y)
                       (toNumber size)
                   else
                     VisionArtist.drawCircle canvas (toNumber x) (toNumber y)
                       (toNumber size))
                  (fun _ =>
                     ret (VObj [("success", VBool true);
                                ("message",
                                 VStr ("Drew " ++ js_to_string shape ++ " at position ("
                                       ++ js_to_string x ++ ", " ++ js_to_string y
                                       ++ ") with size " ++ js_to_string size));
                                ("drawing",
                                 VObj [("shape", shape); ("x", x); ("y", y);
                                       ("size", size)])])))).
  { intros canvas.
    apply always_intro; [returns_auto; reflexivity | no_throw_auto | no_stop_auto]. }
  destruct (perform (MkLocator "name:Canvas") w) as [[canvas | first] w1] eqn:E1.
  { rewrite run_try, (run_ext_ok _ _ E1). cbv beta iota.
    rewrite after_after. apply Hdraw, Hrest. }
  destruct (perform (MkLocator "className:MSPaintView") w1) as [[canvas | second] w2]
    eqn:E2.
  { rewrite run_try, (run_ext_fail _ _ E1). cbv beta iota.
    rewrite run_try, (run_ext_ok _ _ E2). cbn [after]. cbv beta iota.
    rewrite after_after. apply Hdraw, Hrest. }
  destruct (perform (MkLocator "name:Paint") w2) as [[canvas | third] w3] eqn:E3.
  { rewrite run_try, (run_ext_fail _ _ E1). cbv beta iota.
    rewrite run_try, (run_ext_fail _ _ E2). cbv beta iota.
    rewrite (run_ext_ok _ _ E3). cbn [after]. cbv beta iota.
    rewrite after_after. apply Hdraw, Hrest. }
  rewrite run_try, (run_ext_fail _ _ E1). cbv beta iota.
  rewrite run_try, (run_ext_fail _ _ E2). cbv beta iota.
  rewrite (run_ext_fail _ _ E3). reflexivity.
Qed.

(** X19: [drawLine] asks the mouse for the drag from the first point to the
    second, rounded: a beginning of it always, and the whole of it when no
    call fails. *)
Theorem drawLine_replays_its_gesture (canvas : Locator) (x1 y1 x2 y2 : flt) (w : World) :
  replays (VisionArtist.drawLine canvas x1 y1 x2 y2 w)
    [rounded (x1, y1); rounded (x2, y2)].
Proof.
  unfold replays, VisionArtist.drawLine, rounded. cbn [fst snd gesture List.map app].
  rewrite run_try, run_bind.
  destruct (perform (MouseClickAndHold canvas (Math_round x1) (Math_round y1)) w)
    as [[[] | failure] w1] eqn:Epress;
    [rewrite (run_ext_ok _ _ Epress) | rewrite (run_ext_fail _ _ Epress)];
    cbv beta iota.
  - rewrite run_bind. cbn [sleep emit]. cbv beta iota. rewrite run_bind.
    destruct (perform (MouseMove canvas (Math_round x2) (Math_round y2)) w1)
      as [[[] | failure] w2] eqn:Emove;
      [rewrite (run_ext_ok _ _ Emove) | rewrite (run_ext_fail _ _ Emove)];
      cbv beta iota.
    + destruct (perform (MouseRelease canvas) w2) as [[[] | failure] w3] eqn:Erelease;
        [rewrite (run_ext_ok _ _ Erelease) | rewrite (run_ext_fail _ _ Erelease)];
        cbn.
      * split; [reflexivity |]. split; [exists 3%nat; reflexivity | reflexivity].
      * split; [reflexivity |]. split; [exists 3%nat; reflexivity | discriminate].
    + cbn. split; [reflexivity |]. split; [exists 2%nat; reflexivity | discriminate].
  - cbn. split; [reflexivity |]. split; [exists 1%nat; reflexivity | discriminate].
Qed.

Lemma createVerifiedArtwork_total (description : string) :
  total (VisionArtist.createVerifiedArtwork description).
Proof. apply total_intro; [no_throw_auto | no_stop_auto]. Qed.

(** X20: Once the desktop is created, vision-artist ends with status 0 whatever
    the command and whatever fails: an unknown command is reported, and
    nothing else is done for it. *)
Theorem vision_artist_always_ends_well (command : string) (rest : list string)
  (w w0 : World) :
  perform NewDesktop w = (Ok tt, w0) ->
  command <> "" ->
  (exists w' evs, VisionArtist.main (command :: rest) w = (Ret tt, w', evs)) /\
  (existsb (String.eqb command)
     ["create"; "demo"; "test-paint"; "test-draw"; "test-vision"] = false ->
   VisionArtist.main (command :: rest) w =
   (Ret tt, w0,
    [EvCall NewDesktop None;
     EvPrint "🎨 Initializing Vision AI Artist...";
     EvPrint "✅ Desktop automation engine initialized";
     EvPrint ("❌ Unknown command: " ++ command)])).
Proof.
  intros Hdesk Hcommand. apply String.eqb_neq in Hcommand.
  assert (Hrun : total (VisionArtist.runCommand command rest)).
  { unfold VisionArtist.runCommand.
    repeat match goal with
           | |- total (if ?b then _ else _) => destruct b
           end.
    - intros w1.
      destruct (createVerifiedArtwork_total
                  (if String.eqb (join " " rest) "" then "geometric abstract art"
                   else join " " rest) w1) as (v1 & w1' & evs1 & E1).
      cbv zeta. rewrite run_bind, E1. eexists _, _, _. reflexivity.
    - intros w1. rewrite run_bind. cbn [console_log emit]. cbv beta iota.
      destruct (createVerifiedArtwork_total
                  "colorful composition with stars and circles" w1)
        as (v1 & w1' & evs1 & E1).
      rewrite run_bind, E1. eexists _, _, _. reflexivity.
    - intros w1.
      destruct (testTool_total _ "openPaint" (VObj []) w1) as (v1 & w2 & ev1 & E1).
      destruct (testTool_total _ "setupBrush"
                  (VObj [("size", VStr "medium"); ("color", VStr "red")]) w2)
        as (v2 & w3 & ev2 & E2).
      rewrite run_bind, E1. cbv beta iota. rewrite run_bind, E2.
      eexists _, _, _. reflexivity.
    - intros w1.
      destruct (testTool_total _ "drawShape"
                  (VObj [("shape", VStr "star"); ("x", VNum 400); ("y", VNum 300);
                         ("size", VNum 60)]) w1) as (v1 & w2 & ev1 & E1).
      rewrite run_bind, E1. eexists _, _, _. reflexivity.
    - intros w1.
      destruct (testTool_total _ "captureArtwork"
                  (VObj [("purpose", VStr "test vision system")]) w1)
        as (v1 & w2 & ev1 & E1).
      destruct (testTool_total _ "analyzeArtwork"
                  (VObj [("focus", VStr "overall composition and colors")]) w2)
        as (v2 & w3 & ev2 & E2).
      rewrite run_bind, E1. cbv beta iota. rewrite run_bind, E2.
      eexists _, _, _. reflexivity.
    - intros w1. eexists _, _, _. reflexivity. }
  assert (Hmain : VisionArtist.main (command :: rest) w =
                  after [EvCall NewDesktop None;
                         EvPrint "🎨 Initializing Vision AI Artist...";
                         EvPrint "✅ Desktop automation engine initialized"]
                    (VisionArtist.runCommand command rest w0)).
  { unfold VisionArtist.main. rewrite run_bind, (run_ext_ok _ _ Hdesk). cbv beta iota.
    do 2 (rewrite run_bind; cbn [console_log emit]; cbv beta iota).
    rewrite Hcommand, run_try.
    destruct (Hrun w0) as ([] & w' & evs & ->). reflexivity. }
  split.
  - rewrite Hmain. destruct (Hrun w0) as ([] & w' & evs & ->).
    eexists _, _. reflexivity.
  - intros Hunknown. rewrite Hmain. unfold VisionArtist.runCommand.
    cbn [existsb] in Hunknown.
    repeat (apply orb_false_iff in Hunknown as [-> Hunknown]).
    reflexivity.
Qed.

End VisionArtistAtWork.

(** * The working artist *)

Section WorkingArtistSteps.
Context {World : Type} `{Facade World}.
Local Abbreviation M := (script World).

Lemma leaves_files_alone_bind A B (m : M A) (k : A -> M B) :
  leaves_files_alone m -> (forall a, leaves_files_alone (k a)) ->
  leaves_files_alone (bind m k).
Proof.
  intros Hm Hk w. destruct (Hm w) as (a & w1 & ev1 & E1 & Hw1 & Hr1).
  destruct (Hk a w1) as (b & w2 & ev2 & E2 & Hw2 & Hr2).
  exists b, w2, (ev1 ++ ev2)%list. rewrite run_bind, E1. cbv beta iota. rewrite E2.
  unfold files_written, files_read in *. rewrite !flat_map_app, Hw1, Hw2, Hr1, Hr2.
  auto.
Qed.

Lemma openPaint_leaves_files_alone : leaves_files_alone WorkingArtist.openPaint.
Proof.
  intros w. unfold WorkingArtist.openPaint.
  rewrite run_try, run_bind. cbn [console_log emit]. cbv beta iota. rewrite run_bind.
  destruct (perform (OpenApplication "mspaint") w) as [[app | failure] w1] eqn:E;
    [rewrite (run_ext_ok _ _ E) | rewrite (run_ext_fail _ _ E)];
    eexists _, _, _; split; try reflexivity; split; reflexivity.
Qed.

Lemma drawSomething_leaves_files_alone x1 y1 x2 y2 description :
  leaves_files_alone (WorkingArtist.drawSomething x1 y1 x2 y2 description).
Proof.
  intros w. unfold WorkingArtist.drawSomething.
  rewrite run_try, run_bind. cbn [console_log emit]. cbv beta iota. rewrite run_bind.
  destruct (perform (MkLocator "name:Paint") w) as [[paint | failure] w1] eqn:E1;
    [rewrite (run_ext_ok _ _ E1) | rewrite (run_ext_fail _ _ E1)]; cbv beta iota;
    [| eexists _, _, _; split; try reflexivity; split; reflexivity].
  rewrite run_bind.
  destruct (perform (MouseClickAndHold paint x1 y1) w1) as [[[] | failure] w2] eqn:E2;
    [rewrite (run_ext_ok _ _ E2) | rewrite (run_ext_fail _ _ E2)]; cbv beta iota;
    [| eexists _, _, _; split; try reflexivity; split; reflexivity].
  rewrite run_bind. cbn [sleep emit]. cbv beta iota. rewrite run_bind.
  destruct (perform (MouseMove paint x2 y2) w2) as [[[] | failure] w3] eqn:E3;
    [rewrite (run_ext_ok _ _ E3) | rewrite (run_ext_fail _ _ E3)]; cbv beta iota;
    [| eexists _, _, _; split; try reflexivity; split; reflexivity].
  rewrite run_bind.
  destruct (perform (MouseRelease paint) w3) as [[[] | failure] w4] eqn:E4;
    [rewrite (run_ext_ok _ _ E4) | rewrite (run_ext_fail _ _ E4)]; cbv beta iota;
    eexists _, _, _; split; try reflexivity; split; reflexivity.
Qed.

Lemma draw_for_leaves_files_alone description :
  leaves_files_alone (WorkingArtist.draw_for description).
Proof.
  unfold WorkingArtist.draw_for.
  repeat match goal with
         | |- leaves_files_alone (if ?b then _ else _) => destruct b
         end;
    try apply drawSomething_leaves_files_alone.
  repeat (apply leaves_files_alone_bind;
          [apply drawSomething_leaves_files_alone | intros ?]).
  intros w. eexists _, _, _. split; [reflexivity |]. split; reflexivity.
Qed.

Lemma takeScreenshot_saves_a_capture (w : World) :
  exists saved w' evs,
    WorkingArtist.takeScreenshot w = (Ret saved, w', evs) /\
    files_read evs = [] /\
    match saved with
    | Some filename => files_written evs = [filename] /\ is_capture filename = true
    | None => True
    end.
Proof.
  unfold WorkingArtist.takeScreenshot.
  rewrite run_try, run_bind. cbn [console_log emit]. cbv beta iota. rewrite run_bind.
  destruct (perform CaptureScreen w) as [[screenshot | failure] w1] eqn:E1;
    [rewrite (run_ext_ok _ _ E1) | rewrite (run_ext_fail _ _ E1)]; cbv beta iota;
    [| eexists None, _, _; split; [reflexivity |]; split; [reflexivity | exact I]].
  rewrite run_bind.
  destruct (perform DateNow w1) as [[now | failure] w2] eqn:E2;
    [rewrite (run_ext_ok _ _ E2) | rewrite (run_ext_fail _ _ E2)]; cbv beta iota zeta;
    [| eexists None, _, _; split; [reflexivity |]; split; [reflexivity | exact I]].
  rewrite run_bind.
  destruct (perform (FsWriteFile ("artwork_" ++ string_of_Z now ++ ".png")
                       (imageData screenshot)) w2) as [[[] | failure] w3] eqn:E3;
    [rewrite (run_ext_ok _ _ E3) | rewrite (run_ext_fail _ _ E3)]; cbv beta iota;
    [| eexists None, _, _; split; [reflexivity |]; split; [reflexivity | exact I]].
  eexists (Some _), _, _. split; [reflexivity |]. split; [reflexivity |].
  split; [reflexivity | apply capture_name_is_a_capture].
Qed.

Lemma analyzeArtwork_reads_its_file (filename : string) (w : World) :
  exists analysis w' evs,
    WorkingArtist.analyzeArtwork filename w = (Ret analysis, w', evs) /\
    files_written evs = [] /\ files_read evs = [filename].
Proof.
  unfold WorkingArtist.analyzeArtwork.
  rewrite run_try, run_bind. cbn [console_log emit]. cbv beta iota. rewrite run_bind.
  destruct (perform (FsReadFile filename) w) as [[data | failure] w1] eqn:E1;
    [rewrite (run_ext_ok _ _ E1) | rewrite (run_ext_fail _ _ E1)]; cbv beta iota;
    [| eexists _, _, _; split; try reflexivity; split; reflexivity].
  rewrite run_bind.
  destruct (perform (GenerateText (WorkingArtist.analysis_prompt (base64 data))) w1)
    as [[text | failure] w2] eqn:E2;
    [rewrite (run_ext_ok _ _ E2) | rewrite (run_ext_fail _ _ E2)]; cbv beta iota;
    eexists _, _, _; split; try reflexivity; split; reflexivity.
Qed.

(** X21: [createArt] always comes back, and hands back a file name only when it
    saved a screenshot: the name is that of the one file it wrote, a name
    the capture filter accepts, and the one file it read for the analysis. *)
Theorem createArt_returns_what_it_saved (description : string) (w : World) :
  exists made w' evs,
    WorkingArtist.createArt description w = (Ret made, w', evs) /\
    forall filename analysis,
      made = Some (filename, analysis) ->
      files_written evs = [filename] /\
      files_read evs = [filename] /\
      is_capture filename = true.
Proof.
  unfold WorkingArtist.createArt.
  do 2 (rewrite run_bind; cbn [console_log emit]; cbv beta iota).
  rewrite run_bind.
  destruct (openPaint_leaves_files_alone w) as (opened & w1 & ev1 & -> & Hw1 & Hr1).
  cbv beta iota.
  destruct opened; cbn [negb]; [| eexists _, _, _; split; [reflexivity | discriminate]].
  rewrite run_bind.
  destruct (draw_for_leaves_files_alone description w1)
    as (drawn & w2 & ev2 & -> & Hw2 & Hr2).
  cbv beta iota.
  destruct drawn; cbn [negb]; [| eexists _, _, _; split; [reflexivity | discriminate]].
  rewrite run_bind.
  destruct (takeScreenshot_saves_a_capture w2) as (saved & w3 & ev3 & -> & Hr3 & Hsaved).
  cbv beta iota.
  destruct saved as [filename |]; [| eexists _, _, _; split; [reflexivity | discriminate]].
  destruct Hsaved as [Hw3 Hcapture].
  rewrite run_bind.
  destruct (analyzeArtwork_reads_its_file filename w3)
    as (analysis & w4 & ev4 & -> & Hw4 & Hr4).
  eexists _, _, _. split; [reflexivity |].
  intros filename' analysis' [= <- <-].
  unfold files_written, files_read in *. cbn [flat_map app file_written file_read].
  rewrite !flat_map_app, Hw1, Hw2, Hw3, Hw4, Hr1, Hr2, Hr3, Hr4.
  cbn. auto.
Qed.

End WorkingArtistSteps.

(** * simple-agent and test-agent side by side *)

(** Running a script on both outcomes of every external call it makes. *)
Ltac ext_cases :=
  match goal with
  | |- context [ext ?c ?w] =>
      let E := fresh "E" in
      destruct (perform c w) as [[? | ?] ?] eqn:E;
      [rewrite (run_ext_ok _ _ E) | rewrite (run_ext_fail _ _ E)]
  end.

Ltac host_cases :=
  match goal with
  | |- context [host ?c ?w] =>
      let E := fresh "E" in
      destruct (perform c w) as [[[? | ? |] | ?] ?] eqn:E;
      [ rewrite (run_host_returned _ _ E)
      | rewrite (run_host_exited _ _ E)
      | rewrite (run_host_looping _ _ E)
      | rewrite (run_host_fail _ _ E) ]
  end.

Ltac run_all :=
  repeat first
    [ rewrite run_try
    | rewrite run_bind
    | progress cbn [console_log stdout_write sleep emit ret throw after]
    | progress cbv beta iota zeta
    | ext_cases
    | host_cases ].

Section SideBySide.
Context {World : Type} `{Facade World}.
Local Abbreviation M := (script World).

Lemma silent_ret A (a : A) : silent (ret a : M A).
Proof. intros w; reflexivity. Qed.

Lemma silent_ext A (c : call A) : silent (ext c).
Proof. intros w; unfold ext. now destruct (perform c w) as [[a | failure] w1]. Qed.

Lemma silent_bind A B (m : M A) (k : A -> M B) :
  silent m -> (forall a, silent (k a)) -> silent (bind m k).
Proof.
  intros Hm Hk w. rewrite run_bind. specialize (Hm w).
  destruct (m w) as [[[a | thrown | code |] w1] ev1]; auto.
  specialize (Hk a w1). rewrite events_of_after.
  unfold unprinted in *. cbn [events_of snd] in Hm. rewrite filter_app, Hm.
  now rewrite Hk.
Qed.

Lemma describing_is_silent (els : list Element) :
  silent (mapM SimpleAgent.describe_element els : M (list value)).
Proof.
  induction els as [| el els IH]; cbn [mapM]; [apply silent_ret |].
  apply silent_bind.
  - unfold SimpleAgent.describe_element.
    repeat (apply silent_bind; [apply silent_ext | intros ?]). apply silent_ret.
  - intros v. apply silent_bind; [exact IH | intros vs; apply silent_ret].
Qed.

(** X22: A tool of test-agent is the tool of simple-agent with progress lines:
    the same answer, the same world afterwards, and the same calls in the
    same order. *)
Theorem test_agent_tools_do_what_simple_agent_tools_do (i : SimpleAgent.invocation)
  (w : World) :
  let quiet := SimpleAgent.execute i w in
  let telling := TestAgent.execute (same_tool i) w in
  result_of telling = result_of quiet /\
  world_after telling = world_after quiet /\
  unprinted (events_of telling) = events_of quiet.
Proof.
  cbv zeta. destruct i; cbn [same_tool SimpleAgent.execute TestAgent.execute].
  - unfold SimpleAgent.screenshot_execute, TestAgent.screenshot_execute.
    destruct withOCR; run_all; repeat split; reflexivity.
  - unfold SimpleAgent.clickElement_execute, TestAgent.clickElement_execute.
    run_all; repeat split; reflexivity.
  - unfold SimpleAgent.findElements_execute, TestAgent.findElements_execute.
    change TestAgent.describe_element with SimpleAgent.describe_element.
    run_all; try (repeat split; reflexivity).
    match goal with
    | |- context [mapM SimpleAgent.describe_element ?l ?w0] =>
        pose proof (describing_is_silent l w0) as Hquiet;
        destruct (mapM SimpleAgent.describe_element l w0)
          as [[[details | thrown | code |] w2] ev2]
    end;
      cbn [events_of snd] in Hquiet; cbn; unfold unprinted in *;
      rewrite ?filter_app, Hquiet; repeat split; reflexivity.
  - unfold SimpleAgent.openApp_execute, TestAgent.openApp_execute.
    run_all; repeat split; reflexivity.
  - unfold SimpleAgent.typeText_execute, TestAgent.typeText_execute.
    run_all; repeat split; reflexivity.
  - unfold SimpleAgent.calculate_execute, TestAgent.calculate_execute.
    run_all; try (repeat split; reflexivity);
      match goal with
      | result : value |- _ => destruct result
      end;
      cbn [method_toString template_of];
      try match goal with
          | |- context [primitive ?v] => destruct (primitive v)
          end;
      run_all; repeat split; reflexivity.
  - unfold SimpleAgent.runCommand_execute, TestAgent.runCommand_execute.
    run_all; repeat split; reflexivity.
Qed.

End SideBySide.

(** * Scripts that run to their end *)

Section RunToTheEnd.
Context {World : Type} `{Facade World}.
Local Abbreviation M := (script World).

Lemma no_throw_forM A (body : A -> M unit) l :
  (forall a, no_throw (body a)) -> no_throw (forM l body).
Proof.
  intros Hbody; induction l as [| a l IH]; cbn [forM].
  - apply no_throw_ret.
  - apply no_throw_bind; auto.
Qed.

(** X23: Once the desktop is created, working-artist runs to its end with status
    0, whatever its argument and whatever fails on the way. *)
Theorem working_artist_always_ends_well (args : list string) (w w0 : World) :
  perform NewDesktop w = (Ok tt, w0) ->
  exists w' evs, WorkingArtist.main args w = (Ret tt, w', evs).
Proof.
  intros Hdesk. unfold WorkingArtist.main. erewrite bind_ext_ok by exact Hdesk.
  match goal with
  | |- context [after _ (?m w0)] =>
      assert (Hrest : total m)
        by (apply total_intro;
            [ repeat first [apply no_throw_forM; intros ? | no_throw_step]
            | no_stop_auto ])
  end.
  destruct (Hrest w0) as ([] & w' & evs & ->). eexists _, _. reflexivity.
Qed.

(** What the tools of the simple vision artist hand to [test]: an object
    whose [analysis], when there is one, is a string. *)
Lemma simple_artist_answers (i : SimpleVisionArtist.invocation) :
  always (fun v => text_or_absent (get "analysis" v)) (SimpleVisionArtist.execute i).
Proof.
  destruct i; cbn [SimpleVisionArtist.execute];
    (apply always_intro;
     [ returns_auto; first [left; reflexivity | right; eexists; reflexivity]
     | no_throw_auto | no_stop_auto ]).
Qed.

Lemma simple_artist_test_total : total (SimpleVisionArtistCli.test : M unit).
Proof.
  intros w. unfold SimpleVisionArtistCli.test, SimpleVisionArtistCli.report.
  do 2 (rewrite run_bind; cbn [console_log emit]; cbv beta iota).
  destruct (simple_artist_answers SimpleVisionArtist.OpenPaint w)
    as (r1 & w1 & ev1 & E1 & _). cbn [SimpleVisionArtist.execute] in E1.
  rewrite run_bind, E1. cbv beta iota.
  do 2 (rewrite run_bind; cbn [console_log emit]; cbv beta iota).
  destruct (simple_artist_answers
              (SimpleVisionArtist.DrawOnCanvas 300 200 500 300 "test line") w1)
    as (r2 & w2 & ev2 & E2 & _). cbn [SimpleVisionArtist.execute] in E2.
  rewrite run_bind, E2. cbv beta iota.
  do 2 (rewrite run_bind; cbn [console_log emit]; cbv beta iota).
  destruct (simple_artist_answers
              (SimpleVisionArtist.TakeScreenshot (Some "test capture")) w2)
    as (r3 & w3 & ev3 & E3 & _). cbn [SimpleVisionArtist.execute] in E3.
  rewrite run_bind, E3. cbv beta iota.
  rewrite run_bind; cbn [console_log emit]; cbv beta iota.
  rewrite run_bind.
  destruct (truthy (get "success" r3)); [| eexists _, _, _; reflexivity].
  rewrite run_bind; cbn [console_log emit]; cbv beta iota.
  destruct (simple_artist_answers
              (SimpleVisionArtist.AnalyzeScreenshot (Some "What did I just draw?")) w3)
    as (r4 & w4 & ev4 & E4 & Hanalysis). cbn [SimpleVisionArtist.execute] in E4.
  rewrite run_bind, E4. cbv beta iota.
  rewrite run_bind; cbn [console_log emit]; cbv beta iota.
  destruct (truthy (get "success" r4)); cbn [andb];
    [| eexists _, _, _; reflexivity].
  destruct Hanalysis as [-> | [text ->]]; cbn [truthy];
    [eexists _, _, _; reflexivity |].
  destruct (negb (String.eqb text "")); eexists _, _, _; reflexivity.
Qed.

(** X24: Once the desktop is created, the simple vision artist runs to its end
    with status 0, whatever the command and whatever fails. *)
Theorem simple_artist_always_ends_well (command : string) (rest : list string)
  (w w0 : World) :
  perform NewDesktop w = (Ok tt, w0) ->
  command <> "" ->
  exists w' evs, SimpleVisionArtistCli.main (command :: rest) w = (Ret tt, w', evs).
Proof.
  intros Hdesk Hcommand. apply String.eqb_neq in Hcommand.
  unfold SimpleVisionArtistCli.main. erewrite bind_ext_ok by exact Hdesk.
  do 2 (rewrite run_bind; cbn [console_log emit]; cbv beta iota).
  rewrite Hcommand.
  destruct (String.eqb command "create").
  - match goal with
    | |- context [SimpleVisionArtistCli.createArt ?d w0] =>
        assert (Hcreate : total (SimpleVisionArtistCli.createArt d : M unit))
          by (apply total_intro; [no_throw_auto | no_stop_auto]);
        destruct (Hcreate w0) as ([] & w' & evs & ->)
    end.
    eexists _, _. reflexivity.
  - destruct (String.eqb command "test").
    + destruct (simple_artist_test_total w0) as ([] & w' & evs & ->).
      eexists _, _. reflexivity.
    + eexists _, _. reflexivity.
Qed.

End RunToTheEnd.

(** * The simple vision artist's screenshots *)

Section Screenshots.
Context {World : Type} `{Facade World}.
Local Abbreviation M := (script World).

(** X25: The screenshot [takeScreenshot] saves is one [analyzeScreenshot] will
    find: its name begins with "art_" and ends with ".png"; it is not taken
    for a capture of the vision artist. *)
Theorem saved_screenshot_is_found (reason : option string) (w w' : World) (v : value)
  (evs : list event) :
  SimpleVisionArtist.takeScreenshot_execute reason w = (Ret v, w', evs) ->
  get "success" v = VBool true ->
  exists filename,
    get "filename" v = VStr filename /\
    files_written evs = [filename] /\
    is_art filename = true /\
    is_capture filename = false.
Proof.
  unfold SimpleVisionArtist.takeScreenshot_execute. cbv zeta.
  rewrite run_try, run_bind. cbn [console_log emit]. cbv beta iota.
  rewrite run_bind.
  destruct (perform CaptureScreen w) as [[screenshot | failure] w1] eqn:Eshot;
    [rewrite (run_ext_ok _ _ Eshot) | rewrite (run_ext_fail _ _ Eshot)];
    cbv beta iota; [| intros [= <- <- <-]; discriminate].
  rewrite run_bind.
  destruct (perform DateNow w1) as [[now | failure] w2] eqn:Enow;
    [rewrite (run_ext_ok _ _ Enow) | rewrite (run_ext_fail _ _ Enow)];
    cbv beta iota zeta; [| intros [= <- <- <-]; discriminate].
  rewrite run_bind.
  destruct (perform (FsWriteFile ("art_" ++ string_of_Z now ++ ".png")
                       (imageData screenshot)) w2)
    as [[[] | failure] w3] eqn:Ewrite;
    [rewrite (run_ext_ok _ _ Ewrite) | rewrite (run_ext_fail _ _ Ewrite)];
    cbv beta iota; intros [= <- <- <-]; [intros _ | discriminate].
  eexists. split; [reflexivity |]. split; [reflexivity |].
  split; [apply art_name_is_art | reflexivity].
Qed.

(** X26: [analyzeScreenshot] works on the screenshot whose name sorts last, and
    on no other file; with no screenshot in the directory it fails without
    reading anything or asking the model, and a request the model fails
    makes it fail with the model's message. *)
Theorem analyzeScreenshot_reads_the_latest_screenshot (question : option string)
  (files : list string) (w w1 : World) :
  perform (FsReaddir ".") w = (Ok files, w1) ->
  (filter is_art files = [] ->
     SimpleVisionArtist.analyzeScreenshot_execute question w =
     (Ret (fail_result "No screenshots found. Take a screenshot first."), w1,
      [EvPrint "🔍 Analyzing screenshot...";
       EvCall (FsReaddir ".") None])) /\
  (filter is_art files <> [] ->
     exists latest v w' evs,
       In latest files /\ is_art latest = true /\
       (forall f, In f files -> is_art f = true -> string_leb f latest = true) /\
       SimpleVisionArtist.analyzeScreenshot_execute question w = (Ret v, w', evs) /\
       files_read evs = [latest] /\
       (get "success" v = VBool true -> get "file" v = VStr latest) /\
       (forall failure, In (Some failure) (List.map snd (model_requests evs)) ->
                        v = fail_result failure)).
Proof.
  intros Hdir.
  assert (Hstart : forall k : list string -> M value,
    try_catch
      (bind (console_log "🔍 Analyzing screenshot...")
         (fun _ => bind (ext (FsReaddir ".")) k))
      (fun message => ret (fail_result message)) w =
    after [EvPrint "🔍 Analyzing screenshot..."; EvCall (FsReaddir ".") None]
      (try_catch (k files) (fun message => ret (fail_result message)) w1)).
  { intros k. rewrite !run_try, run_bind. cbn [console_log emit]. cbv beta iota.
    rewrite run_bind, (run_ext_ok _ _ Hdir). cbv beta iota.
    destruct (k files w1) as [[[v | thrown | code |] w2] ev2]; reflexivity. }
  unfold SimpleVisionArtist.analyzeScreenshot_execute. cbv zeta. rewrite Hstart.
  change (fun f => (starts_with "art_" f && ends_with ".png" f)%bool) with is_art.
  split.
  - intros Hnone. rewrite Hnone. reflexivity.
  - intros Hsome.
    destruct (greatest (filter is_art files)) as [latest |] eqn:Elatest;
      [| apply greatest_none in Elatest; contradiction].
    destruct (greatest_is_greatest _ Elatest) as [Hin Hmax].
    apply filter_In in Hin as [Hin Hart].
    exists latest.
    assert (Hmax' : forall f, In f files -> is_art f = true ->
                              string_leb f latest = true).
    { intros f Hf Hc. apply Hmax, filter_In. auto. }
    rewrite run_try, run_bind.
    destruct (perform (FsReadFile latest) w1) as [[data | failure] w2] eqn:Eread.
    + rewrite (run_ext_ok _ _ Eread). cbv beta iota zeta. rewrite run_bind.
      match goal with
      | |- context [ext (GenerateText ?p) w2] =>
          destruct (perform (GenerateText p) w2) as [[text | failure] w3] eqn:Emodel;
          [rewrite (run_ext_ok _ _ Emodel) | rewrite (run_ext_fail _ _ Emodel)]
      end.
      * eexists _, _, _. repeat split; eauto. intros failure [[=] | []].
      * eexists _, _, _. repeat split; eauto; try discriminate.
        intros failure' [[= <-] | []]. reflexivity.
    + rewrite (run_ext_fail _ _ Eread). eexists _, _, _.
      split; [exact Hin |]. split; [exact Hart |]. split; [exact Hmax' |].
      split; [reflexivity |]. split; [reflexivity |]. split; [discriminate |].
      intros failure' [].
Qed.

End Screenshots.

(** * The chat of simple-agent *)

Section SimpleAgentChatting.
Context {World : Type} `{Facade World}.
Local Abbreviation M := (script World).


End SimpleAgentChatting.

(** * Commands that cannot break the loop *)

Section SturdyCommands.
Context {World : Type} `{Facade World}.
Local Abbreviation M := (script World).

Lemma always_bind A B (P : A -> Prop) (Q : B -> Prop) (m : M A) (k : A -> M B) :
  always P m -> (forall a, P a -> always Q (k a)) -> always Q (bind m k).
Proof.
  intros Hm Hk w. destruct (Hm w) as (a & w1 & ev1 & E1 & Ha).
  destruct (Hk a Ha w1) as (b & w2 & ev2 & E2 & Hb).
  exists b, w2, (ev1 ++ ev2)%list. rewrite run_bind, E1. cbv beta iota. rewrite E2.
  auto.
Qed.

Lemma total_always A (m : M A) : total m -> always (fun _ => True) m.
Proof. intros Hm w. destruct (Hm w) as (a & w' & evs & E). eauto 6. Qed.

Lemma always_total A (P : A -> Prop) (m : M A) : always P m -> total m.
Proof. intros Hm w. destruct (Hm w) as (a & w' & evs & E & _). eauto. Qed.

Lemma ai_described_are_listable (els : list Element) :
  returns (Forall (fun el => exists fields,
                       el = VObj fields /\ text_or_absent (get "text" el)))
    (mapM AiAgent.describe_element els : M (list value)).
Proof.
  induction els as [| el els IH]; cbn [mapM].
  - apply returns_ret. constructor.
  - eapply returns_bind_with
      with (Q := fun v => exists fields,
                     v = VObj fields /\ text_or_absent (get "text" v)).
    + unfold AiAgent.describe_element. returns_auto.
      eexists; split; [reflexivity | right; eexists; reflexivity].
    + intros v Hv. eapply returns_bind_with; [exact IH |].
      intros vs Hvs. apply returns_ret. now constructor.
Qed.

Lemma apps_described_are_objects (apps : list Element) :
  returns (Forall (fun app => exists fields, app = VObj fields))
    (mapM AiAgent.describe_app apps : M (list value)).
Proof.
  induction apps as [| app apps IH]; cbn [mapM].
  - apply returns_ret. constructor.
  - eapply returns_bind_with with (Q := fun v => exists fields, v = VObj fields).
    + unfold AiAgent.describe_app. returns_auto. eexists; reflexivity.
    + intros v Hv. eapply returns_bind_with; [exact IH |].
      intros vs Hvs. apply returns_ret. now constructor.
Qed.

Lemma show_found_all_total items i :
  Forall (fun el => exists fields, el = VObj fields /\ text_or_absent (get "text" el))
    items ->
  total (AiAgent.show_all AiAgent.show_found i items : M unit).
Proof.
  intros Hall; revert i; induction Hall as [| el items (fields & -> & Htext) _ IH];
    intros i; cbn [AiAgent.show_all].
  - intros w; eexists _, _, _; reflexivity.
  - intros w. rewrite run_bind.
    assert (Hone : total (AiAgent.show_found i (VObj fields) : M unit)).
    { unfold AiAgent.show_found. cbn [prop].
      destruct Htext as [-> | [text ->]]; cbn [truthy method_substring];
        apply total_intro; no_throw_auto; no_stop_auto. }
    destruct (Hone w) as ([] & w1 & ev1 & ->). cbv beta iota.
    destruct (IH (S i) w1) as ([] & w2 & ev2 & ->). eexists _, _, _; reflexivity.
Qed.

Lemma show_app_all_total items i :
  Forall (fun app => exists fields, app = VObj fields) items ->
  total (AiAgent.show_all AiAgent.show_app i items : M unit).
Proof.
  intros Hall; revert i; induction Hall as [| app items [fields ->] _ IH];
    intros i; cbn [AiAgent.show_all].
  - intros w; eexists _, _, _; reflexivity.
  - intros w. rewrite run_bind.
    assert (Hone : total (AiAgent.show_app i (VObj fields) : M unit)).
    { unfold AiAgent.show_app. cbn [prop]. apply total_intro; no_throw_auto; no_stop_auto. }
    destruct (Hone w) as ([] & w1 & ev1 & ->). cbv beta iota.
    destruct (IH (S i) w1) as ([] & w2 & ev2 & ->). eexists _, _, _; reflexivity.
Qed.

Lemma show_entries_total entries i :
  total (AiAgent.show_entries i entries : M unit).
Proof.
  revert i; induction entries as [| e entries IH]; intros i; cbn [AiAgent.show_entries].
  - intros w; eexists _, _, _; reflexivity.
  - intros w. rewrite run_bind.
    assert (Hone : total (AiAgent.show_entry i e : M unit)).
    { destruct e; apply total_intro; no_throw_auto; no_stop_auto. }
    destruct (Hone w) as ([] & w1 & ev1 & ->). cbv beta iota.
    destruct (IH (S i) w1) as ([] & w2 & ev2 & ->). eexists _, _, _; reflexivity.
Qed.

(** What the tools hand to the commands that list what they found. *)
Lemma screenshot_for_the_command :
  always (fun v => text_or_absent (get "ocrText" v))
    (AiAgent.screenshot_execute true None).
Proof.
  intros w. unfold AiAgent.screenshot_execute. cbn [given].
  run_all; eexists _, _, _; (split; [reflexivity |]);
    first [left; reflexivity | right; eexists; reflexivity].
Qed.

Lemma find_for_the_command (selector : string) (limit : Z) :
  always (fun v =>
            truthy (get "error" v) = true \/
            exists items,
              get "elements" v = VArr items /\
              Forall (fun el => exists fields,
                          el = VObj fields /\ text_or_absent (get "text" el)) items)
    (AiAgent.findElements_execute selector limit).
Proof.
  apply always_intro; [| no_throw_auto | no_stop_auto].
  unfold AiAgent.findElements_execute.
  apply returns_try; [| intros ?; apply returns_ret; left; reflexivity].
  do 2 (apply returns_bind; intros ?). cbv zeta.
  eapply returns_bind_with; [apply ai_described_are_listable |].
  intros details Hd. apply returns_ret. right. exists details. split; [reflexivity | exact Hd].
Qed.

Lemma app_for_the_command (action : string) (appName : option string) :
  always (fun v =>
            truthy (get "error" v) = true \/
            (action = "list" ->
             exists items,
               get "applications" v = VArr items /\
               Forall (fun app => exists fields, app = VObj fields) items))
    (AiAgent.appControl_execute action appName).
Proof.
  apply always_intro; [| no_throw_auto | no_stop_auto].
  unfold AiAgent.appControl_execute.
  apply returns_try; [| intros ?; apply returns_ret; left; reflexivity].
  destruct (String.eqb action "launch") eqn:Elaunch.
  { apply String.eqb_eq in Elaunch. subst action.
    returns_auto; first [left; reflexivity | right; discriminate]. }
  destruct (String.eqb action "list") eqn:Elist.
  { apply returns_bind; intros apps.
    eapply returns_bind_with; [apply apps_described_are_objects |].
    intros described Hd. apply returns_ret. right. intros _.
    exists described. split; [reflexivity | exact Hd]. }
  apply String.eqb_neq in Elist.
  returns_auto; first [left; reflexivity | right; intros E; contradiction].
Qed.

(** X28: Every command other than [files], the chat and [calc] comes back to
    the prompt whatever the desktop, the disk and the model answer: a
    failure is printed, never thrown.  ([calc] runs the user's expression
    inside the process, which may end it.) *)
Theorem commands_come_back_to_the_prompt (fuel : nat) (name : string)
  (run : AiAgent.handler) (args : list string) (history : list AiAgent.entry)
  (w : World) :
  own_property (AiAgent.commands fuel) name = Some run ->
  name <> "files" -> name <> "chat" -> name <> "calc" ->
  exists history' w' evs, run args history w = (Ret history', w', evs).
Proof.
  intros Hown Hfiles Hchat Hcalc.
  assert (Hplain : forall m : M (list AiAgent.entry),
             no_throw m -> no_stop m ->
             exists history' w' evs, m w = (Ret history', w', evs)).
  { intros m Ht He. exact (total_intro Ht He w). }
  which_command Hown; try contradiction.
  - (* help *) apply Hplain; [no_throw_auto | no_stop_auto].
  - (* screenshot *)
    unfold AiAgent.screenshot_command.
    rewrite run_bind. cbn [spinner_start emit]. cbv beta iota. rewrite run_bind.
    destruct (screenshot_for_the_command w) as (v & w1 & ev1 & -> & Hv).
    cbv beta iota. rewrite run_bind. cbn [spinner_stop emit]. cbv beta iota.
    match goal with
    | |- context [after _ (?m w1)] =>
        assert (Hrest : total m)
    end.
    { unfold AiAgent.report_or.
      destruct Hv as [-> | [text ->]]; cbn [truthy method_substring];
        apply total_intro; no_throw_auto; no_stop_auto. }
    destruct (Hrest w1) as (h' & w2 & ev2 & ->). eexists _, _, _; reflexivity.
  - (* click *) apply Hplain; [no_throw_auto | no_stop_auto].
  - (* find *)
    unfold AiAgent.find_command.
    destruct (negb (given (AiAgent.arg 0 args)));
      [apply Hplain; [no_throw_auto | no_stop_auto] |].
    cbv zeta.
    rewrite run_bind. cbn [spinner_start emit]. cbv beta iota. rewrite run_bind.
    destruct (find_for_the_command (text_of (AiAgent.arg 0 args)) 10 w)
      as (v & w1 & ev1 & -> & Hv).
    cbv beta iota. rewrite run_bind. cbn [spinner_stop emit]. cbv beta iota.
    match goal with
    | |- context [after _ (?m w1)] =>
        assert (Hrest : total m)
    end.
    { unfold AiAgent.report_or.
      destruct Hv as [-> | (items & -> & Hitems)].
      - apply total_intro; no_throw_auto; no_stop_auto.
      - destruct (truthy (get "error" v));
          [apply total_intro; no_throw_auto; no_stop_auto |].
        intros w0. rewrite run_bind, run_bind. cbn [console_log emit items_of].
        cbv beta iota. rewrite run_bind. cbn [ret]. cbv beta iota.
        destruct (show_found_all_total 0 Hitems w0) as ([] & w2 & ev2 & ->).
        eexists _, _, _; reflexivity. }
    destruct (Hrest w1) as (h' & w2 & ev2 & ->). eexists _, _, _; reflexivity.
  - (* app *)
    unfold AiAgent.app_command.
    destruct (negb (given (AiAgent.arg 0 args)));
      [apply Hplain; [no_throw_auto | no_stop_auto] |].
    cbv zeta.
    rewrite run_bind. cbn [spinner_start emit]. cbv beta iota. rewrite run_bind.
    destruct (app_for_the_command (text_of (AiAgent.arg 0 args))
                (AiAgent.arg 1 args) w) as (v & w1 & ev1 & -> & Hv).
    cbv beta iota. rewrite run_bind. cbn [spinner_stop emit]. cbv beta iota.
    match goal with
    | |- context [after _ (?m w1)] =>
        assert (Hrest : total m)
    end.
    { unfold AiAgent.report_or.
      destruct Hv as [-> | Hlist];
        [apply total_intro; no_throw_auto; no_stop_auto |].
      destruct (truthy (get "error" v));
        [apply total_intro; no_throw_auto; no_stop_auto |].
      destruct (String.eqb (text_of (AiAgent.arg 0 args)) "list") eqn:Elist;
        [| apply total_intro; no_throw_auto; no_stop_auto].
      apply String.eqb_eq in Elist. destruct (Hlist Elist) as (items & -> & Hitems).
      intros w0. rewrite run_bind, run_bind. cbn [console_log emit items_of].
      cbv beta iota. rewrite run_bind. cbn [ret]. cbv beta iota.
      destruct (show_app_all_total 0 Hitems w0) as ([] & w2 & ev2 & ->).
      eexists _, _, _; reflexivity. }
    destruct (Hrest w1) as (h' & w2 & ev2 & ->). eexists _, _, _; reflexivity.
  - (* ocr *) apply Hplain; [no_throw_auto | no_stop_auto].
  - (* type *) apply Hplain; [no_throw_auto | no_stop_auto].
  - (* web *) apply Hplain; [no_throw_auto | no_stop_auto].
  - (* run *) apply Hplain; [no_throw_auto | no_stop_auto].
  - (* think *) apply Hplain; [no_throw_auto | no_stop_auto].
  - (* history *)
    unfold AiAgent.history_command. destruct history as [| e history'].
    + eexists _, _, _; reflexivity.
    + rewrite run_bind. cbn [console_log emit]. cbv beta iota. rewrite run_bind.
      destruct (show_entries_total (e :: history') 0 w) as ([] & w1 & ev1 & ->).
      eexists _, _, _; reflexivity.
  - (* clear *) eexists _, _, _; reflexivity.
Qed.

(** [calc] throws nothing either, and comes back unless the expression it
    evaluates ends the process or never returns. *)
Lemma calc_command_unless_stopped (args : list string) (history : list AiAgent.entry) :
  unless_stopped (fun _ => True) (AiAgent.calc_command args history : M _).
Proof.
  apply unless_stopped_intro; [returns_auto; exact I | no_throw_auto | stops_auto].
Qed.

End SturdyCommands.

(** * The properties on the desk and in the studio *)

(** [click] with no selector, on a desk with seven buttons. *)
Lemma test_agent_missing_argument_witness :
  TestAgent.missing [] = true /\
  exists what,
    TestAgent.executeCommand (H := desk_facade) "click" [] seven_buttons =
    (Exit 1, seven_buttons, [EvPrint ("❌ Please provide " ++ what)]).
Proof.
  split; [reflexivity |].
  apply (@test_agent_missing_argument desk desk_facade "click" [] seven_buttons);
    [left; reflexivity | reflexivity].
Defined.

Lemma test_agent_unknown_command_witness :
  TestAgent.main (H := desk_facade) ["dance"; "now"] seven_buttons =
  (Exit 1, seven_buttons,
   [EvCall NewDesktop None;
    EvPrint "🤖 Initializing Desktop automation engine";
    EvPrint "✅ Desktop automation engine initialized";
    EvPrint ("❌ Unknown command: " ++ "dance")]).
Proof.
  refine (proj1 (@test_agent_unknown_command desk desk_facade "dance" ["now"]
                   seven_buttons seven_buttons eq_refl eq_refl) _).
  discriminate.
Defined.

(** An empty first argument is no unknown command: the usage is printed. *)
Example empty_command_gets_the_usage :
  result_of (TestAgent.main (H := desk_facade) [""; "now"] seven_buttons) = Exit 0.
Proof. reflexivity. Qed.

(** [click name:Seven] on an empty desk ends with status 1. *)
Lemma test_agent_status_follows_result_witness :
  exists v w1 evs shown,
    TestAgent.select (H := desk_facade) "click" ["name:Seven"] empty_desk
    = (Ret v, w1, evs) /\
    TestAgent.executeCommand (H := desk_facade) "click" ["name:Seven"] empty_desk =
      ((if truthy (get "success" v) then Ret tt else Exit 1), w1, (evs ++ shown)%list) /\
    (truthy (get "success" v) = false ->
     shown = [EvPrint ("❌ " ++ js_to_string (get "error" v))]) /\
    (truthy (get "success" v) = true ->
     exists rest, shown = EvPrint ("✅ " ++ js_to_string (get "message" v)) :: rest).
Proof.
  apply (@test_agent_status_follows_result desk desk_facade "click" ["name:Seven"]
           empty_desk); [right; left; reflexivity | right; reflexivity].
Defined.

(** [calc process.exit(7)] in the studio: the status is the one the
    expression chose; an expression that loops
    leaves the process without a status; an object that cannot be converted
    is an invalid expression. *)
Example calc_can_end_the_process :
  TestAgent.main (H := studio_facade) ["calc"; "process.exit(7)"]
    (in_studio empty_desk []) =
  (Exit 7, in_studio empty_desk [],
   [EvCall NewDesktop None;
    EvPrint "🤖 Initializing Desktop automation engine";
    EvPrint "✅ Desktop automation engine initialized";
    EvPrint "🧮 Calculating process.exit(7)...";
    EvCall (EvalJs (strict_return "process.exit(7)")) None]).
Proof. reflexivity. Qed.

Example calc_can_loop_for_ever :
  let run :=
    TestAgent.main (H := studio_facade) ["calc"; "(() => { while (true) {} })()"]
      (in_studio empty_desk []) in
  result_of run = Hang /\ TestAgent.exit_code run = None.
Proof. split; reflexivity. Qed.

Example calc_of_an_object_without_toString :
  result_of (SimpleAgent.calculate_execute (H := studio_facade) "({ toString: 5 })"
               (in_studio empty_desk []))
  = Ret (fail_result "Invalid mathematical expression") /\
  result_of (SimpleAgent.calculate_execute (H := studio_facade) "[1, 2]"
               (in_studio empty_desk []))
  = Ret (VObj [("success", VBool true); ("result", VStr "1,2");
               ("message", VStr "[1, 2] = 1,2")]).
Proof. split; reflexivity. Qed.

Example click_on_an_empty_desk :
  TestAgent.executeCommand (H := desk_facade) "click" ["name:Seven"] empty_desk =
  (Exit 1, empty_desk,
   [EvPrint "🖱️ Looking for name:Seven...";
    EvCall (MkLocator "name:Seven") None;
    EvCall (LocatorFirst {| locator_id := 0 |}) (Some "Element not found");
    EvPrint "❌ Element not found"]).
Proof. reflexivity. Qed.

Example find_on_a_desk_with_buttons :
  result_of (TestAgent.executeCommand (H := desk_facade) "find" ["role:Button"]
               seven_buttons) = Ret tt.
Proof. reflexivity. Qed.

Lemma ai_agent_checks_arguments_first_witness :
  AiAgent.webTool_execute (H := desk_facade) "open" None None seven_buttons =
  (Ret (VObj [("error", VStr "URL required for open action")]), seven_buttons, []).
Proof.
  exact (proj2 (proj2 (proj2 (proj2 (proj2
           (@ai_agent_checks_arguments_first desk desk_facade None seven_buttons
              eq_refl))))) None).
Defined.


(** A negative limit keeps all but the last matches: five of seven for -2. *)
Example all_but_two_of_seven_are_described :
  exists v details,
    result_of (AiAgent.findElements_execute (H := desk_facade) "role:Button" (-2)
                 seven_buttons) = Ret v /\
    get "count" v = VNum 7 /\ get "returned" v = VNum 5 /\
    get "elements" v = VArr details /\ List.length details = 5%nat.
Proof. eexists _, _. repeat split; reflexivity. Qed.

Example three_of_seven_are_described :
  exists v details,
    result_of (AiAgent.findElements_execute (H := desk_facade) "role:Button" 3
                 seven_buttons) = Ret v /\
    get "count" v = VNum 7 /\ get "returned" v = VNum 3 /\
    get "elements" v = VArr details /\ List.length details = 3%nat.
Proof. eexists _, _. repeat split; reflexivity. Qed.

Lemma listed_applications_are_the_first_ten_witness :
  let twelve := {| on_screen := 12; keyboard := [] |} in
  (exists message,
      result_of (AiAgent.appControl_execute (H := desk_facade) "list" None twelve) =
      Ret (VObj [("error", VStr ("App control failed: " ++ message))])) \/
  (exists v described,
      result_of (AiAgent.appControl_execute (H := desk_facade) "list" None twelve)
      = Ret v /\
      get "count" v = VNum (Z.of_nat (List.length (elements_on twelve))) /\
      get "applications" v = VArr described /\
      List.length described = Nat.min (List.length (elements_on twelve)) 10 /\
      result_of (mapM (AiAgent.describe_app (H := desk_facade))
                   (firstn 10 (elements_on twelve)) twelve) = Ret described).
Proof.
  intros twelve.
  exact (@listed_applications_are_the_first_ten desk desk_facade None twelve twelve
           (elements_on twelve) eq_refl).
Defined.

(** What is read off the desk is short: the preview is the whole text. *)
Lemma ocr_preview_is_bounded_witness :
  let v := VObj [("status", VStr "success");
                 ("source", VStr "screenshot");
                 ("textLength", VNum 14);
                 ("wordCount", VNum 3);
                 ("text", VStr "File Edit View");
                 ("fullText", VStr "File Edit View")] in
  result_of (AiAgent.ocrTool_execute (H := desk_facade) None seven_buttons) = Ret v /\
  exists full preview,
    get "fullText" v = VStr full /\
    get "text" v = VStr preview /\
    get "textLength" v = VNum (len full) /\
    (len preview <= 1003)%Z /\
    ((len full <= 1000)%Z -> preview = full) /\
    ((1000 < len full)%Z -> preview = substring 0 1000 full ++ "...").
Proof.
  split; [reflexivity |].
  exact (@ocr_preview_is_bounded desk desk_facade None seven_buttons _ _ _
           eq_refl eq_refl).
Defined.

Lemma calculator_survives_the_app_witness :
  (primitive (VNum 4) = true -> "4" = js_to_string (VNum 4)) /\
  exists v w' evs,
    AiAgent.calculator_execute (H := desk_facade) "2+2" true seven_buttons
    = (Ret v, w', evs) /\
    get "result" v = VStr "4" /\
    get "expression" v = VStr "2+2" /\
    has_field "error" v = false.
Proof.
  exact (@calculator_survives_the_app desk desk_facade "2+2" true seven_buttons
           seven_buttons seven_buttons (VNum 4) "4" [] eq_refl eq_refl).
Defined.

(** A studio whose disk cannot be read, with "files" typed at the prompt. *)
Lemma files_command_breaks_on_unreadable_directory_witness :
  let locked (typed : list string) :=
    {| at_desk := {| on_screen := 0; keyboard := typed |};
       folder := [];
       disk_error := Some "EACCES: permission denied, scandir '.'";
       model_error := None |} in
  AiAgent.main (H := studio_facade) 1 0 (locked ["files"]) =
  (Exit 1, locked [],
   started ++
   (asked ++ [EvSpinner "📂 Listing files...";
              EvCall (FsReaddir ".") (Some "EACCES: permission denied, scandir '.'");
              EvSpinnerStop;
              EvPrint "📁 Files in undefined:"]) ++
   [EvPrint ("🚨 Fatal error: "
             ++ "Cannot read properties of undefined (reading 'forEach')")])%list.
Proof.
  intros locked.
  exact (proj2 (@files_command_breaks_on_unreadable_directory studio studio_facade 0
                  "files" "EACCES: permission denied, scandir '.'" []
                  (locked ["files"]) (locked []) (locked [])
                  eq_refl eq_refl eq_refl)
           0%nat (locked ["files"]) (locked ["files"]) "A star with five points."
           eq_refl eq_refl).
Defined.

(** A studio whose model is down. *)
Lemma model_unavailable_is_fatal_witness :
  let offline :=
    {| at_desk := {| on_screen := 0; keyboard := ["help"] |};
       folder := [];
       disk_error := None;
       model_error := Some "connect ECONNREFUSED 127.0.0.1:11434" |} in
  AiAgent.main (H := studio_facade) 3 0 offline =
  (Exit 1, offline,
   [EvCall NewDesktop None;
    EvPrint "AI Agent";
    EvPrint (nl ++ "🤖 Powered by Terminator.js + DeepSeek-R1:1.5B + Ollama + Vercel AI SDK" ++ nl);
    EvPrint AiAgent.banner_text;
    EvSpinner "🔍 Checking DeepSeek-R1:1.5B availability...";
    EvCall (GenerateText "Hello! Are you working correctly?")
      (Some "connect ECONNREFUSED 127.0.0.1:11434");
    EvPrint "❌ DeepSeek-R1:1.5B not available";
    EvPrint (nl ++ "🚨 Setup Instructions:");
    EvPrint "1. Install Ollama: curl -fsSL https://ollama.ai/install.sh | sh";
    EvPrint "2. Pull the model: ollama pull deepseek-r1:1.5b";
    EvPrint "3. Ensure Ollama is running: ollama serve"]).
Proof.
  intros offline.
  exact (@model_unavailable_is_fatal studio studio_facade 3 0 offline offline offline
           "connect ECONNREFUSED 127.0.0.1:11434" eq_refl eq_refl).
Defined.

Lemma commands_keep_history_witness :
  match AiAgent.history_command (World := desk) [] [AiAgent.Chat "hi" "hello"]
          seven_buttons with
  | (Ret history', _, _) =>
      ("history" = "clear" /\ history' = []) \/
      (exists added,
          history' = ([AiAgent.Chat "hi" "hello"] ++ added)%list /\
          ("history" <> "think" -> "history" <> "chat" -> added = []))
  | _ => True
  end.
Proof.
  exact (@commands_keep_history desk desk_facade 0 "history" AiAgent.history_command
           [] [AiAgent.Chat "hi" "hello"] seven_buttons eq_refl).
Defined.

(** [screenshot] typed on an empty desk. *)
Lemma commands_come_back_to_the_prompt_witness :
  exists history' w' evs,
    AiAgent.screenshot_command (H := desk_facade) [] [] empty_desk
    = (Ret history', w', evs).
Proof.
  apply (@commands_come_back_to_the_prompt desk desk_facade 0 "screenshot"
           AiAgent.screenshot_command [] [] empty_desk eq_refl); discriminate.
Defined.

(** [calc] of an expression that ends the process does not come back. *)
Example calc_command_can_end_the_process :
  AiAgent.calc_command (H := studio_facade) ["process.exit(7)"] []
    (in_studio empty_desk []) =
  (Exit 7, in_studio empty_desk [],
   [EvSpinner "🧮 Calculating...";
    EvCall (EvalJs (strict_return "process.exit(7)")) None]).
Proof. reflexivity. Qed.

Lemma commands_read_the_first_word_witness :
  AiAgent.type_command (H := desk_facade) ["hello"; "world"] [] seven_buttons
  = AiAgent.type_command (H := desk_facade) ["hello"] [] seven_buttons.
Proof.
  apply (@commands_read_the_first_word desk desk_facade 0 "type" AiAgent.type_command
           "hello" ["world"] [] seven_buttons eq_refl).
  discriminate.
Defined.

(** Typing "type hello world" at the prompt types "hello". *)
Example only_hello_is_typed :
  events_of (AiAgent.command_round (H := desk_facade) 0 []
               {| on_screen := 1; keyboard := ["type hello world"] |}) =
  [EvPrint ""; EvCall (Prompt "🤖 Agent") None;
   EvSpinner "⌨️ Typing text...";
   EvCall FocusedElement None;
   EvCall (ElTypeText {| element_id := 0 |} "hello" false) None;
   EvSpinnerStop;
   EvPrint ("✅ Typed " ++ dquote ++ "hello" ++ dquote)].
Proof. reflexivity. Qed.


(** A studio with two captures and other files in its folder. *)
Lemma analyzeArtwork_reads_the_latest_capture_witness :
  let gallery :=
    in_studio empty_desk
      ["notes.txt"; "artwork_2024-01-01.png"; "artwork_2024-03-01.png"; "art_17.png"] in
  filter is_capture (folder gallery) <> [] /\
  exists latest v w' evs,
    In latest (folder gallery) /\ is_capture latest = true /\
    (forall f, In f (folder gallery) -> is_capture f = true ->
               string_leb f latest = true) /\
    VisionArtist.analyzeArtwork_execute (H := studio_facade) (VStr "the star") gallery
    = (Ret v, w', evs) /\
    files_read evs = [latest] /\
    (get "success" v = VBool true -> get "file" v = VStr latest).
Proof.
  intros gallery.
  assert (Hsome : filter is_capture (folder gallery) <> []) by discriminate.
  split; [exact Hsome |].
  exact (proj2 (@analyzeArtwork_reads_the_latest_capture studio studio_facade
                  (VStr "the star") (folder gallery) gallery gallery eq_refl) Hsome).
Defined.

Example the_march_capture_is_analysed :
  get "file"
    (match result_of
             (VisionArtist.analyzeArtwork_execute (H := studio_facade) (VStr "the star")
                (in_studio empty_desk
                   ["notes.txt"; "artwork_2024-01-01.png"; "artwork_2024-03-01.png";
                    "art_17.png"])) with
     | Ret v => v
     | _ => VUndef
     end) = VStr "artwork_2024-03-01.png".
Proof. reflexivity. Qed.

(** The same studio with the model down. *)
Lemma analyzeArtwork_falls_back_on_a_technical_note_witness :
  let gallery :=
    {| at_desk := empty_desk;
       folder := ["artwork_2024-01-01.png"; "artwork_2024-03-01.png"];
       disk_error := None;
       model_error := Some "model not found" |} in
  result_of (VisionArtist.analyzeArtwork_execute (H := studio_facade) (VStr "the star")
               gallery) =
  Ret (VObj [("success", VBool true);
             ("message", VStr "Artwork analysis completed (technical mode)");
             ("analysis",
              VStr (VisionArtist.fallback_analysis "artwork_2024-03-01.png"
                      (round_div_1024 (Z.of_nat (List.length [137; 80; 78; 71]%Z)))
                      "model not found"));
             ("file", VStr "artwork_2024-03-01.png");
             ("focus", VStr "the star")]) /\
  ends_with ("Vision analysis error: " ++ "model not found")
    (VisionArtist.fallback_analysis "artwork_2024-03-01.png"
       (round_div_1024 (Z.of_nat (List.length [137; 80; 78; 71]%Z)))
       "model not found") = true.
Proof.
  intros gallery.
  exact (@analyzeArtwork_falls_back_on_a_technical_note studio studio_facade
           (VStr "the star") (folder gallery) "artwork_2024-03-01.png"
           [137; 80; 78; 71]%Z "model not found" gallery gallery gallery gallery
           eq_refl eq_refl eq_refl eq_refl).
Defined.

Lemma captured_artwork_is_found_witness :
  exists filename,
    filename = "artwork_2024-01-01T00-00-00-000Z.png" /\
    files_written
      (events_of (VisionArtist.captureArtwork_execute (H := desk_facade)
                    (VStr "verify star drawing") seven_buttons)) = [filename] /\
    is_capture filename = true /\
    includes ":" filename = false.
Proof.
  destruct (@captured_artwork_is_found desk desk_facade (VStr "verify star drawing")
              seven_buttons _ _ _ eq_refl eq_refl)
    as (filename & Hname & Hwritten & Hcapture & Hcolon).
  exists filename. injection Hname as <-. repeat split; assumption.
Defined.

(** What a capture made in the studio is followed by: its analysis. *)
Example capture_then_analysis :
  let gallery := in_studio empty_desk ["artwork_2023-12-31T23-59-59-000Z.png"] in
  let captured :=
    VisionArtist.captureArtwork_execute (H := studio_facade) (VStr "verify") gallery in
  files_read
    (events_of (VisionArtist.analyzeArtwork_execute (H := studio_facade) (VStr "star")
                  (world_after captured)))
  = files_written (events_of captured).
Proof. reflexivity. Qed.

Lemma vision_artist_always_ends_well_witness :
  VisionArtist.main (H := desk_facade) (H0 := whole_numbers) ["paint"; "a"; "star"]
    seven_buttons =
  (Ret tt, seven_buttons,
   [EvCall NewDesktop None;
    EvPrint "🎨 Initializing Vision AI Artist...";
    EvPrint "✅ Desktop automation engine initialized";
    EvPrint ("❌ Unknown command: " ++ "paint")]).
Proof.
  refine (proj2 (@vision_artist_always_ends_well desk desk_facade Z whole_numbers
                   "paint" ["a"; "star"] seven_buttons seven_buttons eq_refl _)
            eq_refl).
  discriminate.
Defined.

Lemma working_artist_always_ends_well_witness :
  exists w' evs,
    WorkingArtist.main (H := desk_facade) ["star"] empty_desk = (Ret tt, w', evs).
Proof.
  exact (@working_artist_always_ends_well desk desk_facade ["star"] empty_desk
           empty_desk eq_refl).
Defined.

Lemma simple_artist_always_ends_well_witness :
  exists w' evs,
    SimpleVisionArtistCli.main (H := desk_facade) ["test"] empty_desk
    = (Ret tt, w', evs).
Proof.
  refine (@simple_artist_always_ends_well desk desk_facade "test" [] empty_desk
            empty_desk eq_refl _).
  discriminate.
Defined.

(** On an empty desk nothing can be drawn, and the test still runs to its
    last line. *)
Example the_test_reaches_its_last_line :
  last (events_of (SimpleVisionArtistCli.main (H := desk_facade) ["test"] empty_desk))
       EvSpinnerStop
  = EvPrint (nl ++ "✅ Test complete!").
Proof. reflexivity. Qed.

Lemma saved_screenshot_is_found_witness :
  exists filename,
    filename = "art_1700000000000.png" /\
    files_written
      (events_of (SimpleVisionArtist.takeScreenshot_execute (H := desk_facade) None
                    seven_buttons)) = [filename] /\
    is_art filename = true /\
    is_capture filename = false.
Proof.
  destruct (@saved_screenshot_is_found desk desk_facade None seven_buttons _ _ _
              eq_refl eq_refl)
    as (filename & Hname & Hwritten & Hart & Hcapture).
  exists filename. injection Hname as <-. repeat split; assumption.
Defined.

Lemma analyzeScreenshot_reads_the_latest_screenshot_witness :
  let gallery :=
    in_studio empty_desk ["art_1700000000000.png"; "art_1700000000500.png";
                          "artwork_2024-03-01.png"] in
  filter is_art (folder gallery) <> [] /\
  exists latest v w' evs,
    In latest (folder gallery) /\ is_art latest = true /\
    (forall f, In f (folder gallery) -> is_art f = true -> string_leb f latest = true) /\
    SimpleVisionArtist.analyzeScreenshot_execute (H := studio_facade) None gallery
    = (Ret v, w', evs) /\
    files_read evs = [latest] /\
    (get "success" v = VBool true -> get "file" v = VStr latest) /\
    (forall failure, In (Some failure) (List.map snd (model_requests evs)) ->
                     v = fail_result failure).
Proof.
  intros gallery.
  assert (Hsome : filter is_art (folder gallery) <> []) by discriminate.
  split; [exact Hsome |].
  exact (proj2 (@analyzeScreenshot_reads_the_latest_screenshot studio studio_facade
                  None (folder gallery) gallery gallery eq_refl) Hsome).
Defined.


(** A model that is down is reported, and the chat goes on. *)
Example the_chat_goes_on :
  SimpleAgentChat.chat (H := studio_facade) 2
    {| at_desk := {| on_screen := 0; keyboard := ["hello"; "quit"] |};
       folder := []; disk_error := None; model_error := Some "model not found" |}
  = (Ret tt,
     {| at_desk := empty_desk;
        folder := []; disk_error := None; model_error := Some "model not found" |},
     [EvCall (Prompt "You:") None;
      EvPrint (nl ++ "🤖 AI:  { newline: false }");
      EvCall (StreamText (Some (TestAgent.system_prompt (H := studio_facade))) "hello" []
                TestAgent.tool_names) (Some "model not found");
      EvPrint (nl ++ "❌ Error: " ++ "model not found" ++ nl);
      EvCall (Prompt "You:") None;
      EvPrint (nl ++ "👋 Goodbye!")]).
Proof. reflexivity. Qed.
